(** * skiboot: the exception dispatcher of core/exceptions.c

    A shallow embedding of [dump_regs], [print_recoverable_mce_vm] and
    [exception_entry], followed by the properties of the dispatcher:
    which traps end in [abort()], which resume, what is written to the
    stack frame, and that the summary line never leaves its buffer. *)

From Stdlib Require Import ZArith Ascii String DecimalString Bool List Lia.
Import ListNotations.
Open Scope Z_scope.

(** ** Machine integers *)

(** [uint64_t] and [size_t] arithmetic wraps modulo 2^64. *)
Definition wrap64 (z : Z) : Z := z mod 2 ^ 64.

(** [uint32_t] values, as passed to the [%08x] directive. *)
Definition wrap32 (z : Z) : Z := z mod 2 ^ 32.

(** ** Text *)

Definition text := list ascii.

(** A C string literal. *)
Definition lit (s : string) : text := list_ascii_of_string s.

Definition NUL : ascii := "000"%char.
Definition newline : ascii := "010"%char.

Definition is_nul (c : ascii) : bool := Ascii.eqb c NUL.

Definition hex_digits : text := lit "0123456789abcdef".

Definition hexdigit (d : Z) : ascii := nth (Z.to_nat d) hex_digits "0"%char.

(** The [w] low nibbles of [v], most significant first. *)
Fixpoint hex_fixed (w : nat) (v : Z) : text :=
  match w with
  | O => []
  | S w' => hexdigit (Z.land (Z.shiftr v (4 * Z.of_nat w')) 15) :: hex_fixed w' v
  end.

Fixpoint strip_zeros (t : text) : text :=
  match t with
  | c :: (_ :: _) as rest => if Ascii.eqb c "0"%char then strip_zeros rest else t
  | _ => t
  end.

(** [REG], that is ["%016llx"]: sixteen digits for a 64-bit value. *)
Definition REG (v : Z) : text := hex_fixed 16 (wrap64 v).

(** [REG32], that is ["%08x"]. *)
Definition REG32 (v : Z) : text := hex_fixed 8 (wrap32 v).

(** ["%llx"]: no padding, at least one digit. *)
Definition fmt_llx (v : Z) : text := strip_zeros (hex_fixed 16 (wrap64 v)).

(** ["%02d"] for the non-negative loop counter of [dump_regs]. *)
Definition fmt_02d (i : Z) : text :=
  let d := lit (NilZero.string_of_uint (N.to_uint (Z.to_N i))) in
  repeat "0"%char (2 - length d) ++ d.

Definition EXCEPTION_MAX_STR : Z := 320.

(** ** The character buffer [char buf[EXCEPTION_MAX_STR]]

    A buffer is a window of [capacity] cells over memory.  A store
    outside the window is an overrun: it has no result. *)

Record buffer := mk_buffer { capacity : Z; cell : Z -> ascii }.

Definition in_bounds (b : buffer) (i : Z) : bool :=
  (0 <=? i) && (i <? capacity b).

Definition poke (b : buffer) (i : Z) (c : ascii) : option buffer :=
  if in_bounds b i
  then Some (mk_buffer (capacity b) (fun j => if j =? i then c else cell b j))
  else None.

Fixpoint poke_text (b : buffer) (off : Z) (t : text) : option buffer :=
  match t with
  | [] => Some b
  | c :: t' =>
      match poke b off c with
      | Some b' => poke_text b' (off + 1) t'
      | None => None
      end
  end.

(** Modelled from the spec: [snprintf] is the formatter of the
    firmware's own libc, outside [core/exceptions.c].  The spec says
    that formatting writes into a fixed-capacity buffer and that writes
    beyond capacity truncate silently.  [off] is the offset of the
    destination inside the buffer ([buf + l]), [size] the size argument
    and [t] the expanded format.  At most [size - 1] characters are
    stored, then a terminator; the result is the number of characters
    stored.  With [size = 0] nothing is stored. *)
Definition snprintf (b : buffer) (off size : Z) (t : text) : option (buffer * Z) :=
  if size =? 0 then Some (b, 0)
  else
    let k := Z.min (Z.of_nat (length t)) (size - 1) in
    match poke_text b off (firstn (Z.to_nat k) t ++ [NUL]) with
    | Some b' => Some (b', k)
    | None => None
    end.

(** Reading a C string ([%s]): the characters before the first
    terminator.  Running off the end of the window has no result. *)
Fixpoint scan (fuel : nat) (b : buffer) (i : Z) : option text :=
  match fuel with
  | O => None
  | S fuel' =>
      if is_nul (cell b i) then Some []
      else option_map (cons (cell b i)) (scan fuel' b (i + 1))
  end.

Definition cstring (b : buffer) : option text :=
  scan (Z.to_nat (capacity b)) b 0.

(** ** The stack frame and the machine state *)

(** The fields of [struct stack_frame] that the dispatcher names. *)
Record stack_frame := mk_frame {
  gpr : list Z;
  cr : Z;
  xer : Z;
  dsisr : Z;
  ctr : Z;
  lr : Z;
  msr : Z;
  cfar : Z;
  srr0 : Z;
  srr1 : Z;
  hsrr0 : Z;
  hsrr1 : Z;
  dar : Z;
  type : Z
}.

Definition set_srr0 (v : Z) (f : stack_frame) : stack_frame :=
  mk_frame (gpr f) (cr f) (xer f) (dsisr f) (ctr f) (lr f) (msr f) (cfar f)
           v (srr1 f) (hsrr0 f) (hsrr1 f) (dar f) (type f).

Definition set_srr1 (v : Z) (f : stack_frame) : stack_frame :=
  mk_frame (gpr f) (cr f) (xer f) (dsisr f) (ctr f) (lr f) (msr f) (cfar f)
           (srr0 f) v (hsrr0 f) (hsrr1 f) (dar f) (type f).

(** The two fields of [struct cpu_thread] reached through [this_cpu()]. *)
Record cpu_thread := mk_cpu {
  vm_local_map_inuse : bool;
  vm_setup : bool
}.

(** What a run does to the outside, in program order. *)
Inductive event :=
| Prerror (line : text)          (* one [prerror] call, format expanded *)
| Backtrace                      (* [backtrace()] *)
| StoreSrr0 (v : Z)              (* [stack->srr0 = v] *)
| StoreSrr1 (v : Z)              (* a store to [stack->srr1] *)
| StoreVmSetup (v : bool).       (* [this_cpu()->vm_setup = v] *)

Record machine := mk_machine {
  stack : stack_frame;           (* the frame [*stack] *)
  this_cpu : cpu_thread;
  uninit : Z -> ascii;           (* what the stack holds where a [buf] is allocated *)
  trace : list event
}.

Definition emit (es : list event) (m : machine) : machine :=
  mk_machine (stack m) (this_cpu m) (uninit m) (trace m ++ es).

(** ** A state monad with [abort()]

    [abort()] does not return: [Aborts] carries the state at the call
    and nothing after it runs.  [Overrun] is a store or a read that
    left a buffer. *)

Inductive result (A : Type) :=
| Returns (a : A) (m : machine)
| Aborts (m : machine)
| Overrun.
Arguments Returns {A} a m.
Arguments Aborts {A} m.
Arguments Overrun {A}.

Definition M (A : Type) := machine -> result A.

Definition ret {A} (a : A) : M A := fun m => Returns a m.

Definition bind {A B} (c : M A) (k : A -> M B) : M B :=
  fun m =>
    match c m with
    | Returns a m' => k a m'
    | Aborts m' => Aborts m'
    | Overrun => Overrun
    end.

Notation "x <- c ;; k" := (bind c (fun x => k))
  (at level 61, c at next level, right associativity).
Notation "' pat <- c ;; k" := (bind c (fun x => match x with pat => k end))
  (at level 61, pat pattern, c at next level, right associativity).
Notation "c ;; k" := (bind c (fun _ => k))
  (at level 61, right associativity).

Definition abort {A} : M A := fun m => Aborts m.

Definition checked {A} (o : option A) : M A :=
  fun m => match o with Some a => Returns a m | None => Overrun end.

Definition get_stack : M stack_frame := fun m => Returns (stack m) m.
Definition get_cpu : M cpu_thread := fun m => Returns (this_cpu m) m.

(** A fresh automatic [char buf[EXCEPTION_MAX_STR]]: its cells hold
    whatever the stack held. *)
Definition alloc_buf : M buffer :=
  fun m => Returns (mk_buffer EXCEPTION_MAX_STR (uninit m)) m.

Definition prerror (t : text) : M unit :=
  fun m => Returns tt (emit [Prerror t] m).

Definition backtrace : M unit :=
  fun m => Returns tt (emit [Backtrace] m).

Definition store_srr0 (v : Z) : M unit :=
  fun m => Returns tt
    (mk_machine (set_srr0 v (stack m)) (this_cpu m) (uninit m)
                (trace m ++ [StoreSrr0 v])).

Definition store_srr1 (v : Z) : M unit :=
  fun m => Returns tt
    (mk_machine (set_srr1 v (stack m)) (this_cpu m) (uninit m)
                (trace m ++ [StoreSrr1 v])).

Definition store_vm_setup (v : bool) : M unit :=
  fun m => Returns tt
    (mk_machine (stack m) (mk_cpu (vm_local_map_inuse (this_cpu m)) v)
                (uninit m) (trace m ++ [StoreVmSetup v])).

(** [prerror("%s\n", buf)] *)
Definition prerror_buf (b : buffer) : M unit :=
  s <- checked (cstring b) ;;
  prerror (s ++ [newline]).

(** ** What the dispatcher is linked against *)

(** The bit masks that [processor.h] defines; the dispatcher only
    tests and clears them, so their values are left open. *)
Class Processor := {
  MSR_RI : Z;
  MSR_IR : Z;
  MSR_DR : Z;
  DSISR_ISSTORE : Z
}.

(** The fault resolvers of the virtual-memory code and the symbol
    table, consulted by value. *)
Class Collaborators := {
  vm_dsi : Z -> Z -> bool -> bool;
  vm_dslb : Z -> Z -> bool;
  vm_isi : Z -> bool;
  vm_islb : Z -> bool;
  get_symbol : Z -> option text
}.

Section Dispatcher.

Context {processor : Processor} {collaborators : Collaborators}.

(** Modelled from the spec: [snprintf_symbol] is defined with the
    symbol table, outside [core/exceptions.c].  The spec calls it a
    best-effort resolved symbol name that may be absent without
    affecting the rest of the report, written through the same
    truncating formatter.  An absent symbol stores nothing and counts
    zero characters. *)
Definition snprintf_symbol (b : buffer) (off size : Z) (addr : Z)
  : option (buffer * Z) :=
  match get_symbol addr with
  | Some name => snprintf b off size name
  | None => Some (b, 0)
  end.

(** *** [dump_regs] *)

(** [stack->gpr[i]]; the array has 32 cells and the loop reads each once. *)
Definition gpr_at (st : stack_frame) (i : Z) : Z := nth (Z.to_nat i) (gpr st) 0.

(** The loop [for (i = 0; i < 16; i++)], with [n] iterations left. *)
Fixpoint dump_gprs (n : nat) (i : Z) (st : stack_frame) : M unit :=
  match n with
  | O => ret tt
  | S n' =>
      prerror (lit "GPR" ++ fmt_02d i ++ lit ": " ++ REG (gpr_at st i)
               ++ lit " GPR" ++ fmt_02d (i + 16) ++ lit ": "
               ++ REG (gpr_at st (i + 16)) ++ [newline]) ;;
      dump_gprs n' (i + 1) st
  end.

Definition dump_regs : M unit :=
  st <- get_stack ;;
  prerror (lit "CFAR : " ++ REG (cfar st) ++ lit " MSR  : " ++ REG (msr st)
           ++ [newline]) ;;
  prerror (lit "SRR0 : " ++ REG (srr0 st) ++ lit " SRR1 : " ++ REG (srr1 st)
           ++ [newline]) ;;
  prerror (lit "HSRR0: " ++ REG (hsrr0 st) ++ lit " HSRR1: " ++ REG (hsrr1 st)
           ++ [newline]) ;;
  prerror (lit "DSISR: " ++ REG32 (dsisr st) ++ lit "         DAR  : "
           ++ REG (dar st) ++ [newline]) ;;
  prerror (lit "LR   : " ++ REG (lr st) ++ lit " CTR  : " ++ REG (ctr st)
           ++ [newline]) ;;
  prerror (lit "CR   : " ++ REG32 (cr st) ++ lit "         XER  : "
           ++ REG32 (xer st) ++ [newline]) ;;
  dump_gprs 16 0 st.

(** *** [print_recoverable_mce_vm] *)

Definition print_recoverable_mce_vm (nip msr : Z) : M unit :=
  buf <- alloc_buf ;;
  let l := 0 in
  '(buf, r) <- checked (snprintf buf l (wrap64 (EXCEPTION_MAX_STR - l))
                  (lit "Recoverable MCE with VM on at " ++ REG nip ++ lit "   ")) ;;
  let l := wrap64 (l + r) in
  '(buf, r) <- checked (snprintf_symbol buf l (wrap64 (EXCEPTION_MAX_STR - l)) nip) ;;
  let l := wrap64 (l + r) in
  '(buf, r) <- checked (snprintf buf l (wrap64 (EXCEPTION_MAX_STR - l))
                  (lit "  MSR " ++ REG msr)) ;;
  prerror_buf buf ;;
  dump_regs ;;
  prerror (lit "Continuing with VM off" ++ [newline]).

(** *** [exception_entry] *)

Definition banner : text :=
  lit "***********************************************" ++ [newline].

(** The first [switch]: which vectors arrive through HSRR0/HSRR1. *)
Definition is_hv (ty : Z) : bool :=
  (ty =? 0x500) || (ty =? 0x980) || (ty =? 0xe00) || (ty =? 0xe20)
  || (ty =? 0xe40) || (ty =? 0xe60) || (ty =? 0xe80) || (ty =? 0xea0)
  || (ty =? 0xf80).

(** Lines 68-91: [hv], [nip] and [msr]. *)
Definition classify (st : stack_frame) : bool * Z * Z :=
  let hv := is_hv (type st) in
  if hv then (hv, hsrr0 st, hsrr1 st) else (hv, srr0 st, srr1 st).

(** How control leaves the second [switch]: [goto out], or [break]
    with the summary begun in [buf] up to offset [l]. *)
Inductive switch_exit :=
| GotoOut (fatal : bool)
| Break (fatal : bool) (buf : buffer) (l : Z).

(** Lines 96-168. *)
Definition exception_switch (st : stack_frame) (buf : buffer)
    (fatal : bool) (nip msr : Z) : M switch_exit :=
  let l := 0 in
  if type st =? 0x100 then
    prerror banner ;;
    '(buf, r) <- checked (snprintf buf l (wrap64 (EXCEPTION_MAX_STR - l))
                    (if fatal
                     then lit "Fatal System Reset at " ++ REG nip ++ lit "   "
                     else lit "System Reset at " ++ REG nip ++ lit "   ")) ;;
    ret (Break fatal buf (wrap64 (l + r)))
  else if type st =? 0x200 then
    cpu <- get_cpu ;;
    let fatal := if vm_local_map_inuse cpu then true else fatal in
    if negb fatal && negb (Z.land msr (Z.lor MSR_IR MSR_DR) =? 0) then
      print_recoverable_mce_vm nip msr ;;
      store_vm_setup false ;;
      st' <- get_stack ;;
      store_srr1 (wrap64 (Z.land (srr1 st') (Z.lnot (Z.lor MSR_IR MSR_DR)))) ;;
      ret (GotoOut fatal)
    else
      let fatal := true in
      prerror banner ;;
      '(buf, r) <- checked (snprintf buf l (wrap64 (EXCEPTION_MAX_STR - l))
                      (lit "Fatal MCE at " ++ REG nip ++ lit "   ")) ;;
      ret (Break fatal buf (wrap64 (l + r)))
  else if type st =? 0x300 then
    if vm_dsi nip (dar st) (negb (Z.land (dsisr st) DSISR_ISSTORE =? 0)) then
      ret (GotoOut fatal)
    else
      let fatal := true in
      '(buf, r) <- checked (snprintf buf l (wrap64 (EXCEPTION_MAX_STR - l))
                      (lit "Fatal "
                       ++ (if Z.land (dsisr st) DSISR_ISSTORE =? 0
                           then lit "load" else lit "store")
                       ++ lit " address " ++ REG (dar st) ++ lit " at "
                       ++ REG nip ++ lit "   ")) ;;
      ret (Break fatal buf (wrap64 (l + r)))
  else if type st =? 0x380 then
    if vm_dslb nip (dar st) then
      ret (GotoOut fatal)
    else
      let fatal := true in
      '(buf, r) <- checked (snprintf buf l (wrap64 (EXCEPTION_MAX_STR - l))
                      (lit "Fatal load/store address " ++ REG (dar st)
                       ++ lit " at " ++ REG nip ++ lit "   ")) ;;
      ret (Break fatal buf (wrap64 (l + r)))
  else if type st =? 0x400 then
    if vm_isi nip then
      ret (GotoOut fatal)
    else
      let fatal := true in
      '(buf, r) <- checked (snprintf buf l (wrap64 (EXCEPTION_MAX_STR - l))
                      (lit "Fatal ifetch at " ++ REG nip ++ lit "   ")) ;;
      ret (Break fatal buf (wrap64 (l + r)))
  else if type st =? 0x480 then
    if vm_islb nip then
      ret (GotoOut fatal)
    else
      let fatal := true in
      '(buf, r) <- checked (snprintf buf l (wrap64 (EXCEPTION_MAX_STR - l))
                      (lit "Fatal ifetch at " ++ REG nip ++ lit "   ")) ;;
      ret (Break fatal buf (wrap64 (l + r)))
  else
    let fatal := true in
    prerror banner ;;
    '(buf, r) <- checked (snprintf buf l (wrap64 (EXCEPTION_MAX_STR - l))
                    (lit "Fatal Exception 0x" ++ fmt_llx (type st) ++ lit " at "
                     ++ REG nip ++ lit "  ")) ;;
    ret (Break fatal buf (wrap64 (l + r))).

(** Lines 176-184, from the label [out]. *)
Definition exception_out (fatal hv : bool) (nip msr : Z) : M unit :=
  (if fatal then abort else ret tt) ;;
  if hv then
    store_srr0 nip ;;
    store_srr1 msr
  else ret tt.

(** Lines 169-175: the rest of the summary, the register dump and the
    backtrace, reached by [break] only. *)
Definition exception_report (fatal : bool) (buf : buffer) (l : Z)
    (nip msr : Z) : M unit :=
  '(buf, r) <- checked (snprintf_symbol buf l (wrap64 (EXCEPTION_MAX_STR - l)) nip) ;;
  let l := wrap64 (l + r) in
  '(buf, r) <- checked (snprintf buf l (wrap64 (EXCEPTION_MAX_STR - l))
                  (lit "  MSR " ++ REG msr)) ;;
  prerror_buf buf ;;
  dump_regs ;;
  if negb fatal then backtrace else ret tt.

Definition exception_entry : M unit :=
  st <- get_stack ;;
  buf <- alloc_buf ;;
  let '(hv, nip, msr) := classify st in
  let fatal := Z.land msr MSR_RI =? 0 in
  x <- exception_switch st buf fatal nip msr ;;
  match x with
  | GotoOut fatal => exception_out fatal hv nip msr
  | Break fatal buf l =>
      exception_report fatal buf l nip msr ;;
      exception_out fatal hv nip msr
  end.

(** ** The vocabulary of the properties *)

(** The summary so far: [l] is inside the buffer, the terminator sits
    at [l], and the buffer starts with [pre]. *)
Definition built (b : buffer) (l : Z) (pre : text) : Prop :=
  capacity b = EXCEPTION_MAX_STR /\ 0 <= l < EXCEPTION_MAX_STR /\
  cell b l = NUL /\ Z.of_nat (length pre) <= l /\
  forall i, (i < length pre)%nat -> cell b (Z.of_nat i) = nth i pre NUL.

(** No terminator inside a text. *)
Definition clean (t : text) : bool := forallb (fun c => negb (is_nul c)) t.

(** What [%s] shows of a text: the characters before its first
    terminator. *)
Fixpoint upto_nul (t : text) : text :=
  match t with
  | [] => []
  | c :: t' => if is_nul c then [] else c :: upto_nul t'
  end.

(** The most characters the summary buffer holds before its terminator. *)
Definition summary_room : nat := Z.to_nat (EXCEPTION_MAX_STR - 1).

Fixpoint starts_with (p t : text) : bool :=
  match p, t with
  | [], _ => true
  | c :: p', d :: t' => Ascii.eqb c d && starts_with p' t'
  | _ :: _, [] => false
  end.

(** The notice of [print_recoverable_mce_vm]. *)
Definition is_recoverable_notice (e : event) : bool :=
  match e with
  | Prerror t => starts_with (lit "Recoverable MCE with VM on") t
  | _ => false
  end.

(** A line of text: it ends in a newline and, the newline aside, is
    shorter than the buffer. *)
Definition is_line (e : event) : bool :=
  match e with
  | Prerror t =>
      match rev t with
      | c :: body => Ascii.eqb c newline && (Z.of_nat (length body) <? EXCEPTION_MAX_STR)
      | [] => false
      end
  | _ => false
  end.

Definition is_backtrace (e : event) : bool :=
  match e with
  | Backtrace => true
  | _ => false
  end.

(** A line of [dump_regs]: text, short, and not the notice. *)
Definition is_register_line (e : event) : bool :=
  is_line e && negb (is_recoverable_notice e).

(** A store to the stack frame. *)
Definition is_frame_store (e : event) : bool :=
  match e with
  | StoreSrr0 _ | StoreSrr1 _ => true
  | _ => false
  end.

Definition is_srr0_store (e : event) : bool :=
  match e with
  | StoreSrr0 _ => true
  | _ => false
  end.

Definition mce_notice (nip : Z) : text :=
  lit "Recoverable MCE with VM on at " ++ REG nip ++ lit "   ".

(** The address and the mode word the dispatcher works on. *)
Definition nip_of (st : stack_frame) : Z :=
  if is_hv (type st) then hsrr0 st else srr0 st.

Definition msr_of (st : stack_frame) : Z :=
  if is_hv (type st) then hsrr1 st else srr1 st.

Definition unknown_summary (st : stack_frame) : text :=
  lit "Fatal Exception 0x" ++ fmt_llx (type st) ++ lit " at "
  ++ REG (nip_of st) ++ lit "  ".

Definition reset_summary (fatal : bool) (nip : Z) : text :=
  if fatal
  then lit "Fatal System Reset at " ++ REG nip ++ lit "   "
  else lit "System Reset at " ++ REG nip ++ lit "   ".

Definition mce_summary (nip : Z) : text :=
  lit "Fatal MCE at " ++ REG nip ++ lit "   ".

(** The conditions under which a machine check is retried. *)
Definition mce_retried (m : machine) : bool :=
  negb (vm_local_map_inuse (this_cpu m))
  && negb (Z.land (srr1 (stack m)) MSR_RI =? 0)
  && negb (Z.land (srr1 (stack m)) (Z.lor MSR_IR MSR_DR) =? 0).

(** What the retry stores into [srr1]. *)
Definition srr1_vm_off (st : stack_frame) : Z :=
  wrap64 (Z.land (srr1 st) (Z.lnot (Z.lor MSR_IR MSR_DR))).

(** The four vectors handed to the virtual-memory code. *)
Definition is_delegated (ty : Z) : bool :=
  (ty =? 0x300) || (ty =? 0x380) || (ty =? 0x400) || (ty =? 0x480).

(** The answer of the resolver that matches the vector. *)
Definition resolver_handled (st : stack_frame) : bool :=
  if type st =? 0x300 then
    vm_dsi (srr0 st) (dar st) (negb (Z.land (dsisr st) DSISR_ISSTORE =? 0))
  else if type st =? 0x380 then vm_dslb (srr0 st) (dar st)
  else if type st =? 0x400 then vm_isi (srr0 st)
  else if type st =? 0x480 then vm_islb (srr0 st)
  else false.

Definition fault_summary (st : stack_frame) : text :=
  if type st =? 0x300 then
    lit "Fatal "
    ++ (if Z.land (dsisr st) DSISR_ISSTORE =? 0 then lit "load" else lit "store")
    ++ lit " address " ++ REG (dar st) ++ lit " at " ++ REG (srr0 st) ++ lit "   "
  else if type st =? 0x380 then
    lit "Fatal load/store address " ++ REG (dar st) ++ lit " at "
    ++ REG (srr0 st) ++ lit "   "
  else lit "Fatal ifetch at " ++ REG (srr0 st) ++ lit "   ".

(** The three ways a run can end: [abort()] after diagnostics only; a
    return that stored nothing; or the machine-check retry, with its
    two stores at the very end. *)
Inductive run_shape (m : machine) : result unit -> Prop :=
| run_fatal es :
    forallb is_line es = true ->
    run_shape m (Aborts (emit es m))
| run_resume es :
    is_hv (type (stack m)) = false ->
    forallb (fun e => is_line e || is_backtrace e) es = true ->
    run_shape m (Returns tt (emit es m))
| run_retry es :
    type (stack m) = 0x200 ->
    forallb is_line es = true ->
    run_shape m
      (Returns tt
         (mk_machine (set_srr1 (srr1_vm_off (stack m)) (stack m))
            (mk_cpu (vm_local_map_inuse (this_cpu m)) false)
            (uninit m)
            (trace m ++ es ++ [StoreVmSetup false; StoreSrr1 (srr1_vm_off (stack m))]))).

Definition hv_vectors : list Z :=
  [0x500; 0x980; 0xe00; 0xe20; 0xe40; 0xe60; 0xe80; 0xea0; 0xf80].

End Dispatcher.

(** ** Concrete collaborators, frames and machines *)

(** The masks of the Power ISA, as [processor.h] spells them with
    [PPC_BIT]. *)
Definition power : Processor :=
  {| MSR_RI := 0x2; MSR_IR := 0x20; MSR_DR := 0x10; DSISR_ISSTORE := 0x02000000 |}.

(** Resolvers that handle nothing, and an empty symbol table. *)
Definition no_help : Collaborators :=
  {| vm_dsi := fun _ _ _ => false; vm_dslb := fun _ _ => false;
     vm_isi := fun _ => false; vm_islb := fun _ => false;
     get_symbol := fun _ => None |}.

(** Resolvers that handle every fault. *)
Definition vm_helps : Collaborators :=
  {| vm_dsi := fun _ _ _ => true; vm_dslb := fun _ _ => true;
     vm_isi := fun _ => true; vm_islb := fun _ => true;
     get_symbol := fun _ => Some (lit "opal_entry") |}.

(** Resolvers that handle every fault, and an empty symbol table. *)
Definition vm_helps_quietly : Collaborators :=
  {| vm_dsi := fun _ _ _ => true; vm_dslb := fun _ _ => true;
     vm_isi := fun _ => true; vm_islb := fun _ => true;
     get_symbol := fun _ => None |}.

(** A symbol table whose names are four hundred characters long. *)
Definition long_names : Collaborators :=
  {| vm_dsi := fun _ _ _ => false; vm_dslb := fun _ _ => false;
     vm_isi := fun _ => false; vm_islb := fun _ => false;
     get_symbol := fun _ => Some (repeat "A"%char 400) |}.

Definition frame_of (ty s0 s1 h0 h1 : Z) : stack_frame :=
  mk_frame (repeat 0 32) 0 0 0 0 0 0 0 s0 s1 h0 h1 0x3000 ty.

Definition machine_of (local_map : bool) (st : stack_frame) : machine :=
  mk_machine st (mk_cpu local_map true) (fun _ => "?"%char) [].

Definition final {A} (r : result A) (m : machine) : machine :=
  match r with
  | Returns _ m' => m'
  | Aborts m' => m'
  | Overrun => m
  end.

(** System reset, [MSR_RI] clear in SRR1 and set in HSRR1. *)
Definition reset_no_ri : machine :=
  machine_of false (frame_of 0x100 0x1000 0x9000000000001000 0x2000 0x2).

(** System reset, [MSR_RI] set in SRR1 and clear in HSRR1. *)
Definition reset_ri : machine :=
  machine_of false (frame_of 0x100 0x1000 0x9000000000001002 0x2000 0).

(** Machine check with relocation on. *)
Definition mce_vm_on : machine :=
  machine_of false (frame_of 0x200 0x1000 0x9000000000001032 0x2000 0).

Definition mce_local_map : machine :=
  machine_of true (frame_of 0x200 0x1000 0x9000000000001002 0x2000 0).

(** Data storage faults, with and without [MSR_RI]. *)
Definition dsi_ri : machine :=
  machine_of false (frame_of 0x300 0x1000 0x9000000000001032 0x2000 0).

Definition dsi_no_ri : machine :=
  machine_of false (frame_of 0x300 0x1000 0x9000000000001030 0x2000 0).

(** A data storage fault on a store: [DSISR_ISSTORE] set in DSISR. *)
Definition dsi_store : machine :=
  machine_of false
    (mk_frame (repeat 0 32) 0 0 0x02000000 0 0 0 0
              0x1000 0x9000000000001032 0x2000 0 0x3000 0x300).

(** A vector nobody knows, and a hypervisor maintenance interrupt. *)
Definition program_check : machine :=
  machine_of false (frame_of 0x700 0x1000 0x9000000000001002 0x2000 0).

Definition hmi : machine :=
  machine_of false (frame_of 0xe60 0x1000 0 0x2000 0x9000000000001002).

(** ** The handlers of the sleep path *)

(** [exception_entry_pm_sreset] *)
Definition exception_entry_pm_sreset : M unit :=
  buf <- alloc_buf ;;
  prerror banner ;;
  let l := 0 in
  '(buf, r) <- checked (snprintf buf l (wrap64 (EXCEPTION_MAX_STR - l))
                  (lit "System Reset in sleep")) ;;
  let l := wrap64 (l + r) in
  prerror_buf buf ;;
  backtrace.

Section SleepRegisters.

(** [mfspr] reads a special purpose register of the core; the numbers
    of the four registers come from [processor.h]. *)
Context (SPR_SRR0 SPR_SRR1 SPR_DSISR SPR_DAR : Z) (mfspr : Z -> Z).

(** [exception_entry_pm_mce] *)
Definition exception_entry_pm_mce : M unit :=
  buf <- alloc_buf ;;
  prerror banner ;;
  let l := 0 in
  '(buf, r) <- checked (snprintf buf l (wrap64 (EXCEPTION_MAX_STR - l))
                  (lit "Fatal MCE in sleep")) ;;
  let l := wrap64 (l + r) in
  prerror_buf buf ;;
  prerror (lit "SRR0 : " ++ REG (mfspr SPR_SRR0) ++ lit " SRR1 : "
           ++ REG (mfspr SPR_SRR1) ++ [newline]) ;;
  prerror (lit "DSISR: " ++ REG32 (mfspr SPR_DSISR) ++ lit "         DAR  : "
           ++ REG (mfspr SPR_DAR) ++ [newline]) ;;
  abort.

End SleepRegisters.

(** ** The dispatcher as a table *)

Section Verdict.

Context {processor : Processor} {collaborators : Collaborators}.

(** One line of the loop of [dump_regs]. *)
Definition gpr_line (st : stack_frame) (i : Z) : event :=
  Prerror (lit "GPR" ++ fmt_02d i ++ lit ": " ++ REG (gpr_at st i)
           ++ lit " GPR" ++ fmt_02d (i + 16) ++ lit ": "
           ++ REG (gpr_at st (i + 16)) ++ [newline]).

(** The six lines [dump_regs] prints before the loop. *)
Definition register_header (st : stack_frame) : list event :=
  [ Prerror (lit "CFAR : " ++ REG (cfar st) ++ lit " MSR  : " ++ REG (msr st)
             ++ [newline]);
    Prerror (lit "SRR0 : " ++ REG (srr0 st) ++ lit " SRR1 : " ++ REG (srr1 st)
             ++ [newline]);
    Prerror (lit "HSRR0: " ++ REG (hsrr0 st) ++ lit " HSRR1: " ++ REG (hsrr1 st)
             ++ [newline]);
    Prerror (lit "DSISR: " ++ REG32 (dsisr st) ++ lit "         DAR  : "
             ++ REG (dar st) ++ [newline]);
    Prerror (lit "LR   : " ++ REG (lr st) ++ lit " CTR  : " ++ REG (ctr st)
             ++ [newline]);
    Prerror (lit "CR   : " ++ REG32 (cr st) ++ lit "         XER  : "
             ++ REG32 (xer st) ++ [newline]) ].

(** [n] consecutive integers from [i]. *)
Fixpoint upfrom (n : nat) (i : Z) : list Z :=
  match n with
  | O => []
  | S n' => i :: upfrom n' (i + 1)
  end.

(** Lines 169-184 as [exception_entry] runs them on the exit of the
    second [switch]. *)
Definition exception_finish (hv : bool) (nip msr : Z) (x : switch_exit) : M unit :=
  match x with
  | GotoOut fatal => exception_out fatal hv nip msr
  | Break fatal buf l =>
      exception_report fatal buf l nip msr ;;
      exception_out fatal hv nip msr
  end.

(** An exit of the second [switch] with [fatal] clear; by [break], with
    the summary begun inside the buffer. *)
Definition exit_resumes (x : switch_exit) : Prop :=
  match x with
  | GotoOut fatal => fatal = false
  | Break fatal buf l => fatal = false /\ built buf l []
  end.

(** A buffer of terminators, as a summary not yet begun. *)
Definition blank_buf : buffer := mk_buffer EXCEPTION_MAX_STR (fun _ => NUL).

(** The symbol as [snprintf_symbol] prints it. *)
Definition symbol_text (addr : Z) : text :=
  match get_symbol addr with
  | Some name => name
  | None => []
  end.

(** The text of the first [snprintf] of the case taken. *)
Definition summary_head (m : machine) : text :=
  let st := stack m in
  if type st =? 0x100 then reset_summary (Z.land (srr1 st) MSR_RI =? 0) (srr0 st)
  else if type st =? 0x200 then mce_summary (srr0 st)
  else if is_delegated (type st) then fault_summary st
  else unknown_summary st.

(** The cases that print the row of stars first. *)
Definition has_banner (m : machine) : bool :=
  (type (stack m) =? 0x100) || (type (stack m) =? 0x200)
  || negb (is_delegated (type (stack m))).

(** The runs that leave the second [switch] by [break]. *)
Definition prints_summary (m : machine) : bool :=
  negb ((type (stack m) =? 0x200) && mce_retried m)
  && negb (is_delegated (type (stack m)) && resolver_handled (stack m)).

(** The registers as [dump_regs] prints them. *)
Definition register_dump (st : stack_frame) : list event :=
  register_header st ++ map (gpr_line st) (upfrom 16 0).

(** Whether the run ends in [abort()], read off the frame, the CPU
    flags and the resolver's answer. *)
Definition fatal_verdict (m : machine) : bool :=
  let st := stack m in
  if type st =? 0x100 then Z.land (srr1 st) MSR_RI =? 0
  else if type st =? 0x200 then negb (mce_retried m)
  else if is_delegated (type st)
       then (Z.land (srr1 st) MSR_RI =? 0) || negb (resolver_handled st)
  else true.

(** Each path through [exception_entry], with the state it ends in. *)
Inductive run_case (m : machine) : result unit -> Prop :=
| case_reset rest dump :
    type (stack m) = 0x100 ->
    Z.of_nat (length (reset_summary (Z.land (srr1 (stack m)) MSR_RI =? 0)
                        (srr0 (stack m)) ++ rest)) < EXCEPTION_MAX_STR ->
    forallb is_register_line dump = true ->
    run_case m
      (if Z.land (srr1 (stack m)) MSR_RI =? 0
       then Aborts (emit (Prerror banner
              :: Prerror ((reset_summary true (srr0 (stack m)) ++ rest) ++ [newline])
              :: dump) m)
       else Returns tt (emit (Prerror banner
              :: Prerror ((reset_summary false (srr0 (stack m)) ++ rest) ++ [newline])
              :: dump ++ [Backtrace]) m))
| case_mce_retry rest dump :
    type (stack m) = 0x200 -> mce_retried m = true ->
    forallb is_register_line dump = true ->
    run_case m
      (Returns tt
         (mk_machine (set_srr1 (srr1_vm_off (stack m)) (stack m))
            (mk_cpu (vm_local_map_inuse (this_cpu m)) false)
            (uninit m)
            (trace m
             ++ Prerror ((mce_notice (srr0 (stack m)) ++ rest) ++ [newline]) :: dump
             ++ [Prerror (lit "Continuing with VM off" ++ [newline]);
                 StoreVmSetup false; StoreSrr1 (srr1_vm_off (stack m))])))
| case_mce_fatal rest dump :
    type (stack m) = 0x200 -> mce_retried m = false ->
    forallb is_register_line dump = true ->
    run_case m
      (Aborts (emit (Prerror banner
                     :: Prerror ((mce_summary (srr0 (stack m)) ++ rest) ++ [newline])
                     :: dump) m))
| case_handled :
    is_delegated (type (stack m)) = true -> resolver_handled (stack m) = true ->
    run_case m
      (if Z.land (srr1 (stack m)) MSR_RI =? 0 then Aborts m else Returns tt m)
| case_unhandled rest dump :
    is_delegated (type (stack m)) = true -> resolver_handled (stack m) = false ->
    forallb is_register_line dump = true ->
    run_case m
      (Aborts (emit (Prerror ((fault_summary (stack m) ++ rest) ++ [newline])
                     :: dump) m))
| case_unknown rest dump :
    type (stack m) <> 0x100 -> type (stack m) <> 0x200 ->
    is_delegated (type (stack m)) = false ->
    forallb is_register_line dump = true ->
    run_case m
      (Aborts (emit (Prerror banner
                     :: Prerror ((unknown_summary (stack m) ++ rest) ++ [newline])
                     :: dump) m)).

End Verdict.

(** * libstb/cvc.c: the registry of container verification code *)

Module Cvc.

(** ** Formatting *)

(** ["%x"] of a 32-bit value. *)
Definition fmt_x (v : Z) : text := strip_zeros (hex_fixed 8 (wrap32 v)).

(** ["%d"] of a 32-bit value, read as [int]. *)
Definition fmt_d (v : Z) : text :=
  let u := wrap32 v in
  lit (NilZero.string_of_int (Z.to_int (if u <? 2 ^ 31 then u else u - 2 ^ 32))).

(** ** State *)

Inductive log_level := PR_ERR | PR_WARNING | PR_INFO.

(** [struct cvc_service], without its list link. *)
Record cvc_service := mk_service {
  id : Z;
  addr : Z;
  version : Z
}.

(** [struct container_verification_code]; the services are in the
    order of the list, head first. *)
Record container_verification_code := mk_cvc {
  start_addr : Z;
  end_addr : Z;
  service_list : list cvc_service
}.

Inductive event :=
| Prlog (level : log_level) (line : text)     (* one [prlog] call, format expanded *)
| MemcpyFromCi (dst src len : Z).             (* [memcpy_from_ci(dst, src, len)] *)

Record state := mk_state {
  cvc : option container_verification_code;   (* the static pointer [cvc]; [None] is [NULL] *)
  secure_rom_mem : Z;                         (* the static pointer, 0 is [NULL] *)
  heap : list Z;                              (* what the coming calls of [malloc] return *)
  log : list event
}.

(** ** A state monad with [assert] *)

Inductive outcome (A : Type) :=
| Done (a : A) (s : state)
| AssertFailed             (* an [assert] did not hold *)
| NullChip.                (* [next_chip(NULL)] gave no chip to read [->id] from *)
Arguments Done {A} a s.
Arguments AssertFailed {A}.
Arguments NullChip {A}.

Definition C (A : Type) := state -> outcome A.

Definition unit_ {A} (a : A) : C A := fun s => Done a s.

Definition then_ {A B} (c : C A) (k : A -> C B) : C B :=
  fun s =>
    match c s with
    | Done a s' => k a s'
    | AssertFailed => AssertFailed
    | NullChip => NullChip
    end.

Declare Scope cvc_scope.
Notation "x <- c ;; k" := (then_ c (fun x => k))
  (at level 61, c at next level, right associativity) : cvc_scope.
Notation "c ;; k" := (then_ c (fun _ => k))
  (at level 61, right associativity) : cvc_scope.
Local Open Scope cvc_scope.

Definition get : C state := fun s => Done s s.

Definition assert (b : bool) : C unit :=
  fun s => if b then Done tt s else AssertFailed.

(** [malloc]: the next pointer the heap gives, [NULL] when it has none. *)
Definition malloc : C Z :=
  fun s =>
    match heap s with
    | p :: h => Done p (mk_state (cvc s) (secure_rom_mem s) h (log s))
    | [] => Done 0 s
    end.

Definition set_cvc (c : container_verification_code) : C unit :=
  fun s => Done tt (mk_state (Some c) (secure_rom_mem s) (heap s) (log s)).

Definition set_secure_rom_mem (p : Z) : C unit :=
  fun s => Done tt (mk_state (cvc s) p (heap s) (log s)).

Definition record (e : event) : C unit :=
  fun s => Done tt (mk_state (cvc s) (secure_rom_mem s) (heap s) (log s ++ [e])).

(** [prlog]; the file sets [pr_fmt] to put ["STB: "] before each format. *)
Definition prlog (l : log_level) (t : text) : C unit :=
  record (Prlog l (lit "STB: " ++ t)).

Section Registry.

(** The service identifiers of [cvc.h], the constants of
    [secureboot.h] and [chip.h], and what the platform answers: the
    generation of the processor, whether the device tree has
    [/ibm,secureboot], the version [secureboot_is_compatible] finds
    (if any), the first chip, the XSCOM bus and the address of the
    static [secure_rom_mem]. *)
Context (CVC_SHA512_SERVICE CVC_VERIFY_SERVICE : Z)
        (IBM_SECUREBOOT_V1 proc_gen_p8 : Z)
        (proc_gen : Z)
        (has_secureboot_node : bool)
        (secureboot_is_compatible : option Z)
        (next_chip : option Z)
        (xscom_read : Z -> Z -> Z)
        (secure_rom_mem_at : Z).

Definition cvc_service_map : list (Z * text) :=
  [ (CVC_SHA512_SERVICE, lit "sha512");
    (CVC_VERIFY_SERVICE, lit "verify") ].

Definition cvc_find_service (s : state) (i : Z) : option cvc_service :=
  match cvc s with
  | None => None
  | Some c => find (fun service => id service =? i) (service_list c)
  end.

Definition cvc_service_map_name (i : Z) : option text :=
  match find (fun e => fst e =? i) cvc_service_map with
  | Some e => Some (snd e)
  | None => None
  end.

Definition cvc_register (start_addr end_addr : Z) : C unit :=
  s <- get ;;
  match cvc s with
  | Some _ => unit_ tt
  | None =>
      p <- malloc ;;
      assert (negb (p =? 0)) ;;
      set_cvc (mk_cvc start_addr end_addr []) ;;
      prlog PR_INFO (lit "Found CVC @ " ++ fmt_llx start_addr ++ lit "-"
                     ++ fmt_llx end_addr ++ [newline])
  end.

Definition cvc_service_register (i offset ver : Z) : C unit :=
  s <- get ;;
  match cvc s with
  | None => unit_ tt
  | Some c =>
      match cvc_find_service s i with
      | Some _ => unit_ tt
      | None =>
          if wrap64 (start_addr c + offset) >? end_addr c then
            prlog PR_WARNING (lit "CVC service @ " ++ fmt_x offset
                              ++ lit " out of range, id=" ++ fmt_d i ++ [newline])
          else
            match cvc_service_map_name i with
            | None =>
                prlog PR_ERR (lit "CVC service " ++ fmt_d i
                              ++ lit " not supported" ++ [newline])
            | Some name =>
                p <- malloc ;;
                assert (negb (p =? 0)) ;;
                let service := mk_service i (wrap64 (start_addr c + offset)) ver in
                set_cvc (mk_cvc (start_addr c) (end_addr c)
                           (service_list c ++ [service])) ;;
                prlog PR_INFO (lit "Found CVC-" ++ name ++ lit " @ "
                               ++ fmt_llx (addr service) ++ lit ", version="
                               ++ fmt_d (version service) ++ [newline])
            end
      end
  end.

Definition SECURE_ROM_MEMORY_SIZE : Z := 16 * 1024.
Definition SECURE_ROM_XSCOM_ADDRESS : Z := 0x02020017.
Definition SECURE_ROM_SHA512_OFFSET : Z := 0x20.
Definition SECURE_ROM_VERIFY_OFFSET : Z := 0x30.

Definition cvc_secure_rom_init : C Z :=
  let reg_addr := SECURE_ROM_XSCOM_ADDRESS in
  s <- get ;;
  (if secure_rom_mem s =? 0 then
     p <- malloc ;;
     set_secure_rom_mem p ;;
     assert (negb (p =? 0))
   else unit_ tt) ;;
  match next_chip with
  | None => fun _ => NullChip
  | Some chip_id =>
      let reg_data := xscom_read chip_id reg_addr in
      s <- get ;;
      record (MemcpyFromCi (secure_rom_mem s) reg_data SECURE_ROM_MEMORY_SIZE) ;;
      cvc_register secure_rom_mem_at
                   (wrap64 (wrap64 (secure_rom_mem_at + SECURE_ROM_MEMORY_SIZE) - 1)) ;;
      cvc_service_register CVC_SHA512_SERVICE SECURE_ROM_SHA512_OFFSET 1 ;;
      cvc_service_register CVC_VERIFY_SERVICE SECURE_ROM_VERIFY_OFFSET 1 ;;
      unit_ 0
  end.

Definition cvc_init : C Z :=
  s <- get ;;
  match cvc s with
  | Some _ => unit_ 0
  | None =>
      if negb has_secureboot_node then unit_ (-1)
      else
        match secureboot_is_compatible with
        | None =>
            prlog PR_ERR (lit "cvc_init FAILED, /ibm,secureboot not compatible."
                          ++ [newline]) ;;
            unit_ (-1)
        | Some ver =>
            if (ver =? IBM_SECUREBOOT_V1) && (proc_gen =? proc_gen_p8) then
              rc <- cvc_secure_rom_init ;;
              unit_ rc
            else
              prlog PR_ERR (lit "cvc_init FAILED. /ibm,secureboot not supported"
                            ++ [newline]) ;;
              unit_ (-1)
        end
  end.

(** ** The vocabulary of the properties *)

(** A registry in good order: no identifier twice, every service one
    the map names, none above [end_addr]. *)
Definition registry_ok (c : container_verification_code) : Prop :=
  NoDup (map id (service_list c)) /\
  forall service, In service (service_list c) ->
    cvc_service_map_name (id service) <> None /\ addr service <= end_addr c.

Definition state_ok (s : state) : Prop :=
  forall c, cvc s = Some c -> registry_ok c.

(** The states the file can be in: it starts with no registry, and
    only its own functions change it. *)
Inductive reached : state -> Prop :=
| at_boot s :
    cvc s = None -> reached s
| after_cvc_register s s' a b :
    reached s -> cvc_register a b s = Done tt s' -> reached s'
| after_cvc_service_register s s' i off ver :
    reached s -> cvc_service_register i off ver s = Done tt s' -> reached s'
| after_cvc_secure_rom_init s s' r :
    reached s -> cvc_secure_rom_init s = Done r s' -> reached s'
| after_cvc_init s s' r :
    reached s -> cvc_init s = Done r s' -> reached s'.

End Registry.

(** A platform to run on: POWER8, secure boot version 1, one chip. *)
Definition sha512_id : Z := 0.
Definition verify_id : Z := 1.

Definition boot : state := mk_state None 0 [0x1000; 0x2000; 0x3000; 0x4000] [].

Definition p8_init : C Z :=
  cvc_init sha512_id verify_id 1 1 1 true (Some 1) (Some 0)
    (fun _ _ => 0x3fffe0000) 0x30200000.

(** The same machine with no [/ibm,secureboot] in the device tree. *)
Definition bare_init : C Z :=
  cvc_init sha512_id verify_id 1 1 1 false None (Some 0)
    (fun _ _ => 0x3fffe0000) 0x30200000.

Definition after {A} (c : C A) (s : state) : state :=
  match c s with
  | Done _ s' => s'
  | _ => s
  end.

(** The state a first [cvc_init] leaves, and one with a registry that
    has no service yet. *)
Definition ready : state := after p8_init boot.

Definition registered : state :=
  mk_state (Some (mk_cvc 0x30200000 0x30203fff [])) 0x1000 [0x2000; 0x3000] [].

End Cvc.

(** * Properties *)

Section Properties.

Context {processor : Processor} {collaborators : Collaborators}.

(** ** The buffer stays a buffer *)

Lemma wrap64_small (z : Z) : 0 <= z < 2 ^ 64 -> wrap64 z = z.
Proof. intro Hz. unfold wrap64. now apply Z.mod_small. Qed.

Lemma poke_text_ok : forall t b off,
  0 <= off -> off + Z.of_nat (length t) <= capacity b ->
  exists b', poke_text b off t = Some b' /\ capacity b' = capacity b /\
    (forall j, j < off \/ off + Z.of_nat (length t) <= j -> cell b' j = cell b j) /\
    (forall i, (i < length t)%nat -> cell b' (off + Z.of_nat i) = nth i t NUL).
Proof.
  induction t as [|c t IH]; intros b off Hoff Hcap; cbn [poke_text length] in *.
  - exists b. repeat split; auto. intros i Hi. inversion Hi.
  - unfold poke, in_bounds.
    replace (0 <=? off) with true by (symmetry; apply Z.leb_le; lia).
    replace (off <? capacity b) with true by (symmetry; apply Z.ltb_lt; lia).
    cbn [andb].
    set (b1 := mk_buffer (capacity b) (fun j => if j =? off then c else cell b j)).
    destruct (IH b1 (off + 1)) as (b' & E & Hc & Hout & Hin);
      [lia | cbn [capacity b1]; lia |].
    exists b'. split; [exact E|]. split; [exact Hc|]. split.
    + intros j Hj. rewrite Hout by lia. cbn [cell b1].
      destruct (Z.eqb_spec j off); [lia | reflexivity].
    + intros [|i] Hi.
      * rewrite Z.add_0_r, Hout by lia. cbn [cell b1 nth].
        now rewrite Z.eqb_refl.
      * replace (off + Z.of_nat (S i)) with (off + 1 + Z.of_nat i) by lia.
        cbn [nth]. apply Hin. lia.
Qed.

(** One [snprintf(buf + l, EXCEPTION_MAX_STR - l, ...)] with [l] inside
    the buffer: it stores [r] characters and a terminator, all inside,
    and leaves what lies before [l]. *)
Lemma snprintf_at (b : buffer) (l : Z) (t : text) :
  capacity b = EXCEPTION_MAX_STR -> 0 <= l < EXCEPTION_MAX_STR ->
  exists b' r, snprintf b l (wrap64 (EXCEPTION_MAX_STR - l)) t = Some (b', r) /\
    r = Z.min (Z.of_nat (length t)) (EXCEPTION_MAX_STR - 1 - l) /\
    wrap64 (l + r) = l + r /\
    capacity b' = EXCEPTION_MAX_STR /\
    cell b' (l + r) = NUL /\
    (forall j, j < l -> cell b' j = cell b j) /\
    (forall i, (i < Z.to_nat r)%nat -> cell b' (l + Z.of_nat i) = nth i t NUL).
Proof.
  unfold EXCEPTION_MAX_STR. intros Hcap Hl.
  rewrite wrap64_small by (change (2 ^ 64) with 18446744073709551616; lia).
  unfold snprintf.
  destruct (Z.eqb_spec (320 - l) 0) as [E|_]; [lia|].
  replace (320 - l - 1) with (320 - 1 - l) by lia.
  set (r := Z.min (Z.of_nat (length t)) (320 - 1 - l)).
  assert (Hr : 0 <= r <= 319 - l) by (unfold r; lia).
  assert (Hlen : length (firstn (Z.to_nat r) t) = Z.to_nat r).
  { rewrite length_firstn. unfold r. lia. }
  destruct (poke_text_ok (firstn (Z.to_nat r) t ++ [NUL]) b l)
    as (b' & E & Hc & Hout & Hin).
  { lia. }
  { rewrite length_app, Hlen. cbn [length]. lia. }
  rewrite E. exists b', r. split; [reflexivity|]. split; [reflexivity|].
  split; [apply wrap64_small; change (2 ^ 64) with 18446744073709551616; lia|].
  split; [lia|]. split; [|split].
  - specialize (Hin (Z.to_nat r)).
    rewrite length_app, Hlen in Hin. cbn [length] in Hin.
    rewrite Z2Nat.id in Hin by lia. rewrite Hin by lia.
    rewrite app_nth2 by lia. rewrite Hlen, Nat.sub_diag. reflexivity.
  - intros j Hj. apply Hout. lia.
  - intros i Hi. rewrite Hin by (rewrite length_app, Hlen; cbn [length]; lia).
    rewrite app_nth1 by lia. rewrite nth_firstn.
    destruct (Nat.ltb_spec i (Z.to_nat r)); [reflexivity | lia].
Qed.

Lemma snprintf_first (b : buffer) (t : text) :
  capacity b = EXCEPTION_MAX_STR ->
  Z.of_nat (length t) < EXCEPTION_MAX_STR ->
  exists b' r, snprintf b 0 (wrap64 (EXCEPTION_MAX_STR - 0)) t = Some (b', r) /\
    built b' (wrap64 (0 + r)) t.
Proof.
  intros Hcap Hlen.
  destruct (snprintf_at b 0 t Hcap) as (b' & r & E & Hr & Hw & Hc & Hn & _ & Hin).
  { unfold EXCEPTION_MAX_STR; lia. }
  exists b', r. split; [exact E|]. rewrite Hw.
  unfold built, EXCEPTION_MAX_STR in *.
  assert (r = Z.of_nat (length t)) by lia.
  split; [lia|]. split; [lia|]. split; [exact Hn|]. split; [lia|].
  intros i Hi. apply (Hin i). lia.
Qed.

Lemma snprintf_next (b : buffer) (l : Z) (pre t : text) :
  built b l pre ->
  exists b' r, snprintf b l (wrap64 (EXCEPTION_MAX_STR - l)) t = Some (b', r) /\
    built b' (wrap64 (l + r)) pre.
Proof.
  intros (Hcap & Hl & Hn & Hlen & Hpre).
  destruct (snprintf_at b l t Hcap Hl) as (b' & r & E & Hr & Hw & Hc & Hn' & Hout & _).
  exists b', r. split; [exact E|]. rewrite Hw.
  unfold built, EXCEPTION_MAX_STR in *.
  split; [lia|]. split; [lia|]. split; [exact Hn'|]. split; [lia|].
  intros i Hi. rewrite Hout by lia. now apply Hpre.
Qed.

Lemma scan_terminated (b : buffer) (l : Z) :
  cell b l = NUL ->
  forall fuel i, 0 <= i <= l -> l - i < Z.of_nat fuel ->
  exists s, scan fuel b i = Some s /\ Z.of_nat (length s) <= l - i /\
    cell b (i + Z.of_nat (length s)) = NUL /\
    forall k, (k < length s)%nat -> nth k s NUL = cell b (i + Z.of_nat k).
Proof.
  intros Hn. induction fuel as [|fuel IH]; intros i Hi Hf; [lia|].
  cbn [scan]. destruct (is_nul (cell b i)) eqn:E.
  - exists []. cbn [length]. split; [reflexivity|]. split; [lia|]. split.
    + rewrite Z.add_0_r. unfold is_nul in E. now apply Ascii.eqb_eq in E.
    + intros k Hk. inversion Hk.
  - assert (i <> l) by (intros ->; rewrite Hn in E; discriminate).
    destruct (IH (i + 1)) as (s & Es & Hlen & Hend & Hnth); [lia | lia |].
    rewrite Es. exists (cell b i :: s). cbn [option_map length].
    split; [reflexivity|]. split; [lia|]. split.
    + replace (i + Z.of_nat (S (length s))) with (i + 1 + Z.of_nat (length s)) by lia.
      exact Hend.
    + intros [|k] Hk; cbn [nth].
      * now rewrite Z.add_0_r.
      * rewrite Hnth by lia. f_equal. lia.
Qed.

Lemma clean_nth (t : text) (i : nat) :
  clean t = true -> (i < length t)%nat -> nth i t NUL <> NUL.
Proof.
  unfold clean. intros Hc Hi Hn.
  rewrite forallb_forall in Hc.
  specialize (Hc (nth i t NUL) (nth_In t NUL Hi)).
  rewrite Hn in Hc. discriminate.
Qed.

(** Reading the summary back: it is there, it starts with what was
    recorded, and it ends before the terminator at [l]. *)
Lemma cstring_built (b : buffer) (l : Z) (pre : text) :
  built b l pre -> clean pre = true ->
  exists rest, cstring b = Some (pre ++ rest) /\
    Z.of_nat (length (pre ++ rest)) <= l.
Proof.
  intros (Hcap & Hl & Hn & Hlen & Hpre) Hclean.
  destruct (scan_terminated b l Hn (Z.to_nat (capacity b)) 0)
    as (s & Es & Hs & Hend & Hnth); [lia | rewrite Hcap; lia |].
  rewrite Z.add_0_l in Hend.
  assert (Hle : (length pre <= length s)%nat).
  { destruct (Nat.le_gt_cases (length pre) (length s)) as [|Hlt]; [assumption|].
    exfalso. apply (clean_nth pre (length s) Hclean Hlt).
    rewrite <- Hpre by assumption. exact Hend. }
  assert (Hpref : firstn (length pre) s = pre).
  { apply nth_ext with (d := NUL) (d' := NUL).
    - rewrite length_firstn. lia.
    - intros k Hk. rewrite length_firstn in Hk.
      rewrite nth_firstn.
      destruct (Nat.ltb_spec k (length pre)); [|lia].
      rewrite Hnth by lia. rewrite Z.add_0_l. now apply Hpre. }
  exists (skipn (length pre) s). unfold cstring.
  rewrite <- Hpref at 1 3. rewrite firstn_skipn. split; [exact Es | lia].
Qed.

(** ** Formatted numbers *)

Lemma hexdigit_clean (d : Z) : is_nul (hexdigit d) = false.
Proof.
  unfold hexdigit. generalize (Z.to_nat d) as n. intro n.
  do 17 (destruct n as [|n]; [reflexivity|]). reflexivity.
Qed.

Lemma hex_fixed_length (w : nat) (v : Z) : length (hex_fixed w v) = w.
Proof. induction w as [|w IH]; cbn [hex_fixed length]; congruence. Qed.

Lemma hex_fixed_clean (w : nat) (v : Z) : clean (hex_fixed w v) = true.
Proof.
  induction w as [|w IH]; [reflexivity|].
  unfold clean in *. cbn [hex_fixed forallb].
  now rewrite hexdigit_clean, IH.
Qed.

Lemma strip_zeros_length (t : text) : (length (strip_zeros t) <= length t)%nat.
Proof.
  induction t as [|c t IH]; [cbn; lia|].
  destruct t as [|c' t]; [cbn; lia|].
  change (strip_zeros (c :: c' :: t))
    with (if Ascii.eqb c "0" then strip_zeros (c' :: t) else c :: c' :: t).
  destruct (Ascii.eqb c "0"); [|lia].
  change (length (c :: c' :: t)) with (S (length (c' :: t))). lia.
Qed.

Lemma strip_zeros_clean (t : text) : clean t = true -> clean (strip_zeros t) = true.
Proof.
  unfold clean. induction t as [|c t IH]; [auto|].
  destruct t as [|c' t]; [auto|].
  change (strip_zeros (c :: c' :: t))
    with (if Ascii.eqb c "0" then strip_zeros (c' :: t) else c :: c' :: t).
  intro Hc. destruct (Ascii.eqb c "0"); [|exact Hc].
  apply IH. change (forallb ?f (c :: ?r)) with (f c && forallb f r) in Hc.
  now apply andb_prop in Hc.
Qed.

Lemma REG_length (v : Z) : length (REG v) = 16%nat.
Proof. apply hex_fixed_length. Qed.

Lemma REG_clean (v : Z) : clean (REG v) = true.
Proof. apply hex_fixed_clean. Qed.

Lemma fmt_llx_length (v : Z) : (length (fmt_llx v) <= 16)%nat.
Proof.
  unfold fmt_llx. etransitivity; [apply strip_zeros_length|].
  now rewrite hex_fixed_length.
Qed.

Lemma fmt_llx_clean (v : Z) : clean (fmt_llx v) = true.
Proof. apply strip_zeros_clean, hex_fixed_clean. Qed.

Lemma clean_app (a b : text) : clean (a ++ b) = clean a && clean b.
Proof. apply forallb_app. Qed.

(** ** Pieces of a run *)

Lemma emit_emit (a b : list event) (m : machine) :
  emit b (emit a m) = emit (a ++ b) m.
Proof. unfold emit. cbn. now rewrite app_assoc. Qed.

Lemma dump_regs_run (m : machine) :
  exists dump, dump_regs m = Returns tt (emit dump m) /\
    forallb is_register_line dump = true.
Proof.
  unfold dump_regs.
  cbn [bind get_stack prerror dump_gprs ret].
  rewrite !emit_emit. eexists. split; [reflexivity|].
  vm_compute. reflexivity.
Qed.

Lemma snprintf_symbol_next (b : buffer) (l : Z) (pre : text) (addr : Z) :
  built b l pre ->
  exists b' r,
    snprintf_symbol b l (wrap64 (EXCEPTION_MAX_STR - l)) addr = Some (b', r) /\
    built b' (wrap64 (l + r)) pre.
Proof.
  intros Hb. unfold snprintf_symbol. destruct (get_symbol addr) as [name|].
  - now apply snprintf_next.
  - exists b, 0. split; [reflexivity|]. rewrite Z.add_0_r.
    rewrite wrap64_small; [exact Hb|].
    destruct Hb as (_ & Hl & _). unfold EXCEPTION_MAX_STR in Hl.
    change (2 ^ 64) with 18446744073709551616. lia.
Qed.

(** Lines 169-175 from a summary begun with [pre]: they return, having
    printed one line that starts with [pre] and fits the buffer, then
    the registers, then the backtrace unless the trap is fatal. *)
Lemma exception_report_run (fatal : bool) (buf : buffer) (l : Z) (pre : text)
    (nip msr : Z) (m : machine) :
  built buf l pre -> clean pre = true ->
  exists rest dump,
    exception_report fatal buf l nip msr m =
      Returns tt (emit (Prerror ((pre ++ rest) ++ [newline]) :: dump
                        ++ (if fatal then [] else [Backtrace])) m) /\
    Z.of_nat (length (pre ++ rest)) < EXCEPTION_MAX_STR /\
    forallb is_register_line dump = true.
Proof.
  intros Hb Hclean.
  destruct (snprintf_symbol_next buf l pre nip Hb) as (b1 & r1 & E1 & Hb1).
  destruct (snprintf_next b1 (wrap64 (l + r1)) pre (lit "  MSR " ++ REG msr) Hb1)
    as (b2 & r2 & E2 & Hb2).
  destruct (cstring_built b2 _ pre Hb2 Hclean) as (rest & Es & Hlen).
  destruct (dump_regs_run (emit [Prerror ((pre ++ rest) ++ [newline])] m))
    as (dump & Ed & Hd).
  exists rest, dump.
  unfold exception_report, prerror_buf, bind, checked.
  rewrite E1. cbv beta iota zeta. rewrite E2. cbv beta iota. rewrite Es.
  unfold prerror at 1. rewrite Ed. split; [|split].
  - destruct fatal; cbn [negb].
    + unfold ret. now rewrite emit_emit, app_nil_r.
    + unfold backtrace. now rewrite !emit_emit.
  - destruct Hb2 as (_ & Hl & _). lia.
  - exact Hd.
Qed.

Lemma print_recoverable_mce_vm_run (nip msr : Z) (m : machine) :
  exists rest dump,
    print_recoverable_mce_vm nip msr m =
      Returns tt (emit (Prerror ((mce_notice nip ++ rest) ++ [newline]) :: dump
                        ++ [Prerror (lit "Continuing with VM off" ++ [newline])]) m) /\
    Z.of_nat (length (mce_notice nip ++ rest)) < EXCEPTION_MAX_STR /\
    forallb is_register_line dump = true.
Proof.
  assert (Hclean : clean (mce_notice nip) = true).
  { unfold mce_notice. now rewrite !clean_app, REG_clean. }
  destruct (snprintf_first (mk_buffer EXCEPTION_MAX_STR (uninit m)) (mce_notice nip))
    as (b0 & r0 & E0 & Hb0).
  { reflexivity. }
  { unfold mce_notice. rewrite !length_app, REG_length. cbn. reflexivity. }
  destruct (snprintf_symbol_next b0 _ _ nip Hb0) as (b1 & r1 & E1 & Hb1).
  destruct (snprintf_next b1 _ _ (lit "  MSR " ++ REG msr) Hb1)
    as (b2 & r2 & E2 & Hb2).
  destruct (cstring_built b2 _ _ Hb2 Hclean) as (rest & Es & Hlen).
  destruct (dump_regs_run (emit [Prerror ((mce_notice nip ++ rest) ++ [newline])] m))
    as (dump & Ed & Hd).
  exists rest, dump.
  unfold print_recoverable_mce_vm, prerror_buf, bind, checked, alloc_buf.
  fold (mce_notice nip).
  rewrite E0. cbv beta iota zeta. rewrite E1. cbv beta iota zeta.
  rewrite E2. cbv beta iota. rewrite Es.
  unfold prerror at 1. rewrite Ed. split; [|split].
  - unfold prerror. now rewrite !emit_emit.
  - destruct Hb2 as (_ & Hl & _). lia.
  - exact Hd.
Qed.

(** ** The paths through [exception_entry] *)

Lemma classify_eq (st : stack_frame) :
  classify st = (is_hv (type st), nip_of st, msr_of st).
Proof. unfold classify, nip_of, msr_of. now destruct (is_hv (type st)). Qed.

(** The first [snprintf] of a case that ends in [break]. *)
Lemma first_line_run (b : buffer) (pre : text) (fatal : bool) (m : machine) :
  capacity b = EXCEPTION_MAX_STR ->
  Z.of_nat (length pre) < EXCEPTION_MAX_STR ->
  exists b' l,
    ('(buf, r) <- checked (snprintf b 0 (wrap64 (EXCEPTION_MAX_STR - 0)) pre) ;;
     ret (Break fatal buf (wrap64 (0 + r)))) m = Returns (Break fatal b' l) m /\
    built b' l pre.
Proof.
  intros Hcap Hlen.
  destruct (snprintf_first b pre Hcap Hlen) as (b' & r & E & Hb).
  exists b', (wrap64 (0 + r)). split; [|exact Hb].
  unfold bind, checked, ret. now rewrite E.
Qed.

(** From [break] to the end. *)
Lemma after_break (fatal hv : bool) (buf : buffer) (l : Z) (pre : text)
    (nip msr : Z) (m : machine) :
  built buf l pre -> clean pre = true ->
  exists rest dump,
    (exception_report fatal buf l nip msr ;; exception_out fatal hv nip msr) m =
      (if fatal
       then Aborts (emit (Prerror ((pre ++ rest) ++ [newline]) :: dump) m)
       else exception_out false hv nip msr
              (emit (Prerror ((pre ++ rest) ++ [newline]) :: dump ++ [Backtrace]) m)) /\
    Z.of_nat (length (pre ++ rest)) < EXCEPTION_MAX_STR /\
    forallb is_register_line dump = true.
Proof.
  intros Hb Hclean.
  destruct (exception_report_run fatal buf l pre nip msr m Hb Hclean)
    as (rest & dump & E & Hlen & Hd).
  exists rest, dump. split; [|split; assumption].
  unfold bind at 1. rewrite E. destruct fatal; [|reflexivity].
  rewrite app_nil_r. reflexivity.
Qed.

Lemma unknown_summary_ok (st : stack_frame) :
  Z.of_nat (length (unknown_summary st)) < EXCEPTION_MAX_STR /\
  clean (unknown_summary st) = true.
Proof.
  unfold unknown_summary. split.
  - rewrite !length_app, REG_length.
    pose proof (fmt_llx_length (type st)) as Hx.
    change (length (lit "Fatal Exception 0x")) with 18%nat.
    change (length (lit " at ")) with 4%nat.
    change (length (lit "  ")) with 2%nat.
    unfold EXCEPTION_MAX_STR. lia.
  - now rewrite !clean_app, REG_clean, fmt_llx_clean.
Qed.

(** A vector outside the six cases of the second [switch]. *)
Lemma run_unknown (m : machine) :
  let st := stack m in
  type st <> 0x100 -> type st <> 0x200 -> type st <> 0x300 ->
  type st <> 0x380 -> type st <> 0x400 -> type st <> 0x480 ->
  exists rest dump,
    exception_entry m =
      Aborts (emit (Prerror banner
                    :: Prerror ((unknown_summary st ++ rest) ++ [newline])
                    :: dump) m) /\
    Z.of_nat (length (unknown_summary st ++ rest)) < EXCEPTION_MAX_STR /\
    forallb is_register_line dump = true.
Proof.
  intros st H1 H2 H3 H4 H5 H6.
  destruct (unknown_summary_ok st) as (Hlen & Hclean).
  destruct (first_line_run (mk_buffer EXCEPTION_MAX_STR (uninit m))
              (unknown_summary st) true (emit [Prerror banner] m) eq_refl Hlen)
    as (b0 & l0 & E0 & Hb0).
  destruct (after_break true (is_hv (type st)) b0 l0 _ (nip_of st) (msr_of st)
              (emit [Prerror banner] m) Hb0 Hclean)
    as (rest & dump & E1 & Hl & Hd).
  exists rest, dump. split; [|split; assumption].
  unfold exception_entry. unfold bind at 1 2. unfold get_stack, alloc_buf.
  fold st. rewrite classify_eq. cbv iota beta zeta.
  unfold bind at 1. unfold exception_switch.
  apply Z.eqb_neq in H1, H2, H3, H4, H5, H6.
  rewrite H1, H2, H3, H4, H5, H6. cbv zeta.
  unfold bind at 1. unfold prerror at 1.
  fold (unknown_summary st).
  rewrite E0. rewrite E1. now rewrite emit_emit.
Qed.

Lemma classify_sv (st : stack_frame) :
  is_hv (type st) = false -> classify st = (false, srr0 st, srr1 st).
Proof. intro H. unfold classify. now rewrite H. Qed.

(** System reset, [0x100]. *)
Lemma run_reset (m : machine) :
  let st := stack m in
  let fatal := Z.land (srr1 st) MSR_RI =? 0 in
  type st = 0x100 ->
  exists rest dump,
    exception_entry m =
      (if fatal
       then Aborts (emit (Prerror banner
              :: Prerror ((reset_summary fatal (srr0 st) ++ rest) ++ [newline])
              :: dump) m)
       else Returns tt (emit (Prerror banner
              :: Prerror ((reset_summary fatal (srr0 st) ++ rest) ++ [newline])
              :: dump ++ [Backtrace]) m)) /\
    Z.of_nat (length (reset_summary fatal (srr0 st) ++ rest)) < EXCEPTION_MAX_STR /\
    forallb is_register_line dump = true.
Proof.
  intros st fatal Hty.
  assert (Hlen : Z.of_nat (length (reset_summary fatal (srr0 st))) < EXCEPTION_MAX_STR).
  { unfold reset_summary. destruct fatal; rewrite !length_app, REG_length; reflexivity. }
  assert (Hclean : clean (reset_summary fatal (srr0 st)) = true).
  { unfold reset_summary. destruct fatal; now rewrite !clean_app, REG_clean. }
  destruct (first_line_run (mk_buffer EXCEPTION_MAX_STR (uninit m))
              _ fatal (emit [Prerror banner] m) eq_refl Hlen)
    as (b0 & l0 & E0 & Hb0).
  destruct (after_break fatal false b0 l0 _ (srr0 st) (srr1 st)
              (emit [Prerror banner] m) Hb0 Hclean)
    as (rest & dump & E1 & Hl & Hd).
  exists rest, dump. split; [|split; assumption].
  unfold exception_entry. unfold bind at 1 2. unfold get_stack, alloc_buf.
  fold st. rewrite classify_sv by (rewrite Hty; reflexivity).
  cbv iota beta zeta. fold fatal.
  unfold bind at 1. unfold exception_switch.
  rewrite Hty. change (256 =? 256) with true. cbv iota zeta.
  unfold bind at 1. unfold prerror at 1.
  fold (reset_summary fatal (srr0 st)).
  rewrite E0. rewrite E1. rewrite !emit_emit.
  destruct fatal; reflexivity.
Qed.

(** Machine check, [0x200], taken to the end. *)
Lemma run_mce_fatal (m : machine) :
  let st := stack m in
  type st = 0x200 -> mce_retried m = false ->
  exists rest dump,
    exception_entry m =
      Aborts (emit (Prerror banner
                    :: Prerror ((mce_summary (srr0 st) ++ rest) ++ [newline])
                    :: dump) m) /\
    Z.of_nat (length (mce_summary (srr0 st) ++ rest)) < EXCEPTION_MAX_STR /\
    forallb is_register_line dump = true.
Proof.
  intros st Hty Hno.
  assert (Hlen : Z.of_nat (length (mce_summary (srr0 st))) < EXCEPTION_MAX_STR).
  { unfold mce_summary. rewrite !length_app, REG_length; reflexivity. }
  assert (Hclean : clean (mce_summary (srr0 st)) = true).
  { unfold mce_summary. now rewrite !clean_app, REG_clean. }
  destruct (first_line_run (mk_buffer EXCEPTION_MAX_STR (uninit m))
              _ true (emit [Prerror banner] m) eq_refl Hlen)
    as (b0 & l0 & E0 & Hb0).
  destruct (after_break true false b0 l0 _ (srr0 st) (srr1 st)
              (emit [Prerror banner] m) Hb0 Hclean)
    as (rest & dump & E1 & Hl & Hd).
  exists rest, dump. split; [|split; assumption].
  unfold exception_entry. unfold bind at 1 2. unfold get_stack, alloc_buf.
  fold st. rewrite classify_sv by (rewrite Hty; reflexivity).
  cbv iota beta zeta.
  unfold bind at 1. unfold exception_switch.
  rewrite Hty. change (512 =? 256) with false. change (512 =? 512) with true.
  cbv iota zeta. unfold bind at 1. unfold get_cpu at 1.
  replace (negb (if vm_local_map_inuse (this_cpu m) then true
                 else Z.land (srr1 st) MSR_RI =? 0)
           && negb (Z.land (srr1 st) (Z.lor MSR_IR MSR_DR) =? 0)) with false.
  2: { unfold mce_retried in Hno. fold st in Hno. rewrite <- Hno.
       now destruct (vm_local_map_inuse (this_cpu m)). }
  unfold bind at 1. unfold prerror at 1.
  fold (mce_summary (srr0 st)).
  rewrite E0. rewrite E1. now rewrite !emit_emit.
Qed.

(** Machine check, [0x200], retried with translation off. *)
Lemma run_mce_retry (m : machine) :
  let st := stack m in
  type st = 0x200 -> mce_retried m = true ->
  exists rest dump,
    exception_entry m =
      Returns tt
        (mk_machine (set_srr1 (srr1_vm_off st) st)
           (mk_cpu (vm_local_map_inuse (this_cpu m)) false)
           (uninit m)
           (trace m
            ++ Prerror ((mce_notice (srr0 st) ++ rest) ++ [newline]) :: dump
            ++ [Prerror (lit "Continuing with VM off" ++ [newline]);
                StoreVmSetup false; StoreSrr1 (srr1_vm_off st)])) /\
    Z.of_nat (length (mce_notice (srr0 st) ++ rest)) < EXCEPTION_MAX_STR /\
    forallb is_register_line dump = true.
Proof.
  intros st Hty Hyes.
  destruct (print_recoverable_mce_vm_run (srr0 st) (srr1 st) m)
    as (rest & dump & E & Hl & Hd).
  exists rest, dump. split; [|split; assumption].
  unfold exception_entry. unfold bind at 1 2. unfold get_stack at 1, alloc_buf.
  fold st. rewrite classify_sv by (rewrite Hty; reflexivity).
  cbv iota beta zeta.
  unfold bind at 1. unfold exception_switch.
  rewrite Hty. change (512 =? 256) with false. change (512 =? 512) with true.
  cbv iota zeta. unfold bind at 1. unfold get_cpu at 1.
  unfold mce_retried in Hyes. fold st in Hyes.
  apply andb_prop in Hyes. destruct Hyes as (Hyes & Hvm).
  apply andb_prop in Hyes. destruct Hyes as (Hmap & Hri).
  apply negb_true_iff in Hmap. rewrite Hmap, Hri, Hvm. cbv iota. cbn [andb].
  unfold bind at 1. rewrite E.
  unfold bind, store_vm_setup, get_stack, store_srr1, ret, exception_out, emit.
  cbn [stack this_cpu uninit trace vm_local_map_inuse].
  apply negb_true_iff in Hri. rewrite Hri. cbv iota.
  rewrite Hmap. unfold srr1_vm_off. fold st.
  rewrite <- !app_assoc. cbn [app]. rewrite <- !app_assoc. reflexivity.
Qed.

Lemma is_delegated_cases (ty : Z) :
  is_delegated ty = true -> ty = 0x300 \/ ty = 0x380 \/ ty = 0x400 \/ ty = 0x480.
Proof.
  unfold is_delegated. intro H.
  repeat (apply orb_prop in H; destruct H as [H|H]);
    apply Z.eqb_eq in H; auto.
Qed.

Lemma fault_summary_ok (st : stack_frame) :
  Z.of_nat (length (fault_summary st)) < EXCEPTION_MAX_STR /\
  clean (fault_summary st) = true.
Proof.
  unfold fault_summary.
  destruct (type st =? 768); [|destruct (type st =? 896)].
  - destruct (Z.land (dsisr st) DSISR_ISSTORE =? 0);
      (split; [rewrite !length_app, !REG_length; reflexivity
              | now rewrite !clean_app, !REG_clean]).
  - split; [rewrite !length_app, !REG_length; reflexivity
           | now rewrite !clean_app, !REG_clean].
  - split; [rewrite !length_app, !REG_length; reflexivity
           | now rewrite !clean_app, !REG_clean].
Qed.

(** A storage or segment fault that the resolver handled: [goto out]
    with [fatal] as the mode word left it. *)
Lemma run_fault_handled (m : machine) :
  let st := stack m in
  is_delegated (type st) = true -> resolver_handled st = true ->
  exception_entry m =
    (if Z.land (srr1 st) MSR_RI =? 0 then Aborts m else Returns tt m).
Proof.
  intros st Hty Hres.
  unfold exception_entry. unfold bind at 1 2. unfold get_stack, alloc_buf.
  fold st. unfold resolver_handled in Hres.
  unfold bind, exception_switch.
  destruct (is_delegated_cases _ Hty) as [E|[E|[E|E]]];
    rewrite classify_sv by (rewrite E; reflexivity);
    rewrite E in *; cbv iota beta zeta;
    cbn [Z.eqb Pos.eqb] in Hres |- *; rewrite Hres;
    unfold ret, exception_out, bind, abort;
    now destruct (Z.land (srr1 st) MSR_RI =? 0).
Qed.

(** A storage or segment fault that the resolver did not handle. *)
Lemma run_fault_unhandled (m : machine) :
  let st := stack m in
  is_delegated (type st) = true -> resolver_handled st = false ->
  exists rest dump,
    exception_entry m =
      Aborts (emit (Prerror ((fault_summary st ++ rest) ++ [newline]) :: dump) m) /\
    Z.of_nat (length (fault_summary st ++ rest)) < EXCEPTION_MAX_STR /\
    forallb is_register_line dump = true.
Proof.
  intros st Hty Hres.
  destruct (fault_summary_ok st) as (Hlen & Hclean).
  destruct (first_line_run (mk_buffer EXCEPTION_MAX_STR (uninit m))
              _ true m eq_refl Hlen)
    as (b0 & l0 & E0 & Hb0).
  destruct (after_break true false b0 l0 _ (srr0 st) (srr1 st) m Hb0 Hclean)
    as (rest & dump & E1 & Hl & Hd).
  exists rest, dump. split; [|split; assumption].
  unfold exception_entry. unfold bind at 1 2. unfold get_stack, alloc_buf.
  fold st. unfold resolver_handled in Hres.
  unfold bind at 1. unfold exception_switch.
  unfold fault_summary in E0, E1 |- *.
  destruct (is_delegated_cases _ Hty) as [E|[E|[E|E]]];
    rewrite classify_sv by (rewrite E; reflexivity);
    rewrite E in *; cbv iota beta zeta;
    cbn [Z.eqb Pos.eqb] in Hres, E0, E1 |- *; rewrite Hres;
    rewrite E0; exact E1.
Qed.

(** ** Every run *)

Lemma Prerror_inj (a b : text) : Prerror a = Prerror b -> a = b.
Proof. intro H. now injection H. Qed.

Lemma emit_nil (m : machine) : emit [] m = m.
Proof. destruct m. unfold emit. cbn. now rewrite app_nil_r. Qed.

Lemma is_line_summary (s : text) :
  Z.of_nat (length s) < EXCEPTION_MAX_STR ->
  is_line (Prerror (s ++ [newline])) = true.
Proof.
  intro Hs. unfold is_line. rewrite rev_app_distr. cbn [rev app].
  rewrite length_rev. apply andb_true_intro. split; [reflexivity|].
  now apply Z.ltb_lt.
Qed.

Lemma is_line_inv (t : text) :
  is_line (Prerror t) = true ->
  exists s, t = s ++ [newline] /\ Z.of_nat (length s) < EXCEPTION_MAX_STR.
Proof.
  unfold is_line. destruct (rev t) as [|c body] eqn:E; [discriminate|].
  intro H. apply andb_prop in H. destruct H as (Hc & Hl).
  apply Ascii.eqb_eq in Hc. apply Z.ltb_lt in Hl. subst c.
  exists (rev body). rewrite length_rev. split; [|exact Hl].
  rewrite <- (rev_involutive t), E. reflexivity.
Qed.

Lemma banner_is_line : is_line (Prerror banner) = true.
Proof. reflexivity. Qed.

Lemma register_lines_are_lines (dump : list event) :
  forallb is_register_line dump = true -> forallb is_line dump = true.
Proof.
  rewrite !forallb_forall. intros H e He.
  specialize (H e He). unfold is_register_line in H.
  now apply andb_prop in H.
Qed.

Lemma register_lines_no_notice (dump : list event) :
  forallb is_register_line dump = true -> filter is_recoverable_notice dump = [].
Proof.
  induction dump as [|e dump IH]; [reflexivity|].
  cbn [forallb filter]. intro H. apply andb_prop in H. destruct H as (He & Hd).
  unfold is_register_line in He. apply andb_prop in He. destruct He as (_ & He).
  apply negb_true_iff in He. rewrite He. now apply IH.
Qed.

Lemma is_hv_default (ty : Z) :
  is_hv ty = true ->
  ty <> 0x100 /\ ty <> 0x200 /\ ty <> 0x300 /\ ty <> 0x380 /\ ty <> 0x400 /\ ty <> 0x480.
Proof.
  intro H. repeat split; intros ->; discriminate H.
Qed.

Lemma is_delegated_not_hv (ty : Z) : is_delegated ty = true -> is_hv ty = false.
Proof.
  intro H. destruct (is_delegated_cases ty H) as [E|[E|[E|E]]]; now subst ty.
Qed.

Lemma exception_entry_shape (m : machine) : run_shape m (exception_entry m).
Proof.
  set (st := stack m).
  destruct (Z.eqb_spec (type st) 0x100) as [E1|N1].
  { destruct (run_reset m E1) as (rest & dump & E & Hl & Hd). rewrite E.
    apply register_lines_are_lines in Hd. revert Hl. fold st.
    destruct (Z.land (srr1 st) MSR_RI =? 0); intro Hl.
    - apply run_fatal. cbn [forallb].
      rewrite ?banner_is_line, is_line_summary by assumption. now rewrite Hd.
    - apply run_resume; [unfold st in E1; now rewrite E1|].
      cbn [forallb]. rewrite banner_is_line, is_line_summary by assumption.
      rewrite forallb_app. cbn [forallb orb andb is_line is_backtrace].
      rewrite andb_true_r. rewrite forallb_forall in Hd |- *.
      intros e He. now rewrite (Hd e He). }
  destruct (Z.eqb_spec (type st) 0x200) as [E2|N2].
  { destruct (mce_retried m) eqn:Hr.
    - destruct (run_mce_retry m E2 Hr) as (rest & dump & E & Hl & Hd). rewrite E.
      apply register_lines_are_lines in Hd.
      assert (Htr : forall (a c s1 s2 : event) d,
                 a :: d ++ [c; s1; s2] = (a :: d ++ [c]) ++ [s1; s2]).
      { intros. cbn [app]. now rewrite <- app_assoc. }
      rewrite Htr. apply run_retry; [exact E2|]. cbn [forallb].
      rewrite forallb_app. cbn [forallb]. rewrite is_line_summary by assumption.
      now rewrite Hd.
    - destruct (run_mce_fatal m E2 Hr) as (rest & dump & E & Hl & Hd). rewrite E.
      apply register_lines_are_lines in Hd.
      apply run_fatal. cbn [forallb].
  rewrite ?banner_is_line, is_line_summary by assumption. now rewrite Hd. }
  destruct (is_delegated (type st)) eqn:Hdel.
  { destruct (resolver_handled st) eqn:Hres.
    - rewrite (run_fault_handled m Hdel Hres). fold st.
      destruct (Z.land (srr1 st) MSR_RI =? 0); rewrite <- (emit_nil m) at 2.
      + now apply run_fatal.
      + apply run_resume; [now apply is_delegated_not_hv | reflexivity].
    - destruct (run_fault_unhandled m Hdel Hres) as (rest & dump & E & Hl & Hd).
      rewrite E. apply register_lines_are_lines in Hd.
      apply run_fatal. cbn [forallb].
  rewrite ?banner_is_line, is_line_summary by assumption. now rewrite Hd. }
  unfold is_delegated in Hdel.
  apply orb_false_elim in Hdel. destruct Hdel as (Hdel & N6).
  apply orb_false_elim in Hdel. destruct Hdel as (Hdel & N5).
  apply orb_false_elim in Hdel. destruct Hdel as (N3 & N4).
  apply Z.eqb_neq in N3, N4, N5, N6.
  destruct (run_unknown m N1 N2 N3 N4 N5 N6) as (rest & dump & E & Hl & Hd).
  rewrite E. apply register_lines_are_lines in Hd.
  apply run_fatal. cbn [forallb].
  rewrite ?banner_is_line, is_line_summary by assumption. now rewrite Hd.
Qed.

(** ** The claims *)

Lemma is_hv_vectors (ty : Z) : is_hv ty = existsb (Z.eqb ty) hv_vectors.
Proof.
  unfold is_hv, hv_vectors. cbn [existsb].
  rewrite orb_false_r, !orb_assoc. reflexivity.
Qed.

Lemma is_hv_In (ty : Z) : In ty hv_vectors -> is_hv ty = true.
Proof.
  intro H. rewrite is_hv_vectors. apply existsb_exists.
  exists ty. split; [exact H | apply Z.eqb_refl].
Qed.

Lemma msr_of_sv (st : stack_frame) : is_hv (type st) = false -> msr_of st = srr1 st.
Proof. intro H. unfold msr_of. now rewrite H. Qed.

Lemma nip_of_sv (st : stack_frame) : is_hv (type st) = false -> nip_of st = srr0 st.
Proof. intro H. unfold nip_of. now rewrite H. Qed.

Lemma vm_off_bits (a x y i : Z) :
  0 <= i < 64 ->
  Z.testbit (wrap64 (Z.land a (Z.lnot (Z.lor x y)))) i =
    Z.testbit a i && negb (Z.testbit x i || Z.testbit y i).
Proof.
  intro Hi. unfold wrap64.
  rewrite Z.mod_pow2_bits_low by lia.
  rewrite Z.land_spec, Z.lnot_spec, Z.lor_spec by lia. reflexivity.
Qed.

(** C1: for a trap that is not one of the four delegated storage and
    segment faults, a mode word without [MSR_RI] ends the run in
    [abort()], whatever else the frame and the CPU flags hold. *)
Theorem ri_clear_is_fatal (m : machine) :
  is_delegated (type (stack m)) = false ->
  Z.land (msr_of (stack m)) MSR_RI = 0 ->
  exists m', exception_entry m = Aborts m'.
Proof.
  intros Hdel Hri. set (st := stack m) in *.
  destruct (Z.eqb_spec (type st) 0x100) as [E1|N1].
  { destruct (run_reset m E1) as (rest & dump & E & _). rewrite E.
    fold st. rewrite msr_of_sv in Hri by (rewrite E1; reflexivity).
    rewrite Hri. cbn [Z.eqb]. eexists. reflexivity. }
  destruct (Z.eqb_spec (type st) 0x200) as [E2|N2].
  { rewrite msr_of_sv in Hri by (rewrite E2; reflexivity).
    assert (Hr : mce_retried m = false).
    { unfold mce_retried. fold st. rewrite Hri. cbn [Z.eqb negb].
      now rewrite andb_false_r. }
    destruct (run_mce_fatal m E2 Hr) as (rest & dump & E & _). rewrite E.
    eexists. reflexivity. }
  unfold is_delegated in Hdel.
  apply orb_false_elim in Hdel. destruct Hdel as (Hdel & N6).
  apply orb_false_elim in Hdel. destruct Hdel as (Hdel & N5).
  apply orb_false_elim in Hdel. destruct Hdel as (N3 & N4).
  apply Z.eqb_neq in N3, N4, N5, N6.
  destruct (run_unknown m N1 N2 N3 N4 N5 N6) as (rest & dump & E & _).
  rewrite E. eexists. reflexivity.
Qed.

(** C2: a machine check ([0x200]) with [MSR_RI] set, the local map not
    in use and [MSR_IR] or [MSR_DR] set returns; it prints the
    recoverable-MCE notice exactly once, leaves [srr0] and every other
    field but [srr1] as they were, clears in [srr1] exactly the bits of
    [MSR_IR|MSR_DR], and clears [vm_setup]. *)
Theorem mce_retry_with_vm_off (m : machine) :
  type (stack m) = 0x200 ->
  Z.land (msr_of (stack m)) MSR_RI <> 0 ->
  vm_local_map_inuse (this_cpu m) = false ->
  Z.land (msr_of (stack m)) (Z.lor MSR_IR MSR_DR) <> 0 ->
  exists m' rest dump,
    exception_entry m = Returns tt m' /\
    trace m' = trace m
               ++ Prerror ((mce_notice (srr0 (stack m)) ++ rest) ++ [newline])
                  :: dump
               ++ [Prerror (lit "Continuing with VM off" ++ [newline]);
                   StoreVmSetup false; StoreSrr1 (srr1 (stack m'))] /\
    length (filter is_recoverable_notice
              (Prerror ((mce_notice (srr0 (stack m)) ++ rest) ++ [newline])
               :: dump
               ++ [Prerror (lit "Continuing with VM off" ++ [newline]);
                   StoreVmSetup false; StoreSrr1 (srr1 (stack m'))])) = 1%nat /\
    srr0 (stack m') = srr0 (stack m) /\
    stack m' = set_srr1 (srr1 (stack m')) (stack m) /\
    0 <= srr1 (stack m') < 2 ^ 64 /\
    (forall i, 0 <= i < 64 ->
       Z.testbit (srr1 (stack m')) i =
         Z.testbit (srr1 (stack m)) i
         && negb (Z.testbit MSR_IR i || Z.testbit MSR_DR i)) /\
    vm_setup (this_cpu m') = false.
Proof.
  intros Hty Hri Hmap Hvm.
  rewrite msr_of_sv in Hri, Hvm by (rewrite Hty; reflexivity).
  assert (Hr : mce_retried m = true).
  { unfold mce_retried. rewrite Hmap.
    apply Z.eqb_neq in Hri, Hvm. now rewrite Hri, Hvm. }
  destruct (run_mce_retry m Hty Hr) as (rest & dump & E & Hl & Hd).
  eexists. exists rest, dump. split; [exact E|].
  cbn [stack trace this_cpu vm_setup set_srr1 srr0 srr1].
  split; [reflexivity|]. split.
  { cbn [filter].
    replace (is_recoverable_notice
               (Prerror ((mce_notice (srr0 (stack m)) ++ rest) ++ [newline])))
      with true by reflexivity.
    rewrite filter_app, (register_lines_no_notice dump Hd). reflexivity. }
  split; [reflexivity|]. split; [reflexivity|]. split.
  { unfold srr1_vm_off, wrap64. apply Z.mod_pos_bound. reflexivity. }
  split; [|reflexivity].
  intros i Hi. unfold srr1_vm_off. now apply vm_off_bits.
Qed.

(** C3, as the code has it: when the matching resolver reports a
    storage or segment fault handled, nothing is printed and nothing is
    stored; the run returns if [MSR_RI] is set in the mode word and
    ends in [abort()] if it is clear. *)
Theorem handled_fault_is_silent (m : machine) :
  is_delegated (type (stack m)) = true ->
  resolver_handled (stack m) = true ->
  (Z.land (msr_of (stack m)) MSR_RI <> 0 -> exception_entry m = Returns tt m) /\
  (Z.land (msr_of (stack m)) MSR_RI = 0 -> exception_entry m = Aborts m).
Proof.
  intros Hdel Hres.
  rewrite (run_fault_handled m Hdel Hres).
  rewrite msr_of_sv by now apply is_delegated_not_hv.
  split; intro Hri.
  - apply Z.eqb_neq in Hri. now rewrite Hri.
  - now rewrite Hri.
Qed.

(** C4, as the code has it: the first [switch] takes exactly the nine
    vectors of [hv_vectors] to arrive through HSRR0/HSRR1; every other
    identifier, system reset [0x100] and machine check [0x200]
    included, is read from SRR0/SRR1. *)
Theorem classify_reads_the_right_pair (st : stack_frame) :
  classify st =
    (if existsb (Z.eqb (type st)) hv_vectors
     then (true, hsrr0 st, hsrr1 st)
     else (false, srr0 st, srr1 st)) /\
  existsb (Z.eqb 0x100) hv_vectors = false /\
  existsb (Z.eqb 0x200) hv_vectors = false.
Proof.
  split; [|split; reflexivity].
  rewrite <- is_hv_vectors. unfold classify.
  now destruct (is_hv (type st)).
Qed.

(** C5: [exception_entry] is its second [switch] followed by lines
    169-184.  On every exit of the switch with [fatal] clear those
    lines return, and for a hypervisor-context trap they have stored
    the address and the mode word read from HSRR0/HSRR1 into [srr0] and
    [srr1] and left the hypervisor pair alone; for a supervisor-context
    trap they store nothing.  A whole run that returns is a
    supervisor-context run and leaves both pairs as they were, but for
    [srr1] on the machine-check retry. *)
Theorem resume_frame_effect (m : machine) :
  exception_entry m =
    bind (exception_switch (stack m) (mk_buffer EXCEPTION_MAX_STR (uninit m))
            (Z.land (msr_of (stack m)) MSR_RI =? 0)
            (nip_of (stack m)) (msr_of (stack m)))
         (exception_finish (is_hv (type (stack m)))
            (nip_of (stack m)) (msr_of (stack m))) m /\
  (is_hv (type (stack m)) = true ->
   forall x m1, exit_resumes x ->
     exists m2 es,
       exception_finish (is_hv (type (stack m)))
         (nip_of (stack m)) (msr_of (stack m)) x m1 = Returns tt m2 /\
       srr0 (stack m2) = hsrr0 (stack m) /\
       srr1 (stack m2) = hsrr1 (stack m) /\
       hsrr0 (stack m2) = hsrr0 (stack m1) /\
       hsrr1 (stack m2) = hsrr1 (stack m1) /\
       trace m2 = trace m1 ++ es
                  ++ [StoreSrr0 (hsrr0 (stack m)); StoreSrr1 (hsrr1 (stack m))] /\
       forallb (fun e => is_line e || is_backtrace e) es = true) /\
  (is_hv (type (stack m)) = false ->
   forall x m1, exit_resumes x ->
     exists m2 es,
       exception_finish (is_hv (type (stack m)))
         (nip_of (stack m)) (msr_of (stack m)) x m1 = Returns tt m2 /\
       stack m2 = stack m1 /\
       trace m2 = trace m1 ++ es /\
       forallb (fun e => is_line e || is_backtrace e) es = true) /\
  (forall m', exception_entry m = Returns tt m' ->
     is_hv (type (stack m)) = false /\
     hsrr0 (stack m') = hsrr0 (stack m) /\ hsrr1 (stack m') = hsrr1 (stack m) /\
     srr0 (stack m') = srr0 (stack m) /\
     (srr1 (stack m') = srr1 (stack m) \/
      type (stack m) = 0x200 /\ srr1 (stack m') = srr1_vm_off (stack m))).
Proof.
  assert (Hfin : forall hv nip msr x m1, exit_resumes x ->
            exists es,
              exception_finish hv nip msr x m1
                = exception_out false hv nip msr (emit es m1) /\
              forallb (fun e => is_line e || is_backtrace e) es = true).
  { intros hv nip msr [f|f b l] m1 Hx; cbn [exit_resumes] in Hx.
    - subst f. exists []. rewrite emit_nil. split; reflexivity.
    - destruct Hx as (-> & Hb).
      destruct (exception_report_run false b l [] nip msr m1 Hb eq_refl)
        as (rest & dump & E & Hl & Hd).
      eexists. unfold exception_finish. unfold bind at 1. rewrite E.
      split; [reflexivity|].
      apply register_lines_are_lines in Hd.
      cbn [forallb app]. rewrite is_line_summary by assumption.
      rewrite forallb_app. cbn [forallb orb andb is_line is_backtrace].
      rewrite andb_true_r. rewrite forallb_forall in Hd |- *.
      intros e He. now rewrite (Hd e He). }
  split; [|split; [|split]].
  - unfold exception_entry. unfold bind at 1 2. unfold get_stack, alloc_buf.
    rewrite classify_eq. reflexivity.
  - intros Hhv x m1 Hx. rewrite Hhv. unfold nip_of, msr_of. rewrite Hhv.
    destruct (Hfin true (hsrr0 (stack m)) (hsrr1 (stack m)) x m1 Hx) as (es & E & Hes).
    rewrite E. unfold exception_out, bind, ret, store_srr0, store_srr1.
    cbn [stack this_cpu uninit trace emit].
    eexists. exists es. split; [reflexivity|].
    cbn [stack trace srr0 srr1 hsrr0 hsrr1 set_srr0 set_srr1].
    repeat (split; [reflexivity|]). split; [|exact Hes].
    now rewrite <- !app_assoc.
  - intros Hsv x m1 Hx. rewrite Hsv.
    destruct (Hfin false (nip_of (stack m)) (msr_of (stack m)) x m1 Hx)
      as (es & E & Hes).
    rewrite E. unfold exception_out, bind, ret.
    eexists. exists es. split; [reflexivity|].
    cbn [stack trace emit]. split; [reflexivity|]. split; [reflexivity | exact Hes].
  - intros m' H. pose proof (exception_entry_shape m) as S. rewrite H in S.
    inversion S as [ | es Hhv Hes Heq | es Hty Hes Heq].
    + split; [exact Hhv|]. cbn [emit stack]. auto.
    + split; [rewrite Hty; reflexivity|].
      cbn [stack set_srr1 hsrr0 hsrr1 srr0 srr1].
      split; [reflexivity|]. split; [reflexivity|]. split; [reflexivity|].
      right. split; [exact Hty | reflexivity].
Qed.

(** C6: a machine check ([0x200]) taken while [vm_local_map_inuse] is
    set ends in [abort()], for every mode word. *)
Theorem mce_under_local_map_is_fatal (m : machine) :
  type (stack m) = 0x200 ->
  vm_local_map_inuse (this_cpu m) = true ->
  exists m', exception_entry m = Aborts m'.
Proof.
  intros Hty Hmap.
  assert (Hr : mce_retried m = false) by (unfold mce_retried; now rewrite Hmap).
  destruct (run_mce_fatal m Hty Hr) as (rest & dump & E & _).
  rewrite E. eexists. reflexivity.
Qed.

(** C7: a run that ends in [abort()] has not touched the frame or the
    CPU flags: all it did was print lines.  No store to the frame and
    no backtrace comes before the call, and nothing comes after. *)
Theorem fatal_run_is_frozen (m m' : machine) :
  exception_entry m = Aborts m' ->
  stack m' = stack m /\ this_cpu m' = this_cpu m /\
  exists es, trace m' = trace m ++ es /\
    forall e, In e es ->
      is_line e = true /\ is_frame_store e = false /\ is_backtrace e = false.
Proof.
  intro H. pose proof (exception_entry_shape m) as S. rewrite H in S.
  inversion S as [es Hes Heq | | ].
  split; [reflexivity|]. split; [reflexivity|].
  exists es. split; [reflexivity|].
  intros e He. rewrite forallb_forall in Hes. specialize (Hes e He).
  split; [exact Hes|]. destruct e; try discriminate Hes. split; reflexivity.
Qed.

(** What every run leaves in the trace: lines that fit the buffer,
    and besides them at most a backtrace and the stores of the retry. *)
Lemma exception_entry_lines (m : machine) :
  exists m' es,
    (exception_entry m = Returns tt m' \/ exception_entry m = Aborts m') /\
    trace m' = trace m ++ es /\
    forall e, In e es -> is_line e = true \/ is_backtrace e = true \/
                         e = StoreVmSetup false \/ exists v, e = StoreSrr1 v.
Proof.
  pose proof (exception_entry_shape m) as S.
  destruct S as [es Hes | es Hhv Hes | es Hty Hes]; eexists; eexists.
  - split; [right; reflexivity|]. split; [reflexivity|].
    intros e He. rewrite forallb_forall in Hes. left. now apply Hes.
  - split; [left; reflexivity|]. split; [reflexivity|].
    intros e He. rewrite forallb_forall in Hes. specialize (Hes e He).
    apply orb_prop in Hes. tauto.
  - split; [left; reflexivity|]. split; [reflexivity|].
    intros e He. rewrite forallb_forall in Hes.
    apply in_app_or in He. destruct He as [He|He]; [left; now apply Hes|].
    right. right. cbn [In] in He. destruct He as [<-|[<-|[]]].
    + now left.
    + right. eexists. reflexivity.
Qed.

(** C8: the summary line never leaves [buf].  No run of
    [exception_entry] or of [print_recoverable_mce_vm] overruns the
    buffer, whatever the frame holds and however long the symbol name
    is; every line printed is, its newline aside, shorter than
    [EXCEPTION_MAX_STR]; and each [snprintf] into the buffer stores what
    fits before the last cell and drops the rest. *)
Theorem summary_stays_in_buffer (m : machine) :
  exception_entry m <> Overrun /\
  (forall m',
     exception_entry m = Returns tt m' \/ exception_entry m = Aborts m' ->
     exists es, trace m' = trace m ++ es /\
       forall t, In (Prerror t) es ->
         exists s, t = s ++ [newline] /\ Z.of_nat (length s) < EXCEPTION_MAX_STR) /\
  (forall nip msr,
     exists m' es, print_recoverable_mce_vm nip msr m = Returns tt m' /\
       trace m' = trace m ++ es /\
       forall t, In (Prerror t) es ->
         exists s, t = s ++ [newline] /\ Z.of_nat (length s) < EXCEPTION_MAX_STR) /\
  (forall b l t,
     capacity b = EXCEPTION_MAX_STR -> 0 <= l < EXCEPTION_MAX_STR ->
     exists b' r,
       snprintf b l (wrap64 (EXCEPTION_MAX_STR - l)) t = Some (b', r) /\
       r = Z.min (Z.of_nat (length t)) (EXCEPTION_MAX_STR - 1 - l) /\
       capacity b' = EXCEPTION_MAX_STR /\
       wrap64 (l + r) < EXCEPTION_MAX_STR /\
       cell b' (wrap64 (l + r)) = NUL).
Proof.
  destruct (exception_entry_lines m) as (m1 & es & Hrun & Htr & Hes).
  split; [|split; [|split]].
  - destruct Hrun as [E|E]; rewrite E; discriminate.
  - intros m' Hm'. exists es.
    assert (m' = m1) as ->.
    { destruct Hrun as [E|E]; destruct Hm' as [E'|E']; congruence. }
    split; [exact Htr|]. intros t Ht. apply is_line_inv.
    destruct (Hes _ Ht) as [H|[H|[H|(v & H)]]];
      [exact H | discriminate H | discriminate H | discriminate H].
  - intros nip msr.
    destruct (print_recoverable_mce_vm_run nip msr m) as (rest & dump & E & Hl & Hd).
    eexists. eexists. split; [exact E|]. split; [reflexivity|].
    intros t Ht. apply is_line_inv.
    apply register_lines_are_lines in Hd. rewrite forallb_forall in Hd.
    destruct Ht as [Ht|Ht].
    + apply Prerror_inj in Ht. subst t. now apply is_line_summary.
    + apply in_app_or in Ht. destruct Ht as [Ht|Ht]; [now apply Hd|].
      destruct Ht as [Ht|[]]. apply Prerror_inj in Ht. subst t. reflexivity.
  - intros b l t Hcap Hl.
    destruct (snprintf_at b l t Hcap Hl) as (b' & r & E & Hr & Hw & Hc & Hn & _).
    exists b', r. rewrite Hw. unfold EXCEPTION_MAX_STR in *.
    repeat (split; [first [assumption | lia]|]). exact Hn.
Qed.

(** C9: a vector that is none of [0x100], [0x200], [0x300], [0x380],
    [0x400], [0x480] and none of the hypervisor vectors ends in
    [abort()], whatever the mode word, after a line that starts with
    ["Fatal Exception 0x"], the identifier in hexadecimal and the
    address. *)
Theorem unknown_vector_is_fatal (m : machine) :
  type (stack m) <> 0x100 -> type (stack m) <> 0x200 ->
  type (stack m) <> 0x300 -> type (stack m) <> 0x380 ->
  type (stack m) <> 0x400 -> type (stack m) <> 0x480 ->
  is_hv (type (stack m)) = false ->
  exists m' rest,
    exception_entry m = Aborts m' /\
    In (Prerror ((lit "Fatal Exception 0x" ++ fmt_llx (type (stack m))
                  ++ lit " at " ++ REG (srr0 (stack m)) ++ lit "  ")
                 ++ rest ++ [newline])) (trace m').
Proof.
  intros N1 N2 N3 N4 N5 N6 Hsv.
  destruct (run_unknown m N1 N2 N3 N4 N5 N6) as (rest & dump & E & _).
  eexists. exists rest. split; [exact E|].
  cbn [emit trace]. apply in_or_app. right. right. left.
  unfold unknown_summary. rewrite (nip_of_sv _ Hsv).
  now rewrite <- app_assoc.
Qed.

(** C10: each of the nine vectors that the first [switch] marks [hv]
    falls to the default case of the second and ends in [abort()] with
    the frame as it was; so no run returns with [hv] set, and no run at
    all stores to [srr0]. *)
Theorem hv_vectors_always_fatal (m : machine) :
  (In (type (stack m)) hv_vectors ->
     is_hv (type (stack m)) = true /\
     exists m' rest,
       exception_entry m = Aborts m' /\ stack m' = stack m /\
       In (Prerror ((lit "Fatal Exception 0x" ++ fmt_llx (type (stack m))
                     ++ lit " at " ++ REG (hsrr0 (stack m)) ++ lit "  ")
                    ++ rest ++ [newline])) (trace m')) /\
  (forall m', exception_entry m = Returns tt m' -> is_hv (type (stack m)) = false) /\
  (forall m',
     exception_entry m = Returns tt m' \/ exception_entry m = Aborts m' ->
     srr0 (stack m') = srr0 (stack m) /\
     exists es, trace m' = trace m ++ es /\
       forall e, In e es -> is_srr0_store e = false).
Proof.
  split; [|split].
  - intro Hin. apply is_hv_In in Hin. split; [exact Hin|].
    destruct (is_hv_default _ Hin) as (N1 & N2 & N3 & N4 & N5 & N6).
    destruct (run_unknown m N1 N2 N3 N4 N5 N6) as (rest & dump & E & _).
    eexists. exists rest. split; [exact E|]. split; [reflexivity|].
    cbn [emit trace]. apply in_or_app. right. right. left.
    unfold unknown_summary, nip_of. rewrite Hin.
    now rewrite <- app_assoc.
  - intros m' H. pose proof (exception_entry_shape m) as S. rewrite H in S.
    inversion S as [ | es Hhv Hes Heq | es Hty Hes Heq];
      [assumption | rewrite Hty; reflexivity].
  - intros m' H. pose proof (exception_entry_shape m) as S.
    assert (Hs : run_shape m (Returns tt m') \/ run_shape m (Aborts m')).
    { destruct H as [H|H]; rewrite H in S; auto. }
    clear H S.
    destruct Hs as [S|S];
      inversion S as [es Hes Heq | es Hhv Hes Heq | es Hty Hes Heq];
      (split; [reflexivity|]); eexists; (split; [reflexivity|]);
      intros e He; rewrite forallb_forall in Hes.
    + specialize (Hes e He). now destruct e.
    + apply in_app_or in He. destruct He as [He|He].
      * specialize (Hes e He). now destruct e.
      * destruct He as [<-|[<-|[]]]; reflexivity.
    + specialize (Hes e He). now destruct e.
Qed.

End Properties.

(** * The claims at concrete machines *)

Lemma ri_clear_is_fatal_witness :
  is_delegated (type (stack reset_no_ri)) = false /\
  Z.land (msr_of (stack reset_no_ri)) (@MSR_RI power) = 0 /\
  exists m', @exception_entry power no_help reset_no_ri = Aborts m'.
Proof.
  split; [reflexivity|]. split; [reflexivity|].
  apply (@ri_clear_is_fatal power no_help reset_no_ri); reflexivity.
Defined.

Lemma mce_retry_with_vm_off_witness :
  type (stack mce_vm_on) = 0x200 /\
  Z.land (msr_of (stack mce_vm_on)) (@MSR_RI power) <> 0 /\
  vm_local_map_inuse (this_cpu mce_vm_on) = false /\
  Z.land (msr_of (stack mce_vm_on)) (Z.lor (@MSR_IR power) (@MSR_DR power)) <> 0 /\
  exists m',
    @exception_entry power vm_helps mce_vm_on = Returns tt m' /\
    srr0 (stack m') = 0x1000 /\
    Z.testbit (srr1 (stack m')) 5 = false /\
    Z.testbit (srr1 (stack m')) 4 = false /\
    Z.testbit (srr1 (stack m')) 1 = true /\
    vm_setup (this_cpu m') = false.
Proof.
  assert (H1 : type (stack mce_vm_on) = 0x200) by reflexivity.
  assert (H2 : Z.land (msr_of (stack mce_vm_on)) (@MSR_RI power) <> 0)
    by (vm_compute; discriminate).
  assert (H3 : vm_local_map_inuse (this_cpu mce_vm_on) = false) by reflexivity.
  assert (H4 : Z.land (msr_of (stack mce_vm_on))
                 (Z.lor (@MSR_IR power) (@MSR_DR power)) <> 0)
    by (vm_compute; discriminate).
  split; [exact H1|]. split; [exact H2|]. split; [exact H3|]. split; [exact H4|].
  destruct (@mce_retry_with_vm_off power vm_helps mce_vm_on H1 H2 H3 H4)
    as (m' & rest & dump & E & _ & _ & Hs0 & _ & _ & Hbits & Hvm).
  exists m'. split; [exact E|]. split; [exact Hs0|].
  split; [rewrite Hbits by lia; reflexivity|].
  split; [rewrite Hbits by lia; reflexivity|].
  split; [rewrite Hbits by lia; reflexivity | exact Hvm].
Defined.

Lemma handled_fault_is_silent_witness :
  is_delegated (type (stack dsi_ri)) = true /\
  @resolver_handled power vm_helps (stack dsi_ri) = true /\
  Z.land (msr_of (stack dsi_ri)) (@MSR_RI power) <> 0 /\
  @exception_entry power vm_helps dsi_ri = Returns tt dsi_ri.
Proof.
  assert (H1 : is_delegated (type (stack dsi_ri)) = true) by reflexivity.
  assert (H2 : @resolver_handled power vm_helps (stack dsi_ri) = true) by reflexivity.
  assert (H3 : Z.land (msr_of (stack dsi_ri)) (@MSR_RI power) <> 0)
    by (vm_compute; discriminate).
  split; [exact H1|]. split; [exact H2|]. split; [exact H3|].
  exact (proj1 (@handled_fault_is_silent power vm_helps dsi_ri H1 H2) H3).
Defined.

(** The resolver handled the data storage fault, [MSR_RI] is clear in
    SRR1: the run ends in [abort()], having printed nothing. *)
Lemma handled_fault_without_ri_aborts :
  is_delegated (type (stack dsi_no_ri)) = true /\
  @resolver_handled power vm_helps (stack dsi_no_ri) = true /\
  Z.land (srr1 (stack dsi_no_ri)) (@MSR_RI power) = 0 /\
  @exception_entry power vm_helps dsi_no_ri = Aborts dsi_no_ri /\
  ~ (exists m', @exception_entry power vm_helps dsi_no_ri = Returns tt m').
Proof.
  assert (E : @exception_entry power vm_helps dsi_no_ri = Aborts dsi_no_ri)
    by (vm_compute; reflexivity).
  split; [reflexivity|]. split; [reflexivity|]. split; [reflexivity|].
  split; [exact E|]. intros (m' & E'). rewrite E in E'. discriminate E'.
Qed.

(** System reset and machine check are read from SRR0/SRR1, not from
    the hypervisor pair: with [MSR_RI] set in SRR1 only, the reset
    returns. *)
Lemma reset_and_mce_read_srr :
  classify (stack reset_ri) = (false, srr0 (stack reset_ri), srr1 (stack reset_ri)) /\
  classify (stack reset_ri) <> (true, hsrr0 (stack reset_ri), hsrr1 (stack reset_ri)) /\
  classify (stack mce_vm_on) = (false, srr0 (stack mce_vm_on), srr1 (stack mce_vm_on)) /\
  classify (stack mce_vm_on) <> (true, hsrr0 (stack mce_vm_on), hsrr1 (stack mce_vm_on)) /\
  Z.land (hsrr1 (stack reset_ri)) (@MSR_RI power) = 0 /\
  exists m', @exception_entry power no_help reset_ri = Returns tt m'.
Proof.
  split; [reflexivity|]. split; [vm_compute; discriminate|].
  split; [reflexivity|]. split; [vm_compute; discriminate|].
  split; [reflexivity|].
  eexists. vm_compute. reflexivity.
Qed.

Lemma resume_frame_effect_witness :
  is_hv (type (stack hmi)) = true /\
  srr0 (stack hmi) = 0x1000 /\ srr1 (stack hmi) = 0 /\
  exit_resumes (GotoOut false) /\
  exit_resumes (Break false blank_buf 0) /\
  (exists m2 es,
     @exception_finish no_help (is_hv (type (stack hmi)))
       (nip_of (stack hmi)) (msr_of (stack hmi)) (GotoOut false) hmi
       = Returns tt m2 /\
     srr0 (stack m2) = 0x2000 /\ srr1 (stack m2) = 0x9000000000001002 /\
     hsrr0 (stack m2) = 0x2000 /\ hsrr1 (stack m2) = 0x9000000000001002 /\
     trace m2 = trace hmi ++ es
                ++ [StoreSrr0 0x2000; StoreSrr1 0x9000000000001002] /\
     forallb (fun e => is_line e || is_backtrace e) es = true) /\
  (exists m2 es,
     @exception_finish no_help (is_hv (type (stack hmi)))
       (nip_of (stack hmi)) (msr_of (stack hmi)) (Break false blank_buf 0) hmi
       = Returns tt m2 /\
     srr0 (stack m2) = 0x2000 /\ srr1 (stack m2) = 0x9000000000001002 /\
     hsrr0 (stack m2) = 0x2000 /\ hsrr1 (stack m2) = 0x9000000000001002 /\
     trace m2 = trace hmi ++ es
                ++ [StoreSrr0 0x2000; StoreSrr1 0x9000000000001002] /\
     forallb (fun e => is_line e || is_backtrace e) es = true) /\
  @exception_entry power no_help reset_ri =
    Returns tt (final (@exception_entry power no_help reset_ri) reset_ri) /\
  is_hv (type (stack reset_ri)) = false /\
  hsrr0 (stack (final (@exception_entry power no_help reset_ri) reset_ri)) = 0x2000 /\
  hsrr1 (stack (final (@exception_entry power no_help reset_ri) reset_ri)) = 0 /\
  srr0 (stack (final (@exception_entry power no_help reset_ri) reset_ri)) = 0x1000.
Proof.
  assert (Hhv : is_hv (type (stack hmi)) = true) by reflexivity.
  assert (Hgo : exit_resumes (GotoOut false)) by reflexivity.
  assert (Hbr : exit_resumes (Break false blank_buf 0)).
  { split; [reflexivity|]. unfold built, blank_buf, EXCEPTION_MAX_STR.
    cbn [capacity cell length]. split; [reflexivity|]. split; [lia|].
    split; [reflexivity|]. split; [lia|]. intros i Hi. inversion Hi. }
  assert (H : @exception_entry power no_help reset_ri =
              Returns tt (final (@exception_entry power no_help reset_ri) reset_ri))
    by (vm_compute; reflexivity).
  destruct (@resume_frame_effect power no_help hmi) as (_ & Hstore & _).
  destruct (@resume_frame_effect power no_help reset_ri) as (_ & _ & _ & Hkeep).
  split; [exact Hhv|]. split; [reflexivity|]. split; [reflexivity|].
  split; [exact Hgo|]. split; [exact Hbr|].
  split; [exact (Hstore Hhv _ hmi Hgo)|].
  split; [exact (Hstore Hhv _ hmi Hbr)|].
  split; [exact H|].
  destruct (Hkeep _ H) as (Hsv & H0 & H1 & H2 & _).
  split; [exact Hsv|]. split; [exact H0|]. split; [exact H1 | exact H2].
Defined.

Lemma mce_under_local_map_is_fatal_witness :
  type (stack mce_local_map) = 0x200 /\
  vm_local_map_inuse (this_cpu mce_local_map) = true /\
  exists m', @exception_entry power no_help mce_local_map = Aborts m'.
Proof.
  split; [reflexivity|]. split; [reflexivity|].
  apply (@mce_under_local_map_is_fatal power no_help mce_local_map); reflexivity.
Defined.

Lemma fatal_run_is_frozen_witness :
  @exception_entry power no_help reset_no_ri =
    Aborts (final (@exception_entry power no_help reset_no_ri) reset_no_ri) /\
  stack (final (@exception_entry power no_help reset_no_ri) reset_no_ri)
    = stack reset_no_ri /\
  this_cpu (final (@exception_entry power no_help reset_no_ri) reset_no_ri)
    = this_cpu reset_no_ri.
Proof.
  assert (H : @exception_entry power no_help reset_no_ri =
              Aborts (final (@exception_entry power no_help reset_no_ri) reset_no_ri))
    by (vm_compute; reflexivity).
  split; [exact H|].
  destruct (@fatal_run_is_frozen power no_help _ _ H) as (Hs & Hc & _).
  split; [exact Hs | exact Hc].
Defined.

Lemma summary_stays_in_buffer_witness :
  @exception_entry power long_names program_check <> Overrun /\
  exists m' es,
    @print_recoverable_mce_vm long_names 0x1000 0x32 program_check
      = Returns tt m' /\
    trace m' = trace program_check ++ es.
Proof.
  destruct (@summary_stays_in_buffer power long_names program_check)
    as (Hsafe & _ & Hmce & _).
  split; [exact Hsafe|].
  destruct (Hmce 0x1000 0x32) as (m' & es & E & Htr & _).
  exists m', es. split; [exact E | exact Htr].
Defined.

(** A name of four hundred characters is cut: the line fills the
    buffer to its last cell but one, and the mode word is dropped. *)
Example long_symbol_is_cut :
  exists line,
    nth_error (trace (final (@exception_entry power long_names program_check)
                        program_check)) 1
      = Some (Prerror (line ++ [newline])) /\
    length line = 319%nat /\
    line = lit "Fatal Exception 0x700 at 0000000000001000  " ++ repeat "A"%char 276.
Proof.
  exists (lit "Fatal Exception 0x700 at 0000000000001000  " ++ repeat "A"%char 276).
  split; [vm_compute; reflexivity|]. split; reflexivity.
Qed.

Lemma unknown_vector_is_fatal_witness :
  type (stack program_check) <> 0x100 /\ type (stack program_check) <> 0x200 /\
  type (stack program_check) <> 0x300 /\ type (stack program_check) <> 0x380 /\
  type (stack program_check) <> 0x400 /\ type (stack program_check) <> 0x480 /\
  is_hv (type (stack program_check)) = false /\
  exists m' rest,
    @exception_entry power no_help program_check = Aborts m' /\
    In (Prerror ((lit "Fatal Exception 0x" ++ fmt_llx (type (stack program_check))
                  ++ lit " at " ++ REG (srr0 (stack program_check)) ++ lit "  ")
                 ++ rest ++ [newline])) (trace m').
Proof.
  assert (N1 : type (stack program_check) <> 0x100) by (vm_compute; discriminate).
  assert (N2 : type (stack program_check) <> 0x200) by (vm_compute; discriminate).
  assert (N3 : type (stack program_check) <> 0x300) by (vm_compute; discriminate).
  assert (N4 : type (stack program_check) <> 0x380) by (vm_compute; discriminate).
  assert (N5 : type (stack program_check) <> 0x400) by (vm_compute; discriminate).
  assert (N6 : type (stack program_check) <> 0x480) by (vm_compute; discriminate).
  assert (Hsv : is_hv (type (stack program_check)) = false) by reflexivity.
  split; [exact N1|]. split; [exact N2|]. split; [exact N3|].
  split; [exact N4|]. split; [exact N5|]. split; [exact N6|]. split; [exact Hsv|].
  exact (@unknown_vector_is_fatal power no_help program_check N1 N2 N3 N4 N5 N6 Hsv).
Defined.

(** The line of the unknown vector, as printed. *)
Example unknown_vector_line :
  nth_error (trace (final (@exception_entry power no_help program_check)
                      program_check)) 1
    = Some (Prerror (lit "Fatal Exception 0x700 at 0000000000001000    MSR 9000000000001002"
                     ++ [newline])).
Proof. vm_compute. reflexivity. Qed.

Lemma hv_vectors_always_fatal_witness :
  In (type (stack hmi)) hv_vectors /\
  is_hv (type (stack hmi)) = true /\
  exists m' rest,
    @exception_entry power no_help hmi = Aborts m' /\ stack m' = stack hmi /\
    In (Prerror ((lit "Fatal Exception 0x" ++ fmt_llx (type (stack hmi))
                  ++ lit " at " ++ REG (hsrr0 (stack hmi)) ++ lit "  ")
                 ++ rest ++ [newline])) (trace m').
Proof.
  assert (Hin : In (type (stack hmi)) hv_vectors).
  { do 5 right. left. reflexivity. }
  split; [exact Hin|].
  exact (proj1 (@hv_vectors_always_fatal power no_help hmi) Hin).
Defined.

(** A hypervisor maintenance interrupt with [MSR_RI] set in HSRR1. *)
Example hmi_is_fatal :
  Z.land (hsrr1 (stack hmi)) (@MSR_RI power) <> 0 /\
  nth_error (trace (final (@exception_entry power no_help hmi) hmi)) 1
    = Some (Prerror (lit "Fatal Exception 0xe60 at 0000000000002000    MSR 9000000000001002"
                     ++ [newline])) /\
  @exception_entry power no_help hmi
    = Aborts (final (@exception_entry power no_help hmi) hmi).
Proof.
  split; [vm_compute; discriminate|]. split; vm_compute; reflexivity.
Qed.

(** * More of [core/exceptions.c] *)

Section MoreProperties.

Context {processor : Processor} {collaborators : Collaborators}.

Lemma exception_entry_case (m : machine) : run_case m (exception_entry m).
Proof.
  set (st := stack m).
  destruct (Z.eqb_spec (type st) 0x100) as [E1|N1].
  { destruct (run_reset m E1) as (rest & dump & E & Hl & Hd). rewrite E.
    pose proof (case_reset m rest dump E1 Hl Hd) as C. revert C.
    destruct (Z.land (srr1 (stack m)) MSR_RI =? 0); exact (fun C => C). }
  destruct (Z.eqb_spec (type st) 0x200) as [E2|N2].
  { destruct (mce_retried m) eqn:Hr.
    - destruct (run_mce_retry m E2 Hr) as (rest & dump & E & Hl & Hd). rewrite E.
      now apply case_mce_retry.
    - destruct (run_mce_fatal m E2 Hr) as (rest & dump & E & Hl & Hd). rewrite E.
      now apply case_mce_fatal. }
  destruct (is_delegated (type st)) eqn:Hdel.
  { destruct (resolver_handled st) eqn:Hres.
    - rewrite (run_fault_handled m Hdel Hres). now apply case_handled.
    - destruct (run_fault_unhandled m Hdel Hres) as (rest & dump & E & Hl & Hd).
      rewrite E. now apply case_unhandled. }
  pose proof Hdel as Hdel'. unfold is_delegated in Hdel.
  apply orb_false_elim in Hdel. destruct Hdel as (Hdel & N6).
  apply orb_false_elim in Hdel. destruct Hdel as (Hdel & N5).
  apply orb_false_elim in Hdel. destruct Hdel as (N3 & N4).
  apply Z.eqb_neq in N3, N4, N5, N6.
  destruct (run_unknown m N1 N2 N3 N4 N5 N6) as (rest & dump & E & Hl & Hd).
  rewrite E. now apply case_unknown.
Qed.

(** ** Nothing is lost when the text fits *)

Lemma snprintf_first_tight (b : buffer) (t : text) :
  capacity b = EXCEPTION_MAX_STR ->
  Z.of_nat (length t) < EXCEPTION_MAX_STR ->
  exists b' r, snprintf b 0 (wrap64 (EXCEPTION_MAX_STR - 0)) t = Some (b', r) /\
    built b' (wrap64 (0 + r)) t /\ wrap64 (0 + r) = Z.of_nat (length t).
Proof.
  intros Hcap Hlen.
  destruct (snprintf_first b t Hcap Hlen) as (b' & r & E & Hb).
  exists b', r. split; [exact E|]. split; [exact Hb|].
  destruct (snprintf_at b 0 t Hcap) as (b2 & r2 & E2 & Hr & Hw & _).
  { unfold EXCEPTION_MAX_STR; lia. }
  rewrite E in E2. injection E2 as <- <-. rewrite Hw.
  unfold EXCEPTION_MAX_STR in *. lia.
Qed.

Lemma snprintf_append (b : buffer) (l : Z) (pre t : text) :
  built b l pre -> Z.of_nat (length pre) = l ->
  Z.of_nat (length (pre ++ t)) < EXCEPTION_MAX_STR ->
  exists b' r, snprintf b l (wrap64 (EXCEPTION_MAX_STR - l)) t = Some (b', r) /\
    built b' (wrap64 (l + r)) (pre ++ t) /\
    wrap64 (l + r) = Z.of_nat (length (pre ++ t)).
Proof.
  intros (Hcap & Hl & Hn & Hlen & Hpre) Htight Hfit.
  destruct (snprintf_at b l t Hcap Hl)
    as (b' & r & E & Hr & Hw & Hc & Hn' & Hout & Hin).
  exists b', r. split; [exact E|]. rewrite Hw.
  rewrite length_app in Hfit |- *. unfold built, EXCEPTION_MAX_STR in *.
  assert (Hrt : r = Z.of_nat (length t)) by lia.
  split; [|lia].
  split; [lia|]. split; [lia|]. split; [exact Hn'|].
  split; [rewrite length_app; lia|].
  intros i Hi. rewrite length_app in Hi.
  destruct (Nat.lt_ge_cases i (length pre)) as [Hlt|Hge].
  - rewrite app_nth1 by assumption. rewrite Hout by lia. now apply Hpre.
  - rewrite app_nth2 by assumption.
    replace (Z.of_nat i) with (l + Z.of_nat (i - length pre)) by lia.
    apply Hin. lia.
Qed.

Lemma cstring_tight (b : buffer) (l : Z) (pre : text) :
  built b l pre -> Z.of_nat (length pre) = l -> clean pre = true ->
  cstring b = Some pre.
Proof.
  intros Hb Htight Hclean.
  destruct (cstring_built b l pre Hb Hclean) as (rest & E & Hlen).
  rewrite length_app in Hlen.
  assert (length rest = 0%nat) by lia.
  destruct rest; [|discriminate]. now rewrite app_nil_r in E.
Qed.

Lemma snprintf_symbol_append (b : buffer) (l : Z) (pre : text) (addr : Z) :
  built b l pre -> Z.of_nat (length pre) = l ->
  Z.of_nat (length (pre ++ symbol_text addr)) < EXCEPTION_MAX_STR ->
  exists b' r,
    snprintf_symbol b l (wrap64 (EXCEPTION_MAX_STR - l)) addr = Some (b', r) /\
    built b' (wrap64 (l + r)) (pre ++ symbol_text addr) /\
    wrap64 (l + r) = Z.of_nat (length (pre ++ symbol_text addr)).
Proof.
  unfold snprintf_symbol, symbol_text. intros Hb Htight Hfit.
  destruct (get_symbol addr) as [name|].
  - now apply snprintf_append.
  - exists b, 0. rewrite app_nil_r, Z.add_0_r.
    assert (Hw : wrap64 l = l).
    { apply wrap64_small. destruct Hb as (_ & Hl & _).
      unfold EXCEPTION_MAX_STR in Hl.
      change (2 ^ 64) with 18446744073709551616. lia. }
    rewrite Hw. split; [reflexivity|]. split; [exact Hb | now symmetry].
Qed.

Lemma dump_gprs_run (n : nat) (st : stack_frame) :
  forall i m, dump_gprs n i st m = Returns tt (emit (map (gpr_line st) (upfrom n i)) m).
Proof.
  induction n as [|n IH]; intros i m; cbn [dump_gprs upfrom map].
  - unfold ret. now rewrite emit_nil.
  - unfold bind, prerror. rewrite IH, emit_emit. reflexivity.
Qed.

Lemma dump_regs_exact (m : machine) :
  dump_regs m =
    Returns tt (emit (register_header (stack m)
                      ++ map (gpr_line (stack m)) (upfrom 16 0)) m).
Proof.
  unfold dump_regs, bind, get_stack, prerror.
  rewrite dump_gprs_run, !emit_emit. reflexivity.
Qed.

Lemma first_line_tight (b : buffer) (pre : text) (fatal : bool) (m : machine) :
  capacity b = EXCEPTION_MAX_STR ->
  Z.of_nat (length pre) < EXCEPTION_MAX_STR ->
  exists b' l,
    ('(buf, r) <- checked (snprintf b 0 (wrap64 (EXCEPTION_MAX_STR - 0)) pre) ;;
     ret (Break fatal buf (wrap64 (0 + r)))) m = Returns (Break fatal b' l) m /\
    built b' l pre /\ l = Z.of_nat (length pre).
Proof.
  intros Hcap Hlen.
  destruct (snprintf_first_tight b pre Hcap Hlen) as (b' & r & E & Hb & Hl).
  exists b', (wrap64 (0 + r)). split; [|split; assumption].
  unfold bind, checked, ret. now rewrite E.
Qed.

(** Lines 169-175 when the whole summary fits: the line is the text
    begun, the symbol and the mode word, with nothing dropped. *)
Lemma exception_report_exact (fatal : bool) (buf : buffer) (l : Z) (pre : text)
    (nip msr : Z) (m : machine) :
  built buf l pre -> l = Z.of_nat (length pre) ->
  clean pre = true -> clean (symbol_text nip) = true ->
  Z.of_nat (length (pre ++ symbol_text nip)) + 22 < EXCEPTION_MAX_STR ->
  exception_report fatal buf l nip msr m =
    Returns tt
      (emit (Prerror ((pre ++ symbol_text nip ++ lit "  MSR " ++ REG msr)
                      ++ [newline])
             :: register_dump (stack m)
             ++ (if fatal then [] else [Backtrace])) m).
Proof.
  intros Hb Hl Hclean Hsym Hfit. symmetry in Hl.
  assert (Hmsr : length (lit "  MSR " ++ REG msr) = 22%nat)
    by (rewrite length_app, REG_length; reflexivity).
  destruct (snprintf_symbol_append buf l pre nip Hb Hl) as (b1 & r1 & E1 & Hb1 & Hl1).
  { lia. }
  destruct (snprintf_append b1 _ _ (lit "  MSR " ++ REG msr) Hb1 (eq_sym Hl1))
    as (b2 & r2 & E2 & Hb2 & Hl2).
  { rewrite length_app, Hmsr. lia. }
  rewrite <- app_assoc in Hb2, Hl2.
  assert (Es : cstring b2 = Some (pre ++ symbol_text nip ++ lit "  MSR " ++ REG msr)).
  { apply (cstring_tight b2 _ _ Hb2 (eq_sym Hl2)).
    now rewrite !clean_app, Hclean, Hsym, REG_clean. }
  unfold exception_report, prerror_buf, bind, checked.
  rewrite E1. cbv beta iota zeta. rewrite E2. cbv beta iota. rewrite Es.
  unfold prerror at 1. rewrite dump_regs_exact. cbn [emit stack].
  fold (register_dump (stack m)).
  destruct fatal; cbn [negb].
  - unfold ret. now rewrite emit_emit, app_nil_r.
  - unfold backtrace. now rewrite !emit_emit.
Qed.

Lemma entry_after_switch (m ms : machine) (fatal : bool) (b : buffer) (l : Z) :
  exception_switch (stack m) (mk_buffer EXCEPTION_MAX_STR (uninit m))
    (Z.land (msr_of (stack m)) MSR_RI =? 0) (nip_of (stack m)) (msr_of (stack m)) m
    = Returns (Break fatal b l) ms ->
  exception_entry m =
    (exception_report fatal b l (nip_of (stack m)) (msr_of (stack m)) ;;
     exception_out fatal (is_hv (type (stack m))) (nip_of (stack m))
       (msr_of (stack m))) ms.
Proof.
  intro H. unfold exception_entry. unfold bind at 1 2. unfold get_stack, alloc_buf.
  rewrite classify_eq. cbv iota beta zeta. unfold bind at 1. now rewrite H.
Qed.

Lemma summary_head_ok (m : machine) :
  Z.of_nat (length (summary_head m)) < EXCEPTION_MAX_STR /\
  clean (summary_head m) = true.
Proof.
  unfold summary_head.
  destruct (type (stack m) =? 256).
  { unfold reset_summary.
    destruct (Z.land (srr1 (stack m)) MSR_RI =? 0);
      (split; [rewrite !length_app, REG_length; reflexivity
              | now rewrite !clean_app, REG_clean]). }
  destruct (type (stack m) =? 512).
  { unfold mce_summary.
    split; [rewrite !length_app, REG_length; reflexivity
           | now rewrite !clean_app, REG_clean]. }
  destruct (is_delegated (type (stack m)));
    [apply fault_summary_ok | apply unknown_summary_ok].
Qed.

Lemma verdict_false_not_hv (m : machine) :
  fatal_verdict m = false -> is_hv (type (stack m)) = false.
Proof.
  unfold fatal_verdict.
  destruct (Z.eqb_spec (type (stack m)) 0x100) as [E|_]; [now rewrite E|].
  destruct (Z.eqb_spec (type (stack m)) 0x200) as [E|_]; [now rewrite E|].
  destruct (is_delegated (type (stack m))) eqn:Hd; [|discriminate].
  intros _. now apply is_delegated_not_hv.
Qed.

(** The second [switch] on a run that prints a summary: it leaves by
    [break] with the verdict, the banner printed where the case has
    one, and the summary begun with the text of the case. *)
Lemma exception_switch_breaks (m : machine) :
  prints_summary m = true ->
  exists b l,
    exception_switch (stack m) (mk_buffer EXCEPTION_MAX_STR (uninit m))
      (Z.land (msr_of (stack m)) MSR_RI =? 0) (nip_of (stack m)) (msr_of (stack m)) m
      = Returns (Break (fatal_verdict m) b l)
          (emit (if has_banner m then [Prerror banner] else []) m) /\
    built b l (summary_head m) /\ l = Z.of_nat (length (summary_head m)).
Proof.
  intro Hp. destruct (summary_head_ok m) as (Hlen & _).
  unfold prints_summary in Hp. apply andb_prop in Hp. destruct Hp as (Hp1 & Hp2).
  apply negb_true_iff in Hp1, Hp2.
  unfold exception_switch, fatal_verdict, has_banner, summary_head in *.
  destruct (Z.eqb_spec (type (stack m)) 0x100) as [E1|N1].
  { assert (Hsv : is_hv (type (stack m)) = false) by now rewrite E1.
    rewrite (msr_of_sv _ Hsv), (nip_of_sv _ Hsv). cbn [orb].
    destruct (first_line_tight (mk_buffer EXCEPTION_MAX_STR (uninit m)) _
                (Z.land (srr1 (stack m)) MSR_RI =? 0)
                (emit [Prerror banner] m) eq_refl Hlen)
      as (b & l & E & Hb & Hl).
    exists b, l. split; [|split; assumption].
    unfold bind at 1. unfold prerror at 1. exact E. }
  destruct (Z.eqb_spec (type (stack m)) 0x200) as [E2|N2].
  { assert (Hsv : is_hv (type (stack m)) = false) by now rewrite E2.
    rewrite (msr_of_sv _ Hsv), (nip_of_sv _ Hsv). cbn [orb andb] in *.
    rewrite Hp1. cbn [negb].
    destruct (first_line_tight (mk_buffer EXCEPTION_MAX_STR (uninit m)) _
                true (emit [Prerror banner] m) eq_refl Hlen)
      as (b & l & E & Hb & Hl).
    exists b, l. split; [|split; assumption].
    unfold bind at 1. unfold get_cpu at 1.
    replace (negb (if vm_local_map_inuse (this_cpu m) then true
                   else Z.land (srr1 (stack m)) MSR_RI =? 0)
             && negb (Z.land (srr1 (stack m)) (Z.lor MSR_IR MSR_DR) =? 0))
      with false.
    2: { unfold mce_retried in Hp1. rewrite <- Hp1.
         now destruct (vm_local_map_inuse (this_cpu m)). }
    unfold bind at 1. unfold prerror at 1. exact E. }
  cbn [orb andb] in *.
  destruct (is_delegated (type (stack m))) eqn:Hdel.
  { cbn [andb negb] in *.
    assert (Hsv : is_hv (type (stack m)) = false) by now apply is_delegated_not_hv.
    rewrite (msr_of_sv _ Hsv), (nip_of_sv _ Hsv).
    rewrite Hp2, orb_true_r. rewrite emit_nil.
    destruct (first_line_tight (mk_buffer EXCEPTION_MAX_STR (uninit m)) _
                true m eq_refl Hlen)
      as (b & l & E & Hb & Hl).
    exists b, l. split; [|split; assumption].
    unfold resolver_handled in Hp2. unfold fault_summary in E.
    destruct (is_delegated_cases _ Hdel) as [T|[T|[T|T]]];
      rewrite T in *; cbn [Z.eqb Pos.eqb] in Hp2, E |- *; rewrite Hp2; exact E. }
  cbn [negb].
  destruct (first_line_tight (mk_buffer EXCEPTION_MAX_STR (uninit m)) _
              true (emit [Prerror banner] m) eq_refl Hlen)
    as (b & l & E & Hb & Hl).
  exists b, l. split; [|split; assumption].
  unfold is_delegated in Hdel.
  apply orb_false_elim in Hdel. destruct Hdel as (Hdel & N6).
  apply orb_false_elim in Hdel. destruct Hdel as (Hdel & N5).
  apply orb_false_elim in Hdel. destruct Hdel as (N3 & N4).
  rewrite N3, N4, N5, N6. cbv zeta.
  unfold bind at 1. unfold prerror at 1. exact E.
Qed.

(** A run that prints a summary whose text fits, in full. *)
Lemma exception_entry_diagnosed (m : machine) :
  prints_summary m = true ->
  clean (symbol_text (nip_of (stack m))) = true ->
  Z.of_nat (length (summary_head m ++ symbol_text (nip_of (stack m)))) + 22
    < EXCEPTION_MAX_STR ->
  exception_entry m =
    (if fatal_verdict m
     then Aborts
            (emit ((if has_banner m then [Prerror banner] else [])
                   ++ Prerror ((summary_head m ++ symbol_text (nip_of (stack m))
                                ++ lit "  MSR " ++ REG (msr_of (stack m)))
                               ++ [newline])
                   :: register_dump (stack m)) m)
     else Returns tt
            (emit ((if has_banner m then [Prerror banner] else [])
                   ++ Prerror ((summary_head m ++ symbol_text (nip_of (stack m))
                                ++ lit "  MSR " ++ REG (msr_of (stack m)))
                               ++ [newline])
                   :: register_dump (stack m) ++ [Backtrace]) m)).
Proof.
  intros Hp Hsym Hfit.
  destruct (summary_head_ok m) as (_ & Hclean).
  destruct (exception_switch_breaks m Hp) as (b & l & E & Hb & Hl).
  rewrite (entry_after_switch m _ _ _ _ E). unfold bind at 1.
  rewrite (exception_report_exact _ b l (summary_head m) _ _ _ Hb Hl Hclean Hsym Hfit).
  cbn [emit stack]. rewrite emit_emit.
  destruct (fatal_verdict m) eqn:Hv.
  - unfold exception_out, bind, abort. now rewrite app_nil_r.
  - rewrite (verdict_false_not_hv m Hv). reflexivity.
Qed.

(** ** A summary that does not fit *)

Lemma summary_room_eq : Z.of_nat summary_room = EXCEPTION_MAX_STR - 1.
Proof. reflexivity. Qed.

Lemma firstn_firstn_app {A} (n : nat) (x y : list A) :
  firstn n (firstn n x ++ y) = firstn n (x ++ y).
Proof.
  revert x. induction n as [|n IH]; intros x; [reflexivity|].
  destruct x as [|a x]; [reflexivity|].
  cbn [firstn app]. now rewrite IH.
Qed.

Lemma upto_nul_clean (t : text) : clean t = true -> upto_nul t = t.
Proof.
  induction t as [|c t IH]; [reflexivity|].
  cbn [clean forallb upto_nul]. intro H. apply andb_prop in H.
  destruct H as (Hc & Ht). apply negb_true_iff in Hc. rewrite Hc.
  f_equal. now apply IH.
Qed.

Lemma upto_nul_app (a x : text) :
  clean a = true -> upto_nul (a ++ x) = a ++ upto_nul x.
Proof.
  induction a as [|c a IH]; [reflexivity|].
  cbn [clean forallb upto_nul app]. intro H. apply andb_prop in H.
  destruct H as (Hc & Ha). apply negb_true_iff in Hc. rewrite Hc.
  f_equal. now apply IH.
Qed.

(** The formatter at the end of a summary that fills the buffer so
    far: the buffer then holds the summary with the new text, cut to
    the room there is. *)
Lemma snprintf_append_cut (b : buffer) (l : Z) (pre t : text) :
  built b l pre -> Z.of_nat (length pre) = l ->
  exists b' r, snprintf b l (wrap64 (EXCEPTION_MAX_STR - l)) t = Some (b', r) /\
    built b' (wrap64 (l + r)) (firstn summary_room (pre ++ t)) /\
    wrap64 (l + r) = Z.of_nat (length (firstn summary_room (pre ++ t))).
Proof.
  intros (Hcap & Hl & Hn & Hlen & Hpre) Htight.
  destruct (snprintf_at b l t Hcap Hl)
    as (b' & r & E & Hr & Hw & Hc & Hn' & Hout & Hin).
  exists b', r. split; [exact E|]. rewrite Hw.
  pose proof summary_room_eq as Hroom. revert Hroom.
  generalize summary_room. intros n Hroom.
  assert (Hcut : Z.of_nat (length (firstn n (pre ++ t))) = l + r).
  { rewrite length_firstn, length_app. unfold EXCEPTION_MAX_STR in *. lia. }
  split; [|lia]. unfold built.
  split; [exact Hc|]. split; [unfold EXCEPTION_MAX_STR in *; lia|].
  split; [exact Hn'|]. split; [lia|].
  intros i Hi. rewrite nth_firstn.
  assert (Hin' : (i < n)%nat).
  { rewrite length_firstn in Hi. lia. }
  destruct (Nat.ltb_spec i n); [|lia].
  destruct (Nat.lt_ge_cases i (length pre)) as [Hlt|Hge].
  - rewrite app_nth1 by assumption. rewrite Hout by lia. now apply Hpre.
  - rewrite app_nth2 by assumption.
    replace (Z.of_nat i) with (l + Z.of_nat (i - length pre)) by lia.
    apply Hin. lia.
Qed.

Lemma snprintf_symbol_append_cut (b : buffer) (l : Z) (pre : text) (addr : Z) :
  built b l pre -> Z.of_nat (length pre) = l ->
  exists b' r,
    snprintf_symbol b l (wrap64 (EXCEPTION_MAX_STR - l)) addr = Some (b', r) /\
    built b' (wrap64 (l + r)) (firstn summary_room (pre ++ symbol_text addr)) /\
    wrap64 (l + r)
      = Z.of_nat (length (firstn summary_room (pre ++ symbol_text addr))).
Proof.
  unfold snprintf_symbol, symbol_text. intros Hb Htight.
  destruct (get_symbol addr) as [name|].
  - now apply snprintf_append_cut.
  - exists b, 0. rewrite app_nil_r, Z.add_0_r.
    assert (Hfit : (length pre <= summary_room)%nat).
    { destruct Hb as (_ & Hl & _). pose proof summary_room_eq.
      unfold EXCEPTION_MAX_STR in *. lia. }
    rewrite firstn_all2 by exact Hfit.
    assert (Hw : wrap64 l = l).
    { apply wrap64_small. destruct Hb as (_ & Hl & _).
      unfold EXCEPTION_MAX_STR in Hl.
      change (2 ^ 64) with 18446744073709551616. lia. }
    rewrite Hw. split; [reflexivity|]. split; [exact Hb | now symmetry].
Qed.

Lemma scan_text (b : buffer) (t : text) :
  forall fuel i,
    (forall k, (k < length t)%nat -> cell b (i + Z.of_nat k) = nth k t NUL) ->
    cell b (i + Z.of_nat (length t)) = NUL ->
    (length t < fuel)%nat ->
    scan fuel b i = Some (upto_nul t).
Proof.
  induction t as [|c t IH]; intros fuel i Hin Hend Hf;
    (destruct fuel as [|fuel]; [inversion Hf|]); cbn [scan upto_nul].
  - cbn [length] in Hend. rewrite Z.add_0_r in Hend. rewrite Hend. reflexivity.
  - assert (Hc : cell b i = c).
    { specialize (Hin 0%nat). cbn [length nth] in Hin.
      rewrite Z.add_0_r in Hin. apply Hin. lia. }
    rewrite Hc. destruct (is_nul c); [reflexivity|].
    rewrite (IH fuel (i + 1)).
    + reflexivity.
    + intros k Hk. specialize (Hin (S k)). cbn [length nth] in Hin.
      replace (i + 1 + Z.of_nat k) with (i + Z.of_nat (S k)) by lia.
      apply Hin. lia.
    + cbn [length] in Hend.
      replace (i + 1 + Z.of_nat (length t)) with (i + Z.of_nat (S (length t))) by lia.
      exact Hend.
    + cbn [length] in Hf. lia.
Qed.

(** Reading back a summary that fills the buffer up to its terminator. *)
Lemma cstring_upto (b : buffer) (l : Z) (t : text) :
  built b l t -> Z.of_nat (length t) = l -> cstring b = Some (upto_nul t).
Proof.
  intros (Hcap & Hl & Hn & _ & Hpre) Htight. unfold cstring.
  apply scan_text.
  - intros k Hk. rewrite Z.add_0_l. now apply Hpre.
  - rewrite Z.add_0_l, Htight. exact Hn.
  - rewrite Hcap. unfold EXCEPTION_MAX_STR in *. lia.
Qed.

(** Lines 169-175, whatever the length of the symbol: the line is the
    text begun, the symbol and the mode word, cut to the room of the
    buffer and read up to its first terminator. *)
Lemma exception_report_cut (fatal : bool) (buf : buffer) (l : Z) (pre : text)
    (nip msr : Z) (m : machine) :
  built buf l pre -> l = Z.of_nat (length pre) ->
  exception_report fatal buf l nip msr m =
    Returns tt
      (emit (Prerror (upto_nul (firstn summary_room
                                  (pre ++ symbol_text nip
                                   ++ lit "  MSR " ++ REG msr))
                      ++ [newline])
             :: register_dump (stack m)
             ++ (if fatal then [] else [Backtrace])) m).
Proof.
  intros Hb Hl. symmetry in Hl.
  destruct (snprintf_symbol_append_cut buf l pre nip Hb Hl)
    as (b1 & r1 & E1 & Hb1 & Hl1).
  destruct (snprintf_append_cut b1 _ _ (lit "  MSR " ++ REG msr) Hb1 (eq_sym Hl1))
    as (b2 & r2 & E2 & Hb2 & Hl2).
  rewrite firstn_firstn_app, <- app_assoc in Hb2, Hl2.
  pose proof (cstring_upto b2 _ _ Hb2 (eq_sym Hl2)) as Es.
  unfold exception_report, prerror_buf, bind, checked.
  rewrite E1. cbv beta iota zeta. rewrite E2. cbv beta iota. rewrite Es.
  unfold prerror at 1. rewrite dump_regs_exact. cbn [emit stack].
  fold (register_dump (stack m)).
  destruct fatal; cbn [negb].
  - unfold ret. now rewrite emit_emit, app_nil_r.
  - unfold backtrace. now rewrite !emit_emit.
Qed.

(** ** Further properties of the dispatcher *)

Lemma final_of {A} (r : result A) (a : A) (m' m0 : machine) :
  r = Returns a m' \/ r = Aborts m' -> m' = final r m0.
Proof. intros [->| ->]; reflexivity. Qed.

Lemma register_lines_no_backtrace (dump : list event) :
  forallb is_register_line dump = true -> ~ In Backtrace dump.
Proof.
  intros H Hin. rewrite forallb_forall in H. specialize (H _ Hin). discriminate H.
Qed.

Lemma vm_off_clears (a k : Z) : Z.land (wrap64 (Z.land a (Z.lnot k))) k = 0.
Proof.
  apply Z.bits_inj'. intros i Hi. rewrite Z.land_spec, Z.bits_0. unfold wrap64.
  destruct (Z.lt_ge_cases i 64) as [Hlo|Hhi].
  - rewrite Z.mod_pow2_bits_low by lia.
    rewrite Z.land_spec, Z.lnot_spec by lia.
    now destruct (Z.testbit a i), (Z.testbit k i).
  - now rewrite Z.mod_pow2_bits_high by lia.
Qed.


(** [exception_entry_pm_sreset] always returns: it prints the row of
    stars and ["System Reset in sleep"], takes a backtrace, and leaves
    the frame and the CPU flags alone, whatever the stack held where
    its buffer lies. *)
Theorem pm_sreset_returns (m : machine) :
  exception_entry_pm_sreset m =
    Returns tt (emit [Prerror banner;
                      Prerror (lit "System Reset in sleep" ++ [newline]);
                      Backtrace] m).
Proof.
  destruct (snprintf_first_tight (mk_buffer EXCEPTION_MAX_STR (uninit m))
              (lit "System Reset in sleep") eq_refl eq_refl)
    as (b & r & E & Hb & Hl).
  assert (Es : cstring b = Some (lit "System Reset in sleep"))
    by (apply (cstring_tight b _ _ Hb (eq_sym Hl)); reflexivity).
  unfold exception_entry_pm_sreset, prerror_buf, bind, checked, alloc_buf.
  unfold prerror at 1. cbn [emit uninit]. rewrite E. cbv beta iota. rewrite Es.
  unfold prerror, backtrace. now rewrite !emit_emit.
Qed.

(** [exception_entry_pm_mce] never returns: after the row of stars,
    ["Fatal MCE in sleep"] and the four registers read with [mfspr], it
    calls [abort()]. *)
Theorem pm_mce_aborts (SPR_SRR0 SPR_SRR1 SPR_DSISR SPR_DAR : Z) (mfspr : Z -> Z)
    (m : machine) :
  exception_entry_pm_mce SPR_SRR0 SPR_SRR1 SPR_DSISR SPR_DAR mfspr m =
    Aborts (emit [Prerror banner;
                  Prerror (lit "Fatal MCE in sleep" ++ [newline]);
                  Prerror (lit "SRR0 : " ++ REG (mfspr SPR_SRR0) ++ lit " SRR1 : "
                           ++ REG (mfspr SPR_SRR1) ++ [newline]);
                  Prerror (lit "DSISR: " ++ REG32 (mfspr SPR_DSISR)
                           ++ lit "         DAR  : " ++ REG (mfspr SPR_DAR)
                           ++ [newline])] m).
Proof.
  destruct (snprintf_first_tight (mk_buffer EXCEPTION_MAX_STR (uninit m))
              (lit "Fatal MCE in sleep") eq_refl eq_refl)
    as (b & r & E & Hb & Hl).
  assert (Es : cstring b = Some (lit "Fatal MCE in sleep"))
    by (apply (cstring_tight b _ _ Hb (eq_sym Hl)); reflexivity).
  unfold exception_entry_pm_mce, prerror_buf, bind, checked, alloc_buf.
  unfold prerror at 1. cbn [emit uninit]. rewrite E. cbv beta iota. rewrite Es.
  unfold prerror, abort. now rewrite !emit_emit.
Qed.

(** Every run of [exception_entry] ends one of two ways, and which one
    is read off the inputs: [abort()] when [MSR_RI] is clear, when a
    machine check is not retried, when a delegated fault is not
    handled, and for every other vector but system reset; a return
    otherwise. *)
Theorem exception_entry_verdict (m : machine) :
  exists m',
    exception_entry m = (if fatal_verdict m then Aborts m' else Returns tt m').
Proof.
  pose proof (exception_entry_case m) as C. unfold fatal_verdict.
  destruct C as [rest dump Hty _ _ | rest dump Hty Hr _ | rest dump Hty Hr _
                 | Hdel Hres | rest dump Hdel Hres _ | rest dump N1 N2 Hdel _].
  - rewrite Hty. cbn [Z.eqb Pos.eqb].
    destruct (Z.land (srr1 (stack m)) MSR_RI =? 0); eexists; reflexivity.
  - rewrite Hty, Hr. eexists. reflexivity.
  - rewrite Hty, Hr. eexists. reflexivity.
  - destruct (is_delegated_cases _ Hdel) as [T|[T|[T|T]]];
      rewrite Hres, T; cbn [Z.eqb Pos.eqb is_delegated orb negb];
      destruct (Z.land (srr1 (stack m)) MSR_RI =? 0); eexists; reflexivity.
  - destruct (is_delegated_cases _ Hdel) as [T|[T|[T|T]]];
      rewrite Hres, T; cbn [Z.eqb Pos.eqb is_delegated orb negb];
      rewrite orb_true_r; eexists; reflexivity.
  - apply Z.eqb_neq in N1, N2. rewrite N1, N2, Hdel. eexists. reflexivity.
Qed.

(** [backtrace()] is called on one path only: a system reset with
    [MSR_RI] set.  The machine-check retry and a handled fault return
    without it, and no fatal run takes one. *)
Theorem backtrace_only_after_reset (m m' : machine) :
  exception_entry m = Returns tt m' \/ exception_entry m = Aborts m' ->
  exists es, trace m' = trace m ++ es /\
    (In Backtrace es <->
     type (stack m) = 0x100 /\ Z.land (srr1 (stack m)) MSR_RI <> 0).
Proof.
  intro H. apply (final_of _ _ _ m) in H. subst m'.
  pose proof (exception_entry_case m) as C.
  destruct C as [rest dump Hty _ Hd | rest dump Hty Hr Hd | rest dump Hty Hr Hd
                 | Hdel Hres | rest dump Hdel Hres Hd | rest dump N1 N2 Hdel Hd];
    try apply register_lines_no_backtrace in Hd.
  - destruct (Z.eqb_spec (Z.land (srr1 (stack m)) MSR_RI) 0) as [Hri|Hri];
      cbn [final emit trace]; eexists; (split; [reflexivity|]); split.
    + intros [Hb|[Hb|Hb]]; [discriminate Hb | discriminate Hb | contradiction].
    + intros (_ & Hn). contradiction.
    + intros _. split; assumption.
    + intros _. right. right. apply in_or_app. right. now left.
  - cbn [final trace]. eexists. split; [reflexivity|]. split.
    + intros [Hb|Hb]; [discriminate Hb|]. apply in_app_or in Hb.
      destruct Hb as [Hb|[Hb|[Hb|[Hb|[]]]]]; try discriminate Hb. contradiction.
    + intros (Hty' & _). rewrite Hty in Hty'. discriminate Hty'.
  - cbn [final emit trace]. eexists. split; [reflexivity|]. split.
    + intros [Hb|[Hb|Hb]]; [discriminate Hb | discriminate Hb | contradiction].
    + intros (Hty' & _). rewrite Hty in Hty'. discriminate Hty'.
  - exists []. split.
    + destruct (Z.land (srr1 (stack m)) MSR_RI =? 0); cbn [final];
        now rewrite app_nil_r.
    + split; [intros []|]. intros (Hty' & _).
      rewrite Hty' in Hdel. discriminate Hdel.
  - cbn [final emit trace]. eexists. split; [reflexivity|]. split.
    + intros [Hb|Hb]; [discriminate Hb | contradiction].
    + intros (Hty' & _). rewrite Hty' in Hdel. discriminate Hdel.
  - cbn [final emit trace]. eexists. split; [reflexivity|]. split.
    + intros [Hb|[Hb|Hb]]; [discriminate Hb | discriminate Hb | contradiction].
    + intros (Hty' & _). contradiction.
Qed.

(** The frame and the CPU flags are written on the machine-check retry
    only: every other run, fatal or not, ends with both as it found
    them.  The retry changes [srr1] and [vm_setup] and nothing else. *)
Theorem only_the_retry_writes (m m' : machine) :
  exception_entry m = Returns tt m' \/ exception_entry m = Aborts m' ->
  (stack m' = stack m /\ this_cpu m' = this_cpu m) \/
  (type (stack m) = 0x200 /\ mce_retried m = true /\
   exception_entry m = Returns tt m' /\
   stack m' = set_srr1 (srr1_vm_off (stack m)) (stack m) /\
   this_cpu m' = mk_cpu (vm_local_map_inuse (this_cpu m)) false).
Proof.
  intro H. pose proof (final_of _ _ _ m H) as Hm.
  pose proof (exception_entry_case m) as C. revert H Hm.
  destruct C as [rest dump Hty _ Hd | rest dump Hty Hr Hd | rest dump Hty Hr Hd
                 | Hdel Hres | rest dump Hdel Hres Hd | rest dump N1 N2 Hdel Hd];
    intros H ->.
  - destruct (Z.land (srr1 (stack m)) MSR_RI =? 0); cbn [final]; auto.
  - right. cbn [final stack this_cpu]. auto.
  - cbn [final]; auto.
  - destruct (Z.land (srr1 (stack m)) MSR_RI =? 0); cbn [final]; auto.
  - cbn [final]; auto.
  - cbn [final]; auto.
Qed.

(** When the run prints a summary and the text fits the buffer, the
    whole output is determined: the row of stars where the case has
    one, then one line made of the text of the case, the symbol and
    the mode word with nothing dropped, then the 22 register lines,
    then the backtrace if the run returns. *)
Theorem report_is_complete (m : machine) :
  prints_summary m = true ->
  clean (symbol_text (nip_of (stack m))) = true ->
  Z.of_nat (length (summary_head m ++ symbol_text (nip_of (stack m)))) + 22
    < EXCEPTION_MAX_STR ->
  exception_entry m =
    (if fatal_verdict m
     then Aborts
            (emit ((if has_banner m then [Prerror banner] else [])
                   ++ Prerror ((summary_head m ++ symbol_text (nip_of (stack m))
                                ++ lit "  MSR " ++ REG (msr_of (stack m)))
                               ++ [newline])
                   :: register_dump (stack m)) m)
     else Returns tt
            (emit ((if has_banner m then [Prerror banner] else [])
                   ++ Prerror ((summary_head m ++ symbol_text (nip_of (stack m))
                                ++ lit "  MSR " ++ REG (msr_of (stack m)))
                               ++ [newline])
                   :: register_dump (stack m) ++ [Backtrace]) m)).
Proof. exact (exception_entry_diagnosed m). Qed.

(** A system reset ([0x100]) with [MSR_RI] set in SRR1 returns without
    touching the frame: it prints the row of stars, a line that starts
    ["System Reset at"] with SRR0, the symbol and SRR1, the registers,
    and takes a backtrace. *)
Theorem reset_is_informational (m : machine) :
  type (stack m) = 0x100 ->
  Z.land (srr1 (stack m)) MSR_RI <> 0 ->
  clean (symbol_text (srr0 (stack m))) = true ->
  Z.of_nat (length (symbol_text (srr0 (stack m)))) < 263 ->
  exception_entry m =
    Returns tt
      (emit (Prerror banner
             :: Prerror ((lit "System Reset at " ++ REG (srr0 (stack m)) ++ lit "   "
                          ++ symbol_text (srr0 (stack m))
                          ++ lit "  MSR " ++ REG (srr1 (stack m))) ++ [newline])
             :: register_dump (stack m) ++ [Backtrace]) m).
Proof.
  intros Hty Hri Hsym Hlen.
  assert (Hsv : is_hv (type (stack m)) = false) by now rewrite Hty.
  apply Z.eqb_neq in Hri.
  assert (Hhead : summary_head m = lit "System Reset at " ++ REG (srr0 (stack m))
                                   ++ lit "   ").
  { unfold summary_head, reset_summary. now rewrite Hty, Hri. }
  rewrite (exception_entry_diagnosed m).
  - unfold fatal_verdict, has_banner. rewrite Hty, Hri. cbn [Z.eqb Pos.eqb orb app].
    rewrite Hhead, (nip_of_sv _ Hsv), (msr_of_sv _ Hsv).
    now rewrite <- !app_assoc.
  - unfold prints_summary. now rewrite Hty.
  - now rewrite (nip_of_sv _ Hsv).
  - rewrite (nip_of_sv _ Hsv), Hhead, !length_app, REG_length.
    change (length (lit "System Reset at ")) with 16%nat.
    change (length (lit "   ")) with 3%nat.
    unfold EXCEPTION_MAX_STR. lia.
Qed.

(** A data storage fault ([0x300]) that [vm_dsi] does not handle is
    fatal.  The resolver is given the fault address and whether
    [DSISR_ISSTORE] is set.  Whatever the symbol, the run aborts after
    one line, printed without a row of stars, and the register dump;
    the line is the text ["Fatal store address <DAR> at <SRR0>   "]
    (["load"] when the bit is clear), the symbol and the mode word, cut
    to the room of the buffer and read up to its first terminator, so
    it always starts with the text that names the direction.  A symbol
    without terminator and shorter than 239 characters is printed in
    full, with the mode word after it. *)
Theorem unhandled_data_fault_names_direction (m : machine) :
  type (stack m) = 0x300 ->
  vm_dsi (srr0 (stack m)) (dar (stack m))
         (negb (Z.land (dsisr (stack m)) DSISR_ISSTORE =? 0)) = false ->
  exception_entry m =
    Aborts
      (emit (Prerror (upto_nul
                        (firstn summary_room
                           ((lit "Fatal "
                             ++ (if Z.land (dsisr (stack m)) DSISR_ISSTORE =? 0
                                 then lit "load" else lit "store")
                             ++ lit " address " ++ REG (dar (stack m)) ++ lit " at "
                             ++ REG (srr0 (stack m)) ++ lit "   ")
                            ++ symbol_text (srr0 (stack m))
                            ++ lit "  MSR " ++ REG (srr1 (stack m))))
                      ++ [newline])
             :: register_dump (stack m)) m) /\
  (exists rest,
     upto_nul
       (firstn summary_room
          ((lit "Fatal "
            ++ (if Z.land (dsisr (stack m)) DSISR_ISSTORE =? 0
                then lit "load" else lit "store")
            ++ lit " address " ++ REG (dar (stack m)) ++ lit " at "
            ++ REG (srr0 (stack m)) ++ lit "   ")
           ++ symbol_text (srr0 (stack m))
           ++ lit "  MSR " ++ REG (srr1 (stack m))))
     = (lit "Fatal "
        ++ (if Z.land (dsisr (stack m)) DSISR_ISSTORE =? 0
            then lit "load" else lit "store")
        ++ lit " address " ++ REG (dar (stack m)) ++ lit " at "
        ++ REG (srr0 (stack m)) ++ lit "   ") ++ rest) /\
  (clean (symbol_text (srr0 (stack m))) = true ->
   Z.of_nat (length (symbol_text (srr0 (stack m)))) < 239 ->
   exception_entry m =
     Aborts
       (emit (Prerror ((lit "Fatal "
                        ++ (if Z.land (dsisr (stack m)) DSISR_ISSTORE =? 0
                            then lit "load" else lit "store")
                        ++ lit " address " ++ REG (dar (stack m)) ++ lit " at "
                        ++ REG (srr0 (stack m)) ++ lit "   "
                        ++ symbol_text (srr0 (stack m))
                        ++ lit "  MSR " ++ REG (srr1 (stack m))) ++ [newline])
              :: register_dump (stack m)) m)).
Proof.
  intros Hty Hres.
  assert (Hsv : is_hv (type (stack m)) = false) by now rewrite Hty.
  assert (Hhead : summary_head m =
            lit "Fatal "
            ++ (if Z.land (dsisr (stack m)) DSISR_ISSTORE =? 0
                then lit "load" else lit "store")
            ++ lit " address " ++ REG (dar (stack m)) ++ lit " at "
            ++ REG (srr0 (stack m)) ++ lit "   ").
  { unfold summary_head, fault_summary. now rewrite Hty. }
  assert (Hrh : resolver_handled (stack m) = false).
  { unfold resolver_handled. now rewrite Hty. }
  assert (Hp : prints_summary m = true).
  { unfold prints_summary. now rewrite Hty, Hrh. }
  assert (Hv : fatal_verdict m = true).
  { unfold fatal_verdict. rewrite Hty, Hrh.
    cbn [Z.eqb Pos.eqb is_delegated orb negb]. now rewrite orb_true_r. }
  assert (Hban : has_banner m = false).
  { unfold has_banner. now rewrite Hty. }
  destruct (summary_head_ok m) as (Hlen & Hclean).
  rewrite <- Hhead. split; [|split].
  - destruct (exception_switch_breaks m Hp) as (b & l & E & Hb & Hl).
    rewrite (entry_after_switch m _ _ _ _ E). unfold bind at 1.
    rewrite (exception_report_cut _ b l (summary_head m) _ _ _ Hb Hl).
    rewrite Hv, Hban, emit_nil, (nip_of_sv _ Hsv), (msr_of_sv _ Hsv).
    unfold exception_out, bind, abort. now rewrite app_nil_r.
  - rewrite firstn_app.
    rewrite firstn_all2
      by (pose proof summary_room_eq; unfold EXCEPTION_MAX_STR in *; lia).
    rewrite upto_nul_app by exact Hclean. eexists. reflexivity.
  - intros Hsym Hfit.
    rewrite (exception_entry_diagnosed m).
    + rewrite Hv, Hban. cbn [app].
      rewrite (nip_of_sv _ Hsv), (msr_of_sv _ Hsv).
      rewrite Hhead. now rewrite <- !app_assoc.
    + exact Hp.
    + now rewrite (nip_of_sv _ Hsv).
    + rewrite (nip_of_sv _ Hsv), Hhead, !length_app, !REG_length.
      change (length (lit "Fatal ")) with 6%nat.
      change (length (lit " address ")) with 9%nat.
      change (length (lit " at ")) with 4%nat.
      change (length (lit "   ")) with 3%nat.
      assert (Z.of_nat (length (if Z.land (dsisr (stack m)) DSISR_ISSTORE =? 0
                                then lit "load" else lit "store")) <= 5)
        by (destruct (Z.land (dsisr (stack m)) DSISR_ISSTORE =? 0); cbn; lia).
      unfold EXCEPTION_MAX_STR. lia.
Qed.

Lemma Returns_inj {A} (a b : A) (m1 m2 : machine) :
  Returns a m1 = Returns b m2 -> m1 = m2.
Proof. intro H. now injection H. Qed.

Lemma only_the_retry_writes_aux (m m' : machine) :
  type (stack m) = 0x200 -> exception_entry m = Returns tt m' ->
  mce_retried m = true /\ stack m' = set_srr1 (srr1_vm_off (stack m)) (stack m).
Proof.
  intros Hty H. destruct (mce_retried m) eqn:Hr.
  - split; [reflexivity|].
    destruct (run_mce_retry m Hty Hr) as (rest & dump & E & _).
    rewrite E in H. apply Returns_inj in H. now subst m'.
  - destruct (run_mce_fatal m Hty Hr) as (rest & dump & E & _).
    rewrite E in H. discriminate H.
Qed.

(** The retry is taken once on a frame: [exception_entry] run again on
    the state the retry returned finds [MSR_IR] and [MSR_DR] clear in
    [srr1] and ends in [abort()]. *)
Theorem retry_is_not_repeated (m m' : machine) :
  type (stack m) = 0x200 ->
  exception_entry m = Returns tt m' ->
  Z.land (srr1 (stack m')) (Z.lor MSR_IR MSR_DR) = 0 /\
  exists m'', exception_entry m' = Aborts m''.
Proof.
  intros Hty H.
  assert (Hm : stack m' = set_srr1 (srr1_vm_off (stack m)) (stack m)).
  { destruct (only_the_retry_writes_aux m m' Hty H) as (_ & Hs). exact Hs. }
  assert (Hclr : Z.land (srr1 (stack m')) (Z.lor MSR_IR MSR_DR) = 0).
  { rewrite Hm. cbn [srr1 set_srr1]. apply vm_off_clears. }
  split; [exact Hclr|].
  assert (Hty' : type (stack m') = 0x200) by (rewrite Hm; exact Hty).
  assert (Hr : mce_retried m' = false).
  { unfold mce_retried. rewrite Hclr. cbn [Z.eqb negb]. apply andb_false_r. }
  destruct (run_mce_fatal m' Hty' Hr) as (rest & dump & E & _).
  rewrite E. eexists. reflexivity.
Qed.

End MoreProperties.

Section Resolvers.

Context {processor : Processor} (c1 c2 : Collaborators).

Hypothesis same_symbols : forall a, @get_symbol c1 a = @get_symbol c2 a.

Lemma exception_report_same (fatal : bool) (buf : buffer) (l nip msr : Z)
    (m : machine) :
  @exception_report c1 fatal buf l nip msr m
  = @exception_report c2 fatal buf l nip msr m.
Proof.
  unfold exception_report, snprintf_symbol. now rewrite same_symbols.
Qed.

Lemma print_recoverable_mce_vm_same (nip msr : Z) (m : machine) :
  @print_recoverable_mce_vm c1 nip msr m = @print_recoverable_mce_vm c2 nip msr m.
Proof.
  unfold print_recoverable_mce_vm, bind, checked, alloc_buf.
  destruct (snprintf _ _ _ _) as [[b r]|]; [|reflexivity].
  cbv beta iota zeta. unfold snprintf_symbol. now rewrite same_symbols.
Qed.

Lemma exception_switch_same (st : stack_frame) (buf : buffer) (fatal : bool)
    (nip msr : Z) (m : machine) :
  is_delegated (type st) = false ->
  @exception_switch processor c1 st buf fatal nip msr m
  = @exception_switch processor c2 st buf fatal nip msr m.
Proof.
  intro Hdel. unfold is_delegated in Hdel.
  apply orb_false_elim in Hdel. destruct Hdel as (Hdel & N6).
  apply orb_false_elim in Hdel. destruct Hdel as (Hdel & N5).
  apply orb_false_elim in Hdel. destruct Hdel as (N3 & N4).
  unfold exception_switch. rewrite N3, N4, N5, N6.
  destruct (type st =? 256); [reflexivity|].
  destruct (type st =? 512); [|reflexivity].
  unfold bind, get_cpu.
  destruct (negb _ && negb _); [|reflexivity].
  now rewrite print_recoverable_mce_vm_same.
Qed.

(** System reset, machine check and the vectors of the default case
    never consult the fault resolvers: with the same symbol table, two
    sets of resolvers give the same run. *)
Theorem resolvers_only_for_their_vectors (m : machine) :
  is_delegated (type (stack m)) = false ->
  @exception_entry processor c1 m = @exception_entry processor c2 m.
Proof.
  intro Hdel. unfold exception_entry, bind, get_stack, alloc_buf.
  destruct (classify (stack m)) as [[hv nip] msr].
  rewrite (exception_switch_same _ _ _ _ _ _ Hdel).
  destruct (exception_switch _ _ _ _ _ _) as [[f|f b l] m1|m1|]; try reflexivity.
  now rewrite exception_report_same.
Qed.

End Resolvers.

(** * Properties of the registry of [libstb/cvc.c] *)

Module CvcFacts.

Import Cvc.

Section Registry.

Context (CVC_SHA512_SERVICE CVC_VERIFY_SERVICE : Z)
        (IBM_SECUREBOOT_V1 proc_gen_p8 : Z)
        (proc_gen : Z)
        (has_secureboot_node : bool)
        (secureboot_is_compatible : option Z)
        (next_chip : option Z)
        (xscom_read : Z -> Z -> Z)
        (secure_rom_mem_at : Z).

Local Abbreviation map_name :=
  (cvc_service_map_name CVC_SHA512_SERVICE CVC_VERIFY_SERVICE).
Local Abbreviation service_register :=
  (cvc_service_register CVC_SHA512_SERVICE CVC_VERIFY_SERVICE).
Local Abbreviation secure_rom_init :=
  (cvc_secure_rom_init CVC_SHA512_SERVICE CVC_VERIFY_SERVICE next_chip xscom_read
     secure_rom_mem_at).
Local Abbreviation init :=
  (cvc_init CVC_SHA512_SERVICE CVC_VERIFY_SERVICE IBM_SECUREBOOT_V1 proc_gen_p8
     proc_gen has_secureboot_node secureboot_is_compatible next_chip xscom_read
     secure_rom_mem_at).
Local Abbreviation ok := (state_ok CVC_SHA512_SERVICE CVC_VERIFY_SERVICE).
Local Abbreviation by_id i := (fun service : cvc_service => id service =? i).

Lemma then_Done {A B} (c : C A) (k : A -> C B) (s s' : state) (b : B) :
  then_ c k s = Done b s' ->
  exists a s1, c s = Done a s1 /\ k a s1 = Done b s'.
Proof.
  unfold then_. destruct (c s) as [a s1| |]; try discriminate.
  intro H. now exists a, s1.
Qed.

Lemma find_last {A} (f : A -> bool) (l : list A) (x : A) :
  find f (l ++ [x]) =
    match find f l with
    | Some y => Some y
    | None => if f x then Some x else None
    end.
Proof.
  induction l as [|y l IH]; cbn [app find]; [reflexivity|].
  now destruct (f y).
Qed.

Lemma find_none_not_in (l : list cvc_service) (i : Z) :
  find (by_id i) l = None -> ~ In i (map id l).
Proof.
  intros Hf Hin. apply in_map_iff in Hin. destruct Hin as (sv & Hid & Hin).
  apply (find_none _ _ Hf) in Hin. cbn in Hin. rewrite Hid, Z.eqb_refl in Hin.
  discriminate.
Qed.

Lemma find_unique (l : list cvc_service) (sv : cvc_service) :
  NoDup (map id l) -> In sv l -> find (by_id (id sv)) l = Some sv.
Proof.
  induction l as [|x l IH]; intros Hnd Hin; [contradiction|].
  cbn [map] in Hnd. inversion Hnd as [|? ? Hx Hl]; subst.
  cbn [find]. destruct Hin as [->|Hin].
  - now rewrite Z.eqb_refl.
  - destruct (Z.eqb_spec (id x) (id sv)) as [E|_]; [|now apply IH].
    exfalso. apply Hx. rewrite E. now apply in_map.
Qed.

Lemma Done_inj {A} (a b : A) (s1 s2 : state) : Done a s1 = Done b s2 -> s1 = s2.
Proof. intro H. now injection H. Qed.

Lemma find_service_of (s : state) (c : container_verification_code) (i : Z) :
  cvc s = Some c -> cvc_find_service s i = find (by_id i) (service_list c).
Proof. intro H. unfold cvc_find_service. now rewrite H. Qed.

(** What a call of [cvc_service_register] that returns has done:
    nothing but perhaps one line of log, or one service appended. *)
Lemma service_register_cases (s s' : state) (i off ver : Z) :
  service_register i off ver s = Done tt s' ->
  (cvc s' = cvc s /\ heap s' = heap s /\ secure_rom_mem s' = secure_rom_mem s /\
   (cvc s = None \/ cvc_find_service s i <> None \/
    exists c, cvc s = Some c /\
      (wrap64 (start_addr c + off) > end_addr c \/ map_name i = None))) \/
  (exists c name p,
     cvc s = Some c /\ cvc_find_service s i = None /\
     wrap64 (start_addr c + off) <= end_addr c /\
     map_name i = Some name /\ heap s = p :: heap s' /\ p <> 0 /\
     secure_rom_mem s' = secure_rom_mem s /\
     cvc s' = Some (mk_cvc (start_addr c) (end_addr c)
                      (service_list c
                       ++ [mk_service i (wrap64 (start_addr c + off)) ver]))).
Proof.
  unfold cvc_service_register, then_, get.
  destruct (cvc s) as [c|] eqn:Hc.
  2: { intro H. apply Done_inj in H. subst s'. left. rewrite Hc. auto. }
  destruct (cvc_find_service s i) as [sv|] eqn:Hf.
  { intro H. apply Done_inj in H. subst s'. left. rewrite Hc.
    repeat split; auto. right. left. discriminate. }
  destruct (Z.gtb_spec (wrap64 (start_addr c + off)) (end_addr c)) as [Hgt|Hle].
  { unfold prlog, record. intro H. apply Done_inj in H. subst s'. left.
    cbn [cvc heap secure_rom_mem log].
    repeat split; auto. right. right. exists c. split; [reflexivity|]. left. lia. }
  destruct (map_name i) as [name|] eqn:Hn.
  2: { unfold prlog, record. intro H. apply Done_inj in H. subst s'. left.
       cbn [cvc heap secure_rom_mem log].
       repeat split; auto. right. right. exists c. split; [reflexivity|]. now right. }
  unfold malloc. destruct (heap s) as [|p h] eqn:Hh.
  { discriminate. }
  unfold assert. destruct (Z.eqb_spec p 0) as [Hp|Hp]; cbn [negb]; [discriminate|].
  unfold set_cvc, prlog, record. cbn [cvc heap secure_rom_mem log].
  intro H. apply Done_inj in H. subst s'. right.
  exists c, name, p. cbn [cvc heap secure_rom_mem log]. repeat split; auto.
Qed.

Lemma register_cases (s s' : state) (a b : Z) :
  cvc_register a b s = Done tt s' ->
  (cvc s <> None /\ s' = s) \/
  (exists p, cvc s = None /\ heap s = p :: heap s' /\ p <> 0 /\
     secure_rom_mem s' = secure_rom_mem s /\ cvc s' = Some (mk_cvc a b [])).
Proof.
  unfold cvc_register, then_, get.
  destruct (cvc s) as [c|] eqn:Hc.
  { intro H. apply Done_inj in H. subst s'. left. split; [discriminate | reflexivity]. }
  unfold malloc. destruct (heap s) as [|p h] eqn:Hh.
  { discriminate. }
  unfold assert. destruct (Z.eqb_spec p 0) as [Hp|Hp]; cbn [negb]; [discriminate|].
  unfold set_cvc, prlog, record. cbn [cvc heap secure_rom_mem log].
  intro H. apply Done_inj in H. subst s'. right.
  exists p. cbn [cvc heap secure_rom_mem log]. auto.
Qed.

(** [cvc_service_register] and [cvc_find_service] form an insert and a
    lookup: a service that is new, in range and supported is found
    afterwards under its identifier, at [start_addr + offset] and with
    the version given; the other identifiers answer as before; and a
    second registration under the same identifier changes nothing. *)
Theorem register_then_find (s : state) (c : container_verification_code)
    (i off ver p : Z) (h : list Z) :
  cvc s = Some c -> cvc_find_service s i = None ->
  wrap64 (start_addr c + off) <= end_addr c ->
  map_name i <> None ->
  heap s = p :: h -> p <> 0 ->
  exists s',
    service_register i off ver s = Done tt s' /\
    cvc_find_service s' i = Some (mk_service i (wrap64 (start_addr c + off)) ver) /\
    (forall j, j <> i -> cvc_find_service s' j = cvc_find_service s j) /\
    (forall off' ver', service_register i off' ver' s' = Done tt s').
Proof.
  intros Hc Hf Hle Hn Hh Hp.
  pose proof Hf as Hf'. rewrite (find_service_of s c i Hc) in Hf'.
  unfold cvc_service_register at 1. unfold then_, get. rewrite Hc, Hf.
  destruct (Z.gtb_spec (wrap64 (start_addr c + off)) (end_addr c)) as [Hgt|_]; [lia|].
  destruct (map_name i) as [name|]; [|contradiction].
  unfold malloc. rewrite Hh. unfold assert.
  destruct (Z.eqb_spec p 0) as [E|_]; [contradiction|]. cbn [negb].
  unfold set_cvc, prlog, record. cbn [cvc secure_rom_mem heap log].
  eexists. split; [reflexivity|].
  assert (Hnew : forall j,
    cvc_find_service
      (mk_state
         (Some (mk_cvc (start_addr c) (end_addr c)
                  (service_list c
                   ++ [mk_service i (wrap64 (start_addr c + off)) ver])))
         (secure_rom_mem s) h
         (log s ++ [Prlog PR_INFO
                      (lit "STB: " ++ lit "Found CVC-" ++ name ++ lit " @ "
                       ++ fmt_llx (wrap64 (start_addr c + off))
                       ++ lit ", version=" ++ fmt_d ver ++ [newline])])) j
    = match find (by_id j) (service_list c) with
      | Some y => Some y
      | None => if i =? j
                then Some (mk_service i (wrap64 (start_addr c + off)) ver)
                else None
      end).
  { intro j. unfold cvc_find_service. cbn [cvc service_list]. now rewrite find_last. }
  split; [|split].
  - rewrite Hnew, Hf', Z.eqb_refl. reflexivity.
  - intros j Hj. rewrite Hnew, (find_service_of s c j Hc).
    destruct (find (by_id j) (service_list c)); [reflexivity|].
    destruct (Z.eqb_spec i j); [congruence | reflexivity].
  - intros off' ver'. unfold cvc_service_register, then_, get. cbn [cvc].
    rewrite Hnew, Hf', Z.eqb_refl. reflexivity.
Qed.

(** [cvc_service_register] never disturbs what is registered: whatever
    the call does, every identifier other than its own, and its own if
    it was registered before, is found as before. *)
Theorem register_keeps_the_registered (s s' : state) (i off ver j : Z) :
  service_register i off ver s = Done tt s' ->
  j <> i \/ cvc_find_service s j <> None ->
  cvc_find_service s' j = cvc_find_service s j.
Proof.
  intros H Hj.
  destruct (service_register_cases s s' i off ver H)
    as [(Hc & _) | (c & name & p & Hc & Hf & _ & _ & _ & _ & _ & Hc')].
  - unfold cvc_find_service. now rewrite Hc.
  - unfold cvc_find_service at 1. rewrite Hc'. cbn [service_list].
    rewrite find_last. rewrite (find_service_of s c j Hc) in Hj |- *.
    destruct (find (by_id j) (service_list c)) eqn:Hfj; [reflexivity|].
    cbn [id]. destruct (Z.eqb_spec i j) as [E|_]; [|reflexivity].
    subst j. destruct Hj as [Hj|Hj]; contradiction.
Qed.

(** A service that is out of range or that the map does not name is
    turned down: the registry, the heap and the ROM pointer stay as
    they were and one line is logged, a warning for the range (which
    is checked first), an error for the identifier. *)
Theorem rejected_service_changes_nothing (s : state)
    (c : container_verification_code) (i off ver : Z) :
  cvc s = Some c -> cvc_find_service s i = None ->
  wrap64 (start_addr c + off) > end_addr c \/ map_name i = None ->
  exists line,
    service_register i off ver s =
      Done tt (mk_state (cvc s) (secure_rom_mem s) (heap s)
                 (log s ++ [Prlog (if wrap64 (start_addr c + off) >? end_addr c
                                   then PR_WARNING else PR_ERR) line])).
Proof.
  intros Hc Hf Hbad.
  unfold cvc_service_register, then_, get. rewrite Hc, Hf.
  destruct (Z.gtb_spec (wrap64 (start_addr c + off)) (end_addr c)) as [Hgt|Hle].
  - unfold prlog, record. rewrite Hc. eexists. reflexivity.
  - destruct Hbad as [Hgt|Hn]; [lia|]. rewrite Hn.
    unfold prlog, record. rewrite Hc. eexists. reflexivity.
Qed.

Lemma ok_of_cvc (s s' : state) : cvc s' = cvc s -> ok s -> ok s'.
Proof. unfold state_ok. intros E H. now rewrite E. Qed.

Lemma register_ok (s s' : state) (a b : Z) :
  ok s -> cvc_register a b s = Done tt s' -> ok s'.
Proof.
  intros Hok H.
  destruct (register_cases s s' a b H) as [(_ & ->) | (p & _ & _ & _ & _ & Hc')];
    [exact Hok|].
  intros c Hc. rewrite Hc' in Hc. injection Hc as <-.
  split; [constructor | intros sv []].
Qed.

Lemma service_register_ok (s s' : state) (i off ver : Z) :
  ok s -> service_register i off ver s = Done tt s' -> ok s'.
Proof.
  intros Hok H.
  destruct (service_register_cases s s' i off ver H)
    as [(Hc & _) | (c & name & p & Hc & Hf & Hle & Hn & _ & _ & _ & Hc')].
  - now apply (ok_of_cvc s).
  - destruct (Hok c Hc) as (Hnd & Hall).
    rewrite (find_service_of s c i Hc) in Hf.
    intros c' Hc''. rewrite Hc' in Hc''. injection Hc'' as <-.
    split; cbn [service_list end_addr].
    + rewrite map_app. apply NoDup_app; [exact Hnd | repeat constructor; intros [] |].
      intros a Ha [<-|[]]. cbn [id] in Ha. now apply (find_none_not_in _ _ Hf).
    + intros sv Hin. apply in_app_or in Hin. destruct Hin as [Hin|[<-|[]]].
      * now apply Hall.
      * cbn [id addr]. split; [rewrite Hn; discriminate | exact Hle].
Qed.

Lemma rom_buffer_keeps_cvc (s s' : state) (u : unit) :
  (if secure_rom_mem s =? 0
   then then_ malloc (fun p => then_ (set_secure_rom_mem p)
                                 (fun _ => assert (negb (p =? 0))))
   else unit_ tt) s = Done u s' ->
  cvc s' = cvc s.
Proof.
  destruct (secure_rom_mem s =? 0).
  - unfold then_, malloc, set_secure_rom_mem, assert.
    destruct (heap s) as [|p h]; cbn [cvc secure_rom_mem heap log].
    + discriminate.
    + destruct (negb (p =? 0)); [|discriminate].
      intro H. apply Done_inj in H. now subst s'.
  - intro H. apply Done_inj in H. now subst s'.
Qed.

(** What a call of [cvc_secure_rom_init] that returns has done. *)
Lemma secure_rom_init_cases (s s' : state) (r : Z) :
  secure_rom_init s = Done r s' ->
  r = 0 /\
  exists s1 s2 s3,
    cvc s1 = cvc s /\
    cvc_register secure_rom_mem_at
      (wrap64 (wrap64 (secure_rom_mem_at + SECURE_ROM_MEMORY_SIZE) - 1)) s1
      = Done tt s2 /\
    service_register CVC_SHA512_SERVICE SECURE_ROM_SHA512_OFFSET 1 s2 = Done tt s3 /\
    service_register CVC_VERIFY_SERVICE SECURE_ROM_VERIFY_OFFSET 1 s3 = Done tt s'.
Proof.
  unfold cvc_secure_rom_init. intro H.
  apply then_Done in H. destruct H as (s0 & s0' & Hget & H).
  apply Done_inj in Hget as Hs0. unfold get in Hget. injection Hget as <- _. subst s0'.
  apply then_Done in H. destruct H as (u & sa & Hbuf & H).
  apply rom_buffer_keeps_cvc in Hbuf.
  destruct next_chip as [chip|]; [|discriminate].
  apply then_Done in H. destruct H as (sb & sb' & Hget & H).
  apply Done_inj in Hget as Hsb. unfold get in Hget. injection Hget as <- _. subst sb'.
  apply then_Done in H. destruct H as (u1 & s1 & Hrec & H).
  unfold record in Hrec. apply Done_inj in Hrec.
  apply then_Done in H. destruct H as ([] & s2 & Hreg & H).
  apply then_Done in H. destruct H as ([] & s3 & Hsha & H).
  apply then_Done in H. destruct H as ([] & s4 & Hver & H).
  unfold unit_ in H. apply Done_inj in H as Hs4. injection H as <- _. subst s4.
  split; [reflexivity|]. exists s1, s2, s3.
  split; [subst s1; exact Hbuf|]. auto.
Qed.

Lemma secure_rom_init_ok (s s' : state) (r : Z) :
  ok s -> secure_rom_init s = Done r s' -> ok s'.
Proof.
  intros Hok H.
  destruct (secure_rom_init_cases s s' r H)
    as (_ & s1 & s2 & s3 & Hc & Hreg & Hsha & Hver).
  eapply service_register_ok; [|exact Hver].
  eapply service_register_ok; [|exact Hsha].
  eapply register_ok; [|exact Hreg].
  now apply (ok_of_cvc s).
Qed.

(** What a call of [cvc_init] that returns has done. *)
Lemma init_cases (s s' : state) (r : Z) :
  init s = Done r s' ->
  (r = 0 /\ cvc s <> None /\ s' = s) \/
  (r = -1 /\ cvc s = None /\ cvc s' = None /\ heap s' = heap s /\
   secure_rom_mem s' = secure_rom_mem s /\
   (log s' = log s \/ exists line, log s' = log s ++ [Prlog PR_ERR line]) /\
   (has_secureboot_node = false \/ secureboot_is_compatible = None \/
    exists ver, secureboot_is_compatible = Some ver /\
      (ver =? IBM_SECUREBOOT_V1) && (proc_gen =? proc_gen_p8) = false)) \/
  (cvc s = None /\ has_secureboot_node = true /\
   secureboot_is_compatible = Some IBM_SECUREBOOT_V1 /\ proc_gen = proc_gen_p8 /\
   secure_rom_init s = Done r s').
Proof.
  unfold cvc_init, then_, get.
  destruct (cvc s) as [c|] eqn:Hc.
  { unfold unit_. intro H. apply Done_inj in H as Hs. injection H as <- _.
    left. split; [reflexivity|]. split; [discriminate | now symmetry]. }
  destruct has_secureboot_node; cbn [negb].
  2: { unfold unit_. intro H. apply Done_inj in H as Hs. injection H as <- _.
       subst s'. right. left. rewrite Hc. repeat split; auto. }
  destruct secureboot_is_compatible as [ver|].
  2: { unfold prlog, record, unit_. intro H. apply Done_inj in H as Hs.
       injection H as <- _. subst s'. right. left.
       cbn [cvc heap secure_rom_mem log]. rewrite Hc.
       repeat split; auto. right. eexists. reflexivity. }
  destruct ((ver =? IBM_SECUREBOOT_V1) && (proc_gen =? proc_gen_p8)) eqn:Hv.
  - apply andb_prop in Hv. destruct Hv as (Hv1 & Hv2).
    apply Z.eqb_eq in Hv1, Hv2. subst ver.
    destruct (secure_rom_init s) as [rc s1| |] eqn:Hrom; try discriminate.
    unfold unit_. intro H. apply Done_inj in H as Hs. injection H as <- _. subst s1.
    right. right. auto.
  - unfold prlog, record, unit_. intro H. apply Done_inj in H as Hs.
    injection H as <- _. subst s'. right. left.
    cbn [cvc heap secure_rom_mem log]. rewrite Hc.
    repeat split; auto.
    + right. eexists. reflexivity.
    + right. right. exists ver. auto.
Qed.

Local Abbreviation reached_state :=
  (reached CVC_SHA512_SERVICE CVC_VERIFY_SERVICE IBM_SECUREBOOT_V1 proc_gen_p8
     proc_gen has_secureboot_node secureboot_is_compatible next_chip xscom_read
     secure_rom_mem_at).

Lemma init_ok (s s' : state) (r : Z) : ok s -> init s = Done r s' -> ok s'.
Proof.
  intros Hok H.
  destruct (init_cases s s' r H)
    as [(_ & _ & ->) | [(_ & _ & Hc' & _) | (_ & _ & _ & _ & Hrom)]].
  - exact Hok.
  - intros c Hc. rewrite Hc' in Hc. discriminate.
  - now apply (secure_rom_init_ok s s' r).
Qed.

(** However the functions of the file are called, the registry stays
    in order: no identifier is registered twice, every service is one
    the map names and lies at or below [end_addr], and
    [cvc_find_service] finds each service under its own identifier. *)
Theorem registry_stays_in_order (s : state) :
  reached_state s ->
  forall c, cvc s = Some c ->
    NoDup (map id (service_list c)) /\
    forall service, In service (service_list c) ->
      cvc_find_service s (id service) = Some service /\
      map_name (id service) <> None /\
      addr service <= end_addr c.
Proof.
  intro Hr.
  assert (Hok : ok s).
  { induction Hr as [s Hc | s s' a b _ IH H | s s' i off ver _ IH H
                     | s s' r _ IH H | s s' r _ IH H].
    - intros c Hc'. rewrite Hc in Hc'. discriminate.
    - now apply (register_ok s s' a b).
    - now apply (service_register_ok s s' i off ver).
    - now apply (secure_rom_init_ok s s' r).
    - now apply (init_ok s s' r). }
  intros c Hc. destruct (Hok c Hc) as (Hnd & Hall). split; [exact Hnd|].
  intros sv Hin. destruct (Hall sv Hin) as (Hn & Ha).
  rewrite (find_service_of s c _ Hc). split; [now apply find_unique | auto].
Qed.

Lemma service_register_keeps_registry (s s' : state) (i off ver : Z) :
  cvc s <> None -> service_register i off ver s = Done tt s' -> cvc s' <> None.
Proof.
  intros Hc H.
  destruct (service_register_cases s s' i off ver H)
    as [(Hc' & _) | (c & name & p & _ & _ & _ & _ & _ & _ & _ & Hc')];
    rewrite Hc'; [exact Hc | discriminate].
Qed.

(** [cvc_init] answers 0 or -1, and once it has answered 0 the
    registry exists and another call answers 0 and changes nothing. *)
Theorem init_is_done_once (s s' : state) (r : Z) :
  init s = Done r s' ->
  (r = 0 \/ r = -1) /\
  (r = 0 -> cvc s' <> None /\ init s' = Done 0 s').
Proof.
  intro H.
  assert (Hagain : cvc s' <> None -> init s' = Done 0 s').
  { unfold cvc_init, then_, get. destruct (cvc s'); [reflexivity | contradiction]. }
  destruct (init_cases s s' r H)
    as [(-> & Hc & ->) | [(-> & _) | (Hc & _ & _ & _ & Hrom)]].
  - split; [now left|]. intros _. split; [exact Hc | now apply Hagain].
  - split; [now right|]. discriminate.
  - destruct (secure_rom_init_cases s s' r Hrom)
      as (-> & s1 & s2 & s3 & _ & Hreg & Hsha & Hver).
    split; [now left|]. intros _.
    assert (Hc2 : cvc s2 <> None).
    { destruct (register_cases _ _ _ _ Hreg) as [(Hc1 & ->) | (p & _ & _ & _ & _ & Hc2)];
        [exact Hc1 | rewrite Hc2; discriminate]. }
    assert (Hc' : cvc s' <> None).
    { eapply service_register_keeps_registry; [|exact Hver].
      eapply service_register_keeps_registry; [|exact Hsha]. exact Hc2. }
    split; [exact Hc' | now apply Hagain].
Qed.

(** When [cvc_init] answers -1 it has registered nothing and allocated
    nothing: the device tree has no [/ibm,secureboot], or the node is
    not compatible, or it is not version 1 on POWER8; in the last two
    cases one error is logged. *)
Theorem init_fails_cleanly (s s' : state) :
  init s = Done (-1) s' ->
  cvc s' = None /\ heap s' = heap s /\ secure_rom_mem s' = secure_rom_mem s /\
  ((has_secureboot_node = false /\ log s' = log s) \/
   (has_secureboot_node = true /\
    (secureboot_is_compatible = None \/
     exists ver, secureboot_is_compatible = Some ver /\
       (ver =? IBM_SECUREBOOT_V1) && (proc_gen =? proc_gen_p8) = false) /\
    exists line, log s' = log s ++ [Prlog PR_ERR line])).
Proof.
  intro H.
  assert (Hnot0 : forall s0 s1, secure_rom_init s0 = Done (-1) s1 -> False).
  { intros s0 s1 Hrom. destruct (secure_rom_init_cases s0 s1 _ Hrom) as (E & _).
    discriminate E. }
  revert H. unfold cvc_init, then_, get.
  destruct (cvc s) as [c|] eqn:Hc.
  { unfold unit_. intro H. injection H as E _. discriminate E. }
  destruct has_secureboot_node; cbn [negb].
  2: { unfold unit_. intro H. apply Done_inj in H. subst s'.
       rewrite Hc. repeat split; auto. }
  destruct secureboot_is_compatible as [ver|].
  2: { unfold prlog, record, unit_. intro H. apply Done_inj in H. subst s'.
       cbn [cvc heap secure_rom_mem log]. rewrite Hc. repeat split; auto.
       right. split; [reflexivity|]. split; [now left|]. eexists. reflexivity. }
  destruct ((ver =? IBM_SECUREBOOT_V1) && (proc_gen =? proc_gen_p8)) eqn:Hv.
  - destruct (secure_rom_init s) as [rc s1| |] eqn:Hrom; try discriminate.
    unfold unit_. intro H. apply Done_inj in H as Hs. injection H as -> _.
    exfalso. now apply (Hnot0 s s1).
  - unfold prlog, record, unit_. intro H. apply Done_inj in H. subst s'.
    cbn [cvc heap secure_rom_mem log]. rewrite Hc. repeat split; auto.
    right. split; [reflexivity|]. split; [|eexists; reflexivity].
    right. exists ver. auto.
Qed.

Lemma register_fresh (s : state) (a b p : Z) (h : list Z) :
  cvc s = None -> heap s = p :: h -> p <> 0 ->
  cvc_register a b s =
    Done tt (mk_state (Some (mk_cvc a b [])) (secure_rom_mem s) h
               (log s ++ [Prlog PR_INFO
                            (lit "STB: " ++ lit "Found CVC @ " ++ fmt_llx a
                             ++ lit "-" ++ fmt_llx b ++ [newline])])).
Proof.
  intros Hc Hh Hp. unfold cvc_register, then_, get. rewrite Hc.
  unfold malloc. rewrite Hh. unfold assert.
  destruct (Z.eqb_spec p 0) as [E|_]; [contradiction|]. cbn [negb].
  unfold set_cvc, prlog, record. cbn [cvc secure_rom_mem heap log]. reflexivity.
Qed.

Lemma service_register_fresh (s : state) (c : container_verification_code)
    (i off ver p : Z) (name : text) (h : list Z) :
  cvc s = Some c -> find (by_id i) (service_list c) = None ->
  wrap64 (start_addr c + off) <= end_addr c ->
  map_name i = Some name ->
  heap s = p :: h -> p <> 0 ->
  service_register i off ver s =
    Done tt (mk_state
               (Some (mk_cvc (start_addr c) (end_addr c)
                        (service_list c
                         ++ [mk_service i (wrap64 (start_addr c + off)) ver])))
               (secure_rom_mem s) h
               (log s ++ [Prlog PR_INFO
                            (lit "STB: " ++ lit "Found CVC-" ++ name ++ lit " @ "
                             ++ fmt_llx (wrap64 (start_addr c + off))
                             ++ lit ", version=" ++ fmt_d ver ++ [newline])])).
Proof.
  intros Hc Hf Hle Hn Hh Hp.
  unfold cvc_service_register, then_, get.
  rewrite Hc, (find_service_of s c i Hc), Hf.
  destruct (Z.gtb_spec (wrap64 (start_addr c + off)) (end_addr c)) as [Hgt|_]; [lia|].
  rewrite Hn. unfold malloc. rewrite Hh. unfold assert.
  destruct (Z.eqb_spec p 0) as [E|_]; [contradiction|]. cbn [negb].
  unfold set_cvc, prlog, record. cbn [cvc secure_rom_mem heap log addr version].
  reflexivity.
Qed.

(** On POWER8 with secure boot version 1, a first [cvc_init] answers 0
    and leaves the registry over the 16 KiB at [&secure_rom_mem] with
    two services of version 1: sha512 at offset [0x20] and verify at
    offset [0x30]; the ROM has been copied once into a new buffer. *)
Theorem init_registers_both_services (s : state) (chip p0 p1 p2 p3 : Z)
    (h : list Z) :
  cvc s = None -> secure_rom_mem s = 0 ->
  heap s = p0 :: p1 :: p2 :: p3 :: h ->
  p0 <> 0 -> p1 <> 0 -> p2 <> 0 -> p3 <> 0 ->
  has_secureboot_node = true ->
  secureboot_is_compatible = Some IBM_SECUREBOOT_V1 ->
  proc_gen = proc_gen_p8 ->
  next_chip = Some chip ->
  CVC_SHA512_SERVICE <> CVC_VERIFY_SERVICE ->
  0 <= secure_rom_mem_at ->
  secure_rom_mem_at + SECURE_ROM_MEMORY_SIZE <= 2 ^ 64 ->
  exists s' l1 l2 l3,
    init s = Done 0 s' /\
    cvc s' = Some (mk_cvc secure_rom_mem_at (secure_rom_mem_at + 16383)
                     [mk_service CVC_SHA512_SERVICE (secure_rom_mem_at + 0x20) 1;
                      mk_service CVC_VERIFY_SERVICE (secure_rom_mem_at + 0x30) 1]) /\
    secure_rom_mem s' = p0 /\ heap s' = h /\
    log s' = log s
             ++ [MemcpyFromCi p0 (xscom_read chip SECURE_ROM_XSCOM_ADDRESS)
                   SECURE_ROM_MEMORY_SIZE;
                 Prlog PR_INFO l1; Prlog PR_INFO l2; Prlog PR_INFO l3].
Proof.
  intros Hc Hrom Hh Hp0 Hp1 Hp2 Hp3 Hnode Hcompat Hgen Hchip Hids Hat0 Hat1.
  unfold SECURE_ROM_MEMORY_SIZE in Hat1.
  change (2 ^ 64) with 18446744073709551616 in Hat1.
  assert (Hend : wrap64 (wrap64 (secure_rom_mem_at + SECURE_ROM_MEMORY_SIZE) - 1)
                 = secure_rom_mem_at + 16383).
  { unfold wrap64, SECURE_ROM_MEMORY_SIZE. rewrite Zminus_mod_idemp_l.
    change (2 ^ 64) with 18446744073709551616. rewrite Z.mod_small; lia. }
  assert (Hw : forall off, 0 <= off < 16384 ->
                 wrap64 (secure_rom_mem_at + off) = secure_rom_mem_at + off).
  { intros off Hoff. apply wrap64_small.
    change (2 ^ 64) with 18446744073709551616. lia. }
  set (s0 := mk_state None p0 (p1 :: p2 :: p3 :: h)
               (log s ++ [MemcpyFromCi p0 (xscom_read chip SECURE_ROM_XSCOM_ADDRESS)
                            16384])).
  pose proof (register_fresh s0 secure_rom_mem_at (secure_rom_mem_at + 16383)
                p1 (p2 :: p3 :: h) eq_refl eq_refl Hp1) as E1.
  set (s1 := mk_state _ _ _ _) in E1.
  pose proof (service_register_fresh s1 _ CVC_SHA512_SERVICE 0x20 1 p2
                (lit "sha512") (p3 :: h) eq_refl eq_refl) as E2.
  cbn [start_addr end_addr service_list heap] in E2.
  rewrite (Hw 0x20) in E2 by lia.
  specialize (E2 ltac:(lia)).
  assert (Hsha : map_name CVC_SHA512_SERVICE = Some (lit "sha512")).
  { unfold cvc_service_map_name, cvc_service_map. cbn [find fst snd].
    now rewrite Z.eqb_refl. }
  assert (Hver : map_name CVC_VERIFY_SERVICE = Some (lit "verify")).
  { unfold cvc_service_map_name, cvc_service_map. cbn [find fst snd].
    destruct (Z.eqb_spec CVC_SHA512_SERVICE CVC_VERIFY_SERVICE); [contradiction|].
    now rewrite Z.eqb_refl. }
  specialize (E2 Hsha eq_refl Hp2).
  set (s2 := mk_state _ _ _ _) in E2.
  pose proof (service_register_fresh s2 _ CVC_VERIFY_SERVICE 0x30 1 p3
                (lit "verify") h eq_refl) as E3.
  cbn [start_addr end_addr service_list heap app find id] in E3.
  rewrite (Hw 0x30) in E3 by lia.
  destruct (Z.eqb_spec CVC_SHA512_SERVICE CVC_VERIFY_SERVICE) as [|_];
    [contradiction|].
  specialize (E3 eq_refl ltac:(lia) Hver eq_refl Hp3).
  set (s3 := mk_state _ _ _ _) in E3.
  exists s3. do 3 eexists.
  split; [|subst s3 s2 s1 s0; cbn [cvc secure_rom_mem heap log app];
           repeat split; rewrite <- !app_assoc; reflexivity].
  unfold cvc_init, then_ at 1, get. rewrite Hc, Hnode. cbn [negb].
  rewrite Hcompat, Hgen, !Z.eqb_refl. cbn [andb].
  unfold then_ at 1.
  assert (Einit : secure_rom_init s = Done 0 s3).
  { unfold cvc_secure_rom_init. unfold then_ at 1. unfold get at 1.
    rewrite Hrom. cbn [Z.eqb]. unfold then_ at 1.
    unfold then_ at 1. unfold malloc at 1. rewrite Hh.
    unfold then_ at 1. unfold set_secure_rom_mem at 1. unfold assert at 1.
    destruct (Z.eqb_spec p0 0) as [|_]; [contradiction|]. cbn [negb].
    rewrite Hchip. unfold then_ at 1. unfold get at 1. unfold then_ at 1.
    unfold record at 1. cbn [cvc secure_rom_mem heap log].
    rewrite Hend. unfold SECURE_ROM_MEMORY_SIZE at 1.
    change (16 * 1024) with 16384. rewrite Hc. fold s0.
    unfold then_ at 1. rewrite E1.
    unfold then_ at 1. unfold SECURE_ROM_SHA512_OFFSET. rewrite E2.
    unfold then_ at 1. unfold SECURE_ROM_VERIFY_OFFSET. rewrite E3.
    reflexivity. }
  rewrite Einit. reflexivity.
Qed.

End Registry.

(** ** The registry at work *)

Lemma register_then_find_witness :
  cvc registered = Some (mk_cvc 0x30200000 0x30203fff []) /\
  cvc_find_service registered sha512_id = None /\
  wrap64 (0x30200000 + 0x20) <= 0x30203fff /\
  cvc_service_map_name sha512_id verify_id sha512_id <> None /\
  heap registered = [0x2000; 0x3000] /\ 0x2000 <> 0 /\
  exists s',
    cvc_service_register sha512_id verify_id sha512_id 0x20 1 registered
      = Done tt s' /\
    cvc_find_service s' sha512_id = Some (mk_service sha512_id 0x30200020 1).
Proof.
  assert (H1 : cvc registered = Some (mk_cvc 0x30200000 0x30203fff []))
    by reflexivity.
  assert (H2 : cvc_find_service registered sha512_id = None) by reflexivity.
  assert (H3 : wrap64 (0x30200000 + 0x20) <= 0x30203fff)
    by (vm_compute; discriminate).
  assert (H4 : cvc_service_map_name sha512_id verify_id sha512_id <> None)
    by (vm_compute; discriminate).
  assert (H5 : heap registered = [0x2000; 0x3000]) by reflexivity.
  assert (H6 : 0x2000 <> 0) by discriminate.
  repeat (split; [assumption|]).
  destruct (register_then_find sha512_id verify_id registered _ sha512_id 0x20 1
              0x2000 [0x3000] H1 H2 H3 H4 H5 H6) as (s' & E & Hf & _).
  exists s'. split; [exact E | exact Hf].
Defined.

Lemma register_keeps_the_registered_witness :
  cvc_service_register sha512_id verify_id verify_id 0x100 2 ready
    = Done tt (after (cvc_service_register sha512_id verify_id verify_id 0x100 2)
                 ready) /\
  (verify_id <> verify_id \/ cvc_find_service ready verify_id <> None) /\
  cvc_find_service
    (after (cvc_service_register sha512_id verify_id verify_id 0x100 2) ready)
    verify_id
  = Some (mk_service verify_id 0x30200030 1).
Proof.
  assert (H1 : cvc_service_register sha512_id verify_id verify_id 0x100 2 ready
               = Done tt (after (cvc_service_register sha512_id verify_id
                                   verify_id 0x100 2) ready))
    by (vm_compute; reflexivity).
  assert (H2 : verify_id <> verify_id \/ cvc_find_service ready verify_id <> None)
    by (right; vm_compute; discriminate).
  split; [exact H1|]. split; [exact H2|].
  rewrite (register_keeps_the_registered sha512_id verify_id _ _ _ _ _ verify_id
             H1 H2).
  vm_compute. reflexivity.
Defined.

Lemma rejected_service_changes_nothing_witness :
  cvc registered = Some (mk_cvc 0x30200000 0x30203fff []) /\
  cvc_find_service registered sha512_id = None /\
  (wrap64 (0x30200000 + 0x4000) > 0x30203fff \/
   cvc_service_map_name sha512_id verify_id sha512_id = None) /\
  exists line,
    cvc_service_register sha512_id verify_id sha512_id 0x4000 1 registered
      = Done tt (mk_state (cvc registered) (secure_rom_mem registered)
                   (heap registered) [Prlog PR_WARNING line]).
Proof.
  assert (H1 : cvc registered = Some (mk_cvc 0x30200000 0x30203fff []))
    by reflexivity.
  assert (H2 : cvc_find_service registered sha512_id = None) by reflexivity.
  assert (H3 : wrap64 (0x30200000 + 0x4000) > 0x30203fff \/
               cvc_service_map_name sha512_id verify_id sha512_id = None)
    by (left; vm_compute; reflexivity).
  repeat (split; [assumption|]).
  exact (rejected_service_changes_nothing sha512_id verify_id registered _
           sha512_id 0x4000 1 H1 H2 H3).
Defined.

Lemma registry_stays_in_order_witness :
  reached sha512_id verify_id 1 1 1 true (Some 1) (Some 0)
    (fun _ _ => 0x3fffe0000) 0x30200000 ready /\
  cvc ready = Some (mk_cvc 0x30200000 0x30203fff
                      [mk_service sha512_id 0x30200020 1;
                       mk_service verify_id 0x30200030 1]) /\
  NoDup [sha512_id; verify_id] /\
  cvc_find_service ready verify_id = Some (mk_service verify_id 0x30200030 1).
Proof.
  assert (H1 : reached sha512_id verify_id 1 1 1 true (Some 1) (Some 0)
                 (fun _ _ => 0x3fffe0000) 0x30200000 ready).
  { apply (after_cvc_init _ _ _ _ _ _ _ _ _ _ boot ready 0).
    - apply at_boot. reflexivity.
    - vm_compute. reflexivity. }
  assert (H2 : cvc ready = Some (mk_cvc 0x30200000 0x30203fff
                                   [mk_service sha512_id 0x30200020 1;
                                    mk_service verify_id 0x30200030 1]))
    by (vm_compute; reflexivity).
  split; [exact H1|]. split; [exact H2|].
  destruct (registry_stays_in_order _ _ _ _ _ _ _ _ _ _ ready H1 _ H2)
    as (Hnd & Hall).
  split; [exact Hnd|].
  apply (Hall (mk_service verify_id 0x30200030 1)). right. left. reflexivity.
Defined.

Lemma init_is_done_once_witness :
  p8_init boot = Done 0 ready /\
  cvc ready <> None /\ p8_init ready = Done 0 ready.
Proof.
  assert (H : p8_init boot = Done 0 ready) by (vm_compute; reflexivity).
  split; [exact H|].
  exact (proj2 (init_is_done_once sha512_id verify_id 1 1 1 true (Some 1) (Some 0)
                  (fun _ _ => 0x3fffe0000) 0x30200000 boot ready 0 H) eq_refl).
Defined.

Lemma init_fails_cleanly_witness :
  bare_init boot = Done (-1) boot /\
  cvc boot = None /\ heap boot = heap boot.
Proof.
  assert (H : bare_init boot = Done (-1) boot) by (vm_compute; reflexivity).
  split; [exact H|].
  destruct (init_fails_cleanly sha512_id verify_id 1 1 1 false None (Some 0)
              (fun _ _ => 0x3fffe0000) 0x30200000 boot boot H) as (Hc & Hh & _).
  split; [exact Hc | exact Hh].
Defined.

Lemma init_registers_both_services_witness :
  cvc boot = None /\ secure_rom_mem boot = 0 /\
  heap boot = [0x1000; 0x2000; 0x3000; 0x4000] /\
  sha512_id <> verify_id /\
  0 <= 0x30200000 /\ 0x30200000 + SECURE_ROM_MEMORY_SIZE <= 2 ^ 64 /\
  exists s',
    p8_init boot = Done 0 s' /\
    cvc s' = Some (mk_cvc 0x30200000 (0x30200000 + 16383)
                     [mk_service sha512_id (0x30200000 + 0x20) 1;
                      mk_service verify_id (0x30200000 + 0x30) 1]) /\
    heap s' = [].
Proof.
  assert (H1 : cvc boot = None) by reflexivity.
  assert (H2 : secure_rom_mem boot = 0) by reflexivity.
  assert (H3 : heap boot = [0x1000; 0x2000; 0x3000; 0x4000]) by reflexivity.
  assert (H4 : sha512_id <> verify_id) by discriminate.
  assert (H5 : 0 <= 0x30200000) by discriminate.
  assert (H6 : 0x30200000 + SECURE_ROM_MEMORY_SIZE <= 2 ^ 64)
    by (vm_compute; discriminate).
  repeat (split; [assumption|]).
  destruct (init_registers_both_services sha512_id verify_id 1 1 1 true (Some 1)
              (Some 0) (fun _ _ => 0x3fffe0000) 0x30200000 boot 0
              0x1000 0x2000 0x3000 0x4000 [] H1 H2 H3
              ltac:(discriminate) ltac:(discriminate) ltac:(discriminate)
              ltac:(discriminate) eq_refl eq_refl eq_refl eq_refl H4 H5 H6)
    as (s' & l1 & l2 & l3 & E & Hc & _ & Hh & _).
  exists s'. split; [exact E|]. split; [exact Hc | exact Hh].
Defined.

End CvcFacts.

(** * The dispatcher at work *)

Lemma backtrace_only_after_reset_witness :
  (@exception_entry power no_help reset_ri
     = Returns tt (final (@exception_entry power no_help reset_ri) reset_ri) \/
   @exception_entry power no_help reset_ri
     = Aborts (final (@exception_entry power no_help reset_ri) reset_ri)) /\
  exists es,
    trace (final (@exception_entry power no_help reset_ri) reset_ri)
      = trace reset_ri ++ es /\
    In Backtrace es.
Proof.
  assert (H : @exception_entry power no_help reset_ri
                = Returns tt (final (@exception_entry power no_help reset_ri) reset_ri) \/
              @exception_entry power no_help reset_ri
                = Aborts (final (@exception_entry power no_help reset_ri) reset_ri))
    by (left; vm_compute; reflexivity).
  split; [exact H|].
  destruct (@backtrace_only_after_reset power no_help _ _ H) as (es & Htr & Hbt).
  exists es. split; [exact Htr|]. apply Hbt.
  split; [reflexivity | vm_compute; discriminate].
Defined.

Lemma only_the_retry_writes_witness :
  (@exception_entry power vm_helps mce_vm_on
     = Returns tt (final (@exception_entry power vm_helps mce_vm_on) mce_vm_on) \/
   @exception_entry power vm_helps mce_vm_on
     = Aborts (final (@exception_entry power vm_helps mce_vm_on) mce_vm_on)) /\
  ((stack (final (@exception_entry power vm_helps mce_vm_on) mce_vm_on)
      = stack mce_vm_on /\
    this_cpu (final (@exception_entry power vm_helps mce_vm_on) mce_vm_on)
      = this_cpu mce_vm_on) \/
   (type (stack mce_vm_on) = 0x200 /\ @mce_retried power mce_vm_on = true /\
    @exception_entry power vm_helps mce_vm_on
      = Returns tt (final (@exception_entry power vm_helps mce_vm_on) mce_vm_on) /\
    stack (final (@exception_entry power vm_helps mce_vm_on) mce_vm_on)
      = set_srr1 (@srr1_vm_off power (stack mce_vm_on)) (stack mce_vm_on) /\
    this_cpu (final (@exception_entry power vm_helps mce_vm_on) mce_vm_on)
      = mk_cpu (vm_local_map_inuse (this_cpu mce_vm_on)) false)).
Proof.
  assert (H : @exception_entry power vm_helps mce_vm_on
                = Returns tt (final (@exception_entry power vm_helps mce_vm_on) mce_vm_on) \/
              @exception_entry power vm_helps mce_vm_on
                = Aborts (final (@exception_entry power vm_helps mce_vm_on) mce_vm_on))
    by (left; vm_compute; reflexivity).
  split; [exact H|].
  exact (@only_the_retry_writes power vm_helps _ _ H).
Defined.

Lemma report_is_complete_witness :
  @prints_summary power no_help program_check = true /\
  clean (@symbol_text no_help (nip_of (stack program_check))) = true /\
  Z.of_nat (length (@summary_head power program_check
                    ++ @symbol_text no_help (nip_of (stack program_check)))) + 22
    < EXCEPTION_MAX_STR /\
  @exception_entry power no_help program_check =
    Aborts (emit (Prerror banner
                  :: Prerror (lit "Fatal Exception 0x700 at 0000000000001000    MSR 9000000000001002"
                              ++ [newline])
                  :: register_dump (stack program_check)) program_check).
Proof.
  assert (H1 : @prints_summary power no_help program_check = true) by reflexivity.
  assert (H2 : clean (@symbol_text no_help (nip_of (stack program_check))) = true)
    by reflexivity.
  assert (H3 : Z.of_nat (length (@summary_head power program_check
                                 ++ @symbol_text no_help
                                      (nip_of (stack program_check)))) + 22
               < EXCEPTION_MAX_STR) by (vm_compute; reflexivity).
  split; [exact H1|]. split; [exact H2|]. split; [exact H3|].
  rewrite (@report_is_complete power no_help program_check H1 H2 H3).
  vm_compute. reflexivity.
Defined.

Lemma reset_is_informational_witness :
  type (stack reset_ri) = 0x100 /\
  Z.land (srr1 (stack reset_ri)) (@MSR_RI power) <> 0 /\
  clean (@symbol_text vm_helps (srr0 (stack reset_ri))) = true /\
  Z.of_nat (length (@symbol_text vm_helps (srr0 (stack reset_ri)))) < 263 /\
  @exception_entry power vm_helps reset_ri =
    Returns tt
      (emit (Prerror banner
             :: Prerror (lit "System Reset at 0000000000001000   opal_entry  MSR 9000000000001002"
                         ++ [newline])
             :: register_dump (stack reset_ri) ++ [Backtrace]) reset_ri).
Proof.
  assert (H1 : type (stack reset_ri) = 0x100) by reflexivity.
  assert (H2 : Z.land (srr1 (stack reset_ri)) (@MSR_RI power) <> 0)
    by (vm_compute; discriminate).
  assert (H3 : clean (@symbol_text vm_helps (srr0 (stack reset_ri))) = true)
    by reflexivity.
  assert (H4 : Z.of_nat (length (@symbol_text vm_helps (srr0 (stack reset_ri)))) < 263)
    by (vm_compute; reflexivity).
  split; [exact H1|]. split; [exact H2|]. split; [exact H3|]. split; [exact H4|].
  rewrite (@reset_is_informational power vm_helps reset_ri H1 H2 H3 H4).
  vm_compute. reflexivity.
Defined.

Lemma unhandled_data_fault_names_direction_witness :
  type (stack dsi_ri) = 0x300 /\
  @vm_dsi long_names (srr0 (stack dsi_ri)) (dar (stack dsi_ri))
    (negb (Z.land (dsisr (stack dsi_ri)) (@DSISR_ISSTORE power) =? 0)) = false /\
  Z.of_nat (length (@symbol_text long_names (srr0 (stack dsi_ri)))) = 400 /\
  @exception_entry power long_names dsi_ri =
    Aborts
      (emit (Prerror (lit "Fatal load address 0000000000003000 at 0000000000001000   "
                      ++ repeat "A"%char 261 ++ [newline])
             :: register_dump (stack dsi_ri)) dsi_ri) /\
  type (stack dsi_store) = 0x300 /\
  @vm_dsi no_help (srr0 (stack dsi_store)) (dar (stack dsi_store))
    (negb (Z.land (dsisr (stack dsi_store)) (@DSISR_ISSTORE power) =? 0)) = false /\
  clean (@symbol_text no_help (srr0 (stack dsi_store))) = true /\
  Z.of_nat (length (@symbol_text no_help (srr0 (stack dsi_store)))) < 239 /\
  @exception_entry power no_help dsi_store =
    Aborts
      (emit (Prerror (lit "Fatal store address 0000000000003000 at 0000000000001000     MSR 9000000000001032"
                      ++ [newline])
             :: register_dump (stack dsi_store)) dsi_store).
Proof.
  assert (H1 : type (stack dsi_ri) = 0x300) by reflexivity.
  assert (H2 : @vm_dsi long_names (srr0 (stack dsi_ri)) (dar (stack dsi_ri))
                 (negb (Z.land (dsisr (stack dsi_ri)) (@DSISR_ISSTORE power) =? 0))
               = false) by reflexivity.
  assert (K1 : type (stack dsi_store) = 0x300) by reflexivity.
  assert (K2 : @vm_dsi no_help (srr0 (stack dsi_store)) (dar (stack dsi_store))
                 (negb (Z.land (dsisr (stack dsi_store)) (@DSISR_ISSTORE power) =? 0))
               = false) by reflexivity.
  assert (K3 : clean (@symbol_text no_help (srr0 (stack dsi_store))) = true)
    by reflexivity.
  assert (K4 : Z.of_nat (length (@symbol_text no_help (srr0 (stack dsi_store)))) < 239)
    by (vm_compute; reflexivity).
  destruct (@unhandled_data_fault_names_direction power long_names dsi_ri H1 H2)
    as (E & _ & _).
  destruct (@unhandled_data_fault_names_direction power no_help dsi_store K1 K2)
    as (_ & _ & F).
  split; [exact H1|]. split; [exact H2|]. split; [vm_compute; reflexivity|].
  split; [rewrite E; vm_compute; reflexivity|].
  split; [exact K1|]. split; [exact K2|]. split; [exact K3|]. split; [exact K4|].
  rewrite (F K3 K4). vm_compute. reflexivity.
Defined.

Lemma retry_is_not_repeated_witness :
  type (stack mce_vm_on) = 0x200 /\
  @exception_entry power vm_helps mce_vm_on
    = Returns tt (final (@exception_entry power vm_helps mce_vm_on) mce_vm_on) /\
  exists m'',
    @exception_entry power vm_helps
      (final (@exception_entry power vm_helps mce_vm_on) mce_vm_on) = Aborts m''.
Proof.
  assert (H1 : type (stack mce_vm_on) = 0x200) by reflexivity.
  assert (H2 : @exception_entry power vm_helps mce_vm_on
               = Returns tt (final (@exception_entry power vm_helps mce_vm_on)
                               mce_vm_on)) by (vm_compute; reflexivity).
  split; [exact H1|]. split; [exact H2|].
  exact (proj2 (@retry_is_not_repeated power vm_helps _ _ H1 H2)).
Defined.

Lemma resolvers_only_for_their_vectors_witness :
  (forall a, @get_symbol no_help a = @get_symbol vm_helps_quietly a) /\
  is_delegated (type (stack reset_ri)) = false /\
  @exception_entry power no_help reset_ri
    = @exception_entry power vm_helps_quietly reset_ri.
Proof.
  assert (H1 : forall a, @get_symbol no_help a = @get_symbol vm_helps_quietly a)
    by (intro a; reflexivity).
  assert (H2 : is_delegated (type (stack reset_ri)) = false) by reflexivity.
  split; [exact H1|]. split; [exact H2|].
  exact (@resolvers_only_for_their_vectors power no_help vm_helps_quietly H1
           reset_ri H2).
Defined.
